(** * OpenMATBC: scenario compiler, priority dispatcher, clock scheduler and
      host/participant synchronisation

    A shallow embedding of [OpenMATBC.py] (class [Main]) and of
    [Networking/server.py] (class [OpenMATBCServerPerspectiveBroker]),
    followed by the properties of the specification that concern them.

    Conventions of the embedding.
    - Python [str] values are Rocq strings over ASCII; [dict]s are
      insertion-ordered association lists, because the code iterates over
      them and the iteration order is observable.
    - Readings of [time.time()] and [default_timer()] and the virtual clock are
      integers in milliseconds (the source holds floats; the constants [10.0]
      seconds and [connection_timeout = 5] seconds appear as [10000] and
      [5000]).
    - A method of [Main] is a function in the monad [M]: it threads the
      object state, and ends normally, by [sys.exit()] or by a Python
      exception.
    - Plugin task classes are external collaborators: a call of one of their
      methods is recorded in the [trace] of the state.  The calls a hook makes
      back into [Main] ([parent().onPause()], [parent().onResume()]) are the
      operations [onPause], [onResume] and [onEnd] of this file.
    - [QMessageBox.critical] blocks for the operator's answer; the answers are
      taken from the [operator] field of the state. *)

From Stdlib Require Import List String Ascii ZArith Lia Bool Arith Sorted Permutation.
Import ListNotations.

Local Open Scope Z_scope.
Local Open Scope list_scope.

(* ================================================================== *)
(** ** Python built-ins used by the code *)
(* ================================================================== *)

Module Py.

(** [s.split(sep)] for a one-character separator. *)
Fixpoint split (sep : ascii) (s : string) : list string :=
  match s with
  | EmptyString => [EmptyString]
  | String c r =>
      if Ascii.eqb c sep then EmptyString :: split sep r
      else match split sep r with
           | h :: t => String c h :: t
           | [] => [String c EmptyString]
           end
  end.

(** [str.isspace] on ASCII: TAB, LF, VT, FF, CR, FS, GS, RS, US, space. *)
Definition isspace (c : ascii) : bool :=
  let n := nat_of_ascii c in
  ((9 <=? n) && (n <=? 13))%nat || ((28 <=? n) && (n <=? 32))%nat.

Fixpoint lstrip (s : string) : string :=
  match s with
  | EmptyString => EmptyString
  | String c r => if isspace c then lstrip r else s
  end.

Fixpoint rstrip (s : string) : string :=
  match s with
  | EmptyString => EmptyString
  | String c r =>
      match rstrip r with
      | EmptyString => if isspace c then EmptyString else String c EmptyString
      | r' => String c r'
      end
  end.

Definition strip (s : string) : string := rstrip (lstrip s).

Fixpoint startswith (p s : string) : bool :=
  match p, s with
  | EmptyString, _ => true
  | String a p', String b s' => Ascii.eqb a b && startswith p' s'
  | String _ _, EmptyString => false
  end.

Definition isupper (c : ascii) : bool :=
  let n := nat_of_ascii c in ((65 <=? n) && (n <=? 90))%nat.
Definition islower (c : ascii) : bool :=
  let n := nat_of_ascii c in ((97 <=? n) && (n <=? 122))%nat.
Definition upper_ascii (c : ascii) : ascii :=
  if islower c then ascii_of_nat (nat_of_ascii c - 32) else c.
Definition lower_ascii (c : ascii) : ascii :=
  if isupper c then ascii_of_nat (nat_of_ascii c + 32) else c.

Fixpoint lower (s : string) : string :=
  match s with
  | EmptyString => EmptyString
  | String c r => String (lower_ascii c) (lower r)
  end.

Fixpoint upper (s : string) : string :=
  match s with
  | EmptyString => EmptyString
  | String c r => String (upper_ascii c) (upper r)
  end.

(** [s.capitalize()]: first character upper-cased, the rest lower-cased. *)
Definition capitalize (s : string) : string :=
  match s with
  | EmptyString => EmptyString
  | String c r => String (upper_ascii c) (lower r)
  end.

Definition isdigit (c : ascii) : bool :=
  let n := nat_of_ascii c in ((48 <=? n) && (n <=? 57))%nat.

Fixpoint all_digits (s : string) : bool :=
  match s with
  | EmptyString => true
  | String c r => isdigit c && all_digits r
  end.

(** [s.isnumeric()] on ASCII: non-empty, decimal digits only. *)
Definition isnumeric (s : string) : bool :=
  match s with
  | EmptyString => false
  | _ => all_digits s
  end.

Fixpoint digits_value (acc : Z) (s : string) : Z :=
  match s with
  | EmptyString => acc
  | String c r => digits_value (10 * acc + (Z.of_nat (nat_of_ascii c) - 48)) r
  end.

(** [int(s)] for an optional sign followed by decimal digits; any other
    text raises [ValueError] ([None]). *)
Definition int (s : string) : option Z :=
  match s with
  | String "-" r => if isnumeric r then Some (- digits_value 0 r) else None
  | String "+" r => if isnumeric r then Some (digits_value 0 r) else None
  | _ => if isnumeric s then Some (digits_value 0 s) else None
  end.

Definition digit_char (d : Z) : ascii := ascii_of_nat (Z.to_nat d + 48).

Fixpoint nat_digits (fuel : nat) (n : Z) (acc : string) : string :=
  match fuel with
  | O => acc
  | S fuel' =>
      let acc' := String (digit_char (n mod 10)) acc in
      if n / 10 =? 0 then acc' else nat_digits fuel' (n / 10) acc'
  end.

(** ["%d" % n] *)
Definition fmt_d (n : Z) : string :=
  if n <? 0 then String "-" (nat_digits (S (Z.to_nat (- n))) (- n) EmptyString)
  else nat_digits (S (Z.to_nat n)) n EmptyString.

(** ["%02d" % n] *)
Definition fmt_02d (n : Z) : string :=
  let s := fmt_d n in
  if (String.length s <? 2)%nat then String "0" s else s.

Definition str_eqb : string -> string -> bool := String.eqb.

Fixpoint mem (x : string) (l : list string) : bool :=
  match l with
  | [] => false
  | y :: r => String.eqb x y || mem x r
  end.

(** Lexicographic order on [str], by code point. *)
Fixpoint str_ltb (a b : string) : bool :=
  match a, b with
  | EmptyString, EmptyString => false
  | EmptyString, String _ _ => true
  | String _ _, EmptyString => false
  | String x a', String y b' =>
      if (nat_of_ascii x <? nat_of_ascii y)%nat then true
      else if (nat_of_ascii y <? nat_of_ascii x)%nat then false
      else str_ltb a' b'
  end.

End Py.

(* ================================================================== *)
(** ** Insertion-ordered dictionaries with [str] keys *)
(* ================================================================== *)

Module Dict.

Definition t (V : Type) : Type := list (string * V).

Fixpoint get {V} (k : string) (d : t V) : option V :=
  match d with
  | [] => None
  | (k', v) :: r => if String.eqb k k' then Some v else get k r
  end.

Definition mem {V} (k : string) (d : t V) : bool :=
  match get k d with Some _ => true | None => false end.

(** [d[k] = v]: an existing key keeps its position, a new key goes last. *)
Fixpoint set {V} (k : string) (v : V) (d : t V) : t V :=
  match d with
  | [] => [(k, v)]
  | (k', v') :: r =>
      if String.eqb k k' then (k', v) :: r else (k', v') :: set k v r
  end.

Definition keys {V} (d : t V) : list string := map fst d.

End Dict.

(* ================================================================== *)
(** ** Data model *)
(* ================================================================== *)

#[local] Set Warnings "-register-all".

(** Values found in a [parameters] tree.  A float is kept as its literal
    text; objects of other types (lists, tuples, ...) as [PObj]. *)
Inductive pyval : Type :=
| PNone
| PBool (b : bool)
| PInt (z : Z)
| PFloat (text : string)
| PStr (s : string)
| PDict (d : list (string * pyval))
| PObj (text : string).

(** Truth value of an object, as in [if not current]. *)
Definition truthy (v : pyval) : bool :=
  match v with
  | PNone => false
  | PBool b => b
  | PInt z => negb (z =? 0)
  | PFloat _ => true
  | PStr s => negb (String.eqb s EmptyString)
  | PDict d => match d with [] => false | _ => true end
  | PObj _ => true
  end.

Definition is_str (s : string) (v : pyval) : bool :=
  match v with PStr s' => String.eqb s' s | _ => false end.

(** What a hook of a plugin calls on the window, [self.parent()]:
    [onPause()], [onResume()], or [showCriticalMessage(text)]. *)
Inductive WindowCall : Type :=
| WcPause
| WcResume
| WcCritical (text : string).

(** The [Task] instance of a plugin: the attribute names [hasattr] finds
    on it, its [parameters] dictionary, what its [getSyncData()] and
    [popNewInputs()] return at present, and the calls that each of its
    [on...] hooks makes on the window at present, in their order (the
    [onStart] of [genericscales] and of [instruction] calls [onPause()];
    a hook that finds no file or no joystick calls
    [showCriticalMessage]). *)
Record TaskClass : Type := mkTaskClass {
  attrs : list string;
  task_parameters : Dict.t pyval;
  sync_payload : pyval;
  new_inputs : pyval;
  window_calls : Dict.t (list WindowCall)
}.

(** One value of [PLUGINS_TASK]; [taskPreviouslyPaused] and [ui_label] are
    keys that may be absent. *)
Record PluginTask : Type := mkPluginTask {
  class : TaskClass;
  TIME_SINCE_UPDATE : Z;
  taskRunning : bool;
  taskPaused : bool;
  taskVisible : bool;
  taskPreviouslyPaused : option bool;
  UPDATE_TIME : option Z;
  RECEIVE_KEY : bool;
  NEED_LOG : bool;
  ui_label : bool
}.

Definition set_class (c : TaskClass) (p : PluginTask) : PluginTask :=
  mkPluginTask c (TIME_SINCE_UPDATE p) (taskRunning p) (taskPaused p)
    (taskVisible p) (taskPreviouslyPaused p) (UPDATE_TIME p) (RECEIVE_KEY p)
    (NEED_LOG p) (ui_label p).
Definition set_TIME_SINCE_UPDATE (t : Z) (p : PluginTask) : PluginTask :=
  mkPluginTask (class p) t (taskRunning p) (taskPaused p)
    (taskVisible p) (taskPreviouslyPaused p) (UPDATE_TIME p) (RECEIVE_KEY p)
    (NEED_LOG p) (ui_label p).
Definition set_taskRunning (b : bool) (p : PluginTask) : PluginTask :=
  mkPluginTask (class p) (TIME_SINCE_UPDATE p) b (taskPaused p)
    (taskVisible p) (taskPreviouslyPaused p) (UPDATE_TIME p) (RECEIVE_KEY p)
    (NEED_LOG p) (ui_label p).
Definition set_taskPaused (b : bool) (p : PluginTask) : PluginTask :=
  mkPluginTask (class p) (TIME_SINCE_UPDATE p) (taskRunning p) b
    (taskVisible p) (taskPreviouslyPaused p) (UPDATE_TIME p) (RECEIVE_KEY p)
    (NEED_LOG p) (ui_label p).
Definition set_taskVisible (b : bool) (p : PluginTask) : PluginTask :=
  mkPluginTask (class p) (TIME_SINCE_UPDATE p) (taskRunning p) (taskPaused p)
    b (taskPreviouslyPaused p) (UPDATE_TIME p) (RECEIVE_KEY p)
    (NEED_LOG p) (ui_label p).
Definition set_taskPreviouslyPaused (b : option bool) (p : PluginTask) : PluginTask :=
  mkPluginTask (class p) (TIME_SINCE_UPDATE p) (taskRunning p) (taskPaused p)
    (taskVisible p) b (UPDATE_TIME p) (RECEIVE_KEY p)
    (NEED_LOG p) (ui_label p).
Definition set_UPDATE_TIME (u : option Z) (p : PluginTask) : PluginTask :=
  mkPluginTask (class p) (TIME_SINCE_UPDATE p) (taskRunning p) (taskPaused p)
    (taskVisible p) (taskPreviouslyPaused p) u (RECEIVE_KEY p)
    (NEED_LOG p) (ui_label p).

(** A scenario command is the list of fields after the task name, paired
    with its priority: [(command, priority)]. *)
Definition Command : Type := (list string * Z)%type.

(** [scenario_content]: [dict[time][task][listOfcommand]]. *)
Definition Scenario : Type := Dict.t (Dict.t (list Command)).

(** The texts handed to [showCriticalMessage], one constructor per call
    site. *)
Inductive CriticalMessage : Type :=
| MsgNumberOfValue (lineNumber : nat) (lineContent : string)
| MsgUnknownPlugin (task : string) (lineNumber : nat)
| MsgWrongTimeFormat (task : string) (lineNumber : nat)
| MsgNotFound (functionname : string) (task : string) (lineNumber : nat)
| MsgNoParametersDict (task : string) (lineNumber : nat)
| MsgVariableUnknownLine (variable task : string) (lineNumber : nat)
| MsgVariableUnknown (key task : string)
| MsgMalformedParameters (task : string)
| MsgNoEntry (task : string)
| MsgNoCommand (task command : string)
| MsgShouldTerminateWithEnd
| MsgNoTaskStarted
| MsgUnableToEvaluate
| MsgTimingOverflow
| MsgRequiresOnUpdate (plugin : string)
| MsgSyncNotClient (plugin : string)
| MsgSyncNoApply (plugin : string)
| MsgInputNotServer (plugin : string)
| MsgInputNoApply (plugin : string)
| MsgInputNoPlugin (plugin : string)
| MsgFromPlugin (plugin text : string).

(** What the program does to its collaborators. *)
Inductive Event : Type :=
| EvCall (task method : string)
    (** [getattr(taskclass, method)()], a hook or a widget method *)
| EvLog (fields : list string)
    (** [self.mainLog.addLine(fields)] *)
| EvDialog (msg : CriticalMessage)
    (** the message box of [showCriticalMessage] *)
| EvLabel (task : string) (shown : bool)
    (** [ui_label.show()] / [ui_label.hide()] *)
| EvSetTitle (task value : string)
    (** [ui_label.setText(value)] *)
| EvTimers (resume : bool)
    (** [timer.pause()] / [timer.resume()] on the registered timers *)
| EvApplyNewInputs (plugin : string) (input : pyval)
    (** [plugin_class.applyNewInputs(input)] *)
| EvCallRemote (method : string) (argument : pyval)
    (** [self.server_communicator.callRemote(method, argument)] *)
| EvApplySyncData (plugin : string) (payload : pyval) (full_update : bool)
| EvPrint (text : string)
| EvClose
| EvReactorStop.

Inductive Exn : Type :=
| KeyError (key : string)
| ValueError
| TypeError
| AttributeError (name : string)
| IndexError
| UnboundLocalError (name : string).

(** The [Main] window object, with the part of its environment it reads:
    the wall clock, the operator in front of the message boxes, and the two
    library functions [float] and [ast.literal_eval], which the embedding
    does not interpret. *)
Record Main : Type := mkMain {
  is_client : bool;
  is_server : bool;
  parameters : Dict.t pyval;
  PLUGINS_TASK : Dict.t PluginTask;
  loadedTasks : list string;
  scenariocontents : Scenario;
  scenarioTimeStr : option string;
  totalElapsedTime_ms : Z;
  last_client_sync : Z;
  connection_timeout : Z;
  experiment_pause : bool;
  experiment_running : bool;
  termination_message_sent : bool;
  ended_time : Z;
  last_time_microsec : Z;
  error_counter : Z;
    (** the attribute of the [OpenMATBCServerPerspectiveBroker] that
        [start_server] creates for this window *)
  (* environment *)
  time_time : Z;
    (** what [time.time()] returns now *)
  default_timer : Z;
    (** what [self.default_timer()] returns now *)
  operator : list Event -> bool;
    (** [true]: the operator presses Abort, given what was shown so far *)
  float_ : string -> option string;
    (** [float(value)]: the literal of the float, [None] for [ValueError] *)
  literal_eval : string -> option pyval;
    (** [ast.literal_eval(value)], [None] when it raises *)
  trace : list Event
    (** the events so far, the most recent first *)
}.

Definition set_parameters (x : Dict.t pyval) (m : Main) : Main :=
  mkMain (is_client m) (is_server m) x (PLUGINS_TASK m) (loadedTasks m)
    (scenariocontents m) (scenarioTimeStr m) (totalElapsedTime_ms m)
    (last_client_sync m) (connection_timeout m) (experiment_pause m)
    (experiment_running m) (termination_message_sent m) (ended_time m)
    (last_time_microsec m) (error_counter m) (time_time m) (default_timer m) (operator m) (float_ m) (literal_eval m) (trace m).
Definition set_PLUGINS_TASK (x : Dict.t PluginTask) (m : Main) : Main :=
  mkMain (is_client m) (is_server m) (parameters m) x (loadedTasks m)
    (scenariocontents m) (scenarioTimeStr m) (totalElapsedTime_ms m)
    (last_client_sync m) (connection_timeout m) (experiment_pause m)
    (experiment_running m) (termination_message_sent m) (ended_time m)
    (last_time_microsec m) (error_counter m) (time_time m) (default_timer m) (operator m) (float_ m) (literal_eval m) (trace m).
Definition set_loadedTasks (x : list string) (m : Main) : Main :=
  mkMain (is_client m) (is_server m) (parameters m) (PLUGINS_TASK m) x
    (scenariocontents m) (scenarioTimeStr m) (totalElapsedTime_ms m)
    (last_client_sync m) (connection_timeout m) (experiment_pause m)
    (experiment_running m) (termination_message_sent m) (ended_time m)
    (last_time_microsec m) (error_counter m) (time_time m) (default_timer m) (operator m) (float_ m) (literal_eval m) (trace m).
Definition set_scenariocontents (x : Scenario) (m : Main) : Main :=
  mkMain (is_client m) (is_server m) (parameters m) (PLUGINS_TASK m)
    (loadedTasks m) x (scenarioTimeStr m) (totalElapsedTime_ms m)
    (last_client_sync m) (connection_timeout m) (experiment_pause m)
    (experiment_running m) (termination_message_sent m) (ended_time m)
    (last_time_microsec m) (error_counter m) (time_time m) (default_timer m) (operator m) (float_ m) (literal_eval m) (trace m).
Definition set_scenarioTimeStr (x : option string) (m : Main) : Main :=
  mkMain (is_client m) (is_server m) (parameters m) (PLUGINS_TASK m)
    (loadedTasks m) (scenariocontents m) x (totalElapsedTime_ms m)
    (last_client_sync m) (connection_timeout m) (experiment_pause m)
    (experiment_running m) (termination_message_sent m) (ended_time m)
    (last_time_microsec m) (error_counter m) (time_time m) (default_timer m) (operator m) (float_ m) (literal_eval m) (trace m).
Definition set_time (x : Z) (m : Main) : Main :=
  mkMain (is_client m) (is_server m) (parameters m) (PLUGINS_TASK m)
    (loadedTasks m) (scenariocontents m) (scenarioTimeStr m) x
    (last_client_sync m) (connection_timeout m) (experiment_pause m)
    (experiment_running m) (termination_message_sent m) (ended_time m)
    (last_time_microsec m) (error_counter m) (time_time m) (default_timer m) (operator m) (float_ m) (literal_eval m) (trace m).
Definition set_last_client_sync (x : Z) (m : Main) : Main :=
  mkMain (is_client m) (is_server m) (parameters m) (PLUGINS_TASK m)
    (loadedTasks m) (scenariocontents m) (scenarioTimeStr m)
    (totalElapsedTime_ms m) x (connection_timeout m) (experiment_pause m)
    (experiment_running m) (termination_message_sent m) (ended_time m)
    (last_time_microsec m) (error_counter m) (time_time m) (default_timer m) (operator m) (float_ m) (literal_eval m) (trace m).
Definition set_experiment_pause (x : bool) (m : Main) : Main :=
  mkMain (is_client m) (is_server m) (parameters m) (PLUGINS_TASK m)
    (loadedTasks m) (scenariocontents m) (scenarioTimeStr m)
    (totalElapsedTime_ms m) (last_client_sync m) (connection_timeout m) x
    (experiment_running m) (termination_message_sent m) (ended_time m)
    (last_time_microsec m) (error_counter m) (time_time m) (default_timer m) (operator m) (float_ m) (literal_eval m) (trace m).
Definition set_experiment_running (x : bool) (m : Main) : Main :=
  mkMain (is_client m) (is_server m) (parameters m) (PLUGINS_TASK m)
    (loadedTasks m) (scenariocontents m) (scenarioTimeStr m)
    (totalElapsedTime_ms m) (last_client_sync m) (connection_timeout m)
    (experiment_pause m) x (termination_message_sent m) (ended_time m)
    (last_time_microsec m) (error_counter m) (time_time m) (default_timer m) (operator m) (float_ m) (literal_eval m) (trace m).
Definition set_termination_message_sent (x : bool) (m : Main) : Main :=
  mkMain (is_client m) (is_server m) (parameters m) (PLUGINS_TASK m)
    (loadedTasks m) (scenariocontents m) (scenarioTimeStr m)
    (totalElapsedTime_ms m) (last_client_sync m) (connection_timeout m)
    (experiment_pause m) (experiment_running m) x (ended_time m)
    (last_time_microsec m) (error_counter m) (time_time m) (default_timer m) (operator m) (float_ m) (literal_eval m) (trace m).
Definition set_ended_time (x : Z) (m : Main) : Main :=
  mkMain (is_client m) (is_server m) (parameters m) (PLUGINS_TASK m)
    (loadedTasks m) (scenariocontents m) (scenarioTimeStr m)
    (totalElapsedTime_ms m) (last_client_sync m) (connection_timeout m)
    (experiment_pause m) (experiment_running m) (termination_message_sent m) x
    (last_time_microsec m) (error_counter m) (time_time m) (default_timer m) (operator m) (float_ m) (literal_eval m) (trace m).
Definition set_last_time_microsec (x : Z) (m : Main) : Main :=
  mkMain (is_client m) (is_server m) (parameters m) (PLUGINS_TASK m)
    (loadedTasks m) (scenariocontents m) (scenarioTimeStr m)
    (totalElapsedTime_ms m) (last_client_sync m) (connection_timeout m)
    (experiment_pause m) (experiment_running m) (termination_message_sent m)
    (ended_time m) x (error_counter m) (time_time m) (default_timer m) (operator m) (float_ m) (literal_eval m) (trace m).
Definition set_error_counter (x : Z) (m : Main) : Main :=
  mkMain (is_client m) (is_server m) (parameters m) (PLUGINS_TASK m)
    (loadedTasks m) (scenariocontents m) (scenarioTimeStr m)
    (totalElapsedTime_ms m) (last_client_sync m) (connection_timeout m)
    (experiment_pause m) (experiment_running m) (termination_message_sent m)
    (ended_time m) (last_time_microsec m) x (time_time m) (default_timer m)
    (operator m) (float_ m) (literal_eval m) (trace m).
Definition set_default_timer (x : Z) (m : Main) : Main :=
  mkMain (is_client m) (is_server m) (parameters m) (PLUGINS_TASK m)
    (loadedTasks m) (scenariocontents m) (scenarioTimeStr m)
    (totalElapsedTime_ms m) (last_client_sync m) (connection_timeout m)
    (experiment_pause m) (experiment_running m) (termination_message_sent m)
    (ended_time m) (last_time_microsec m) (error_counter m) (time_time m) x
    (operator m) (float_ m) (literal_eval m) (trace m).
Definition set_time_time (x : Z) (m : Main) : Main :=
  mkMain (is_client m) (is_server m) (parameters m) (PLUGINS_TASK m)
    (loadedTasks m) (scenariocontents m) (scenarioTimeStr m)
    (totalElapsedTime_ms m) (last_client_sync m) (connection_timeout m)
    (experiment_pause m) (experiment_running m) (termination_message_sent m)
    (ended_time m) (last_time_microsec m) (error_counter m) x (default_timer m) (operator m) (float_ m) (literal_eval m) (trace m).
Definition set_trace (x : list Event) (m : Main) : Main :=
  mkMain (is_client m) (is_server m) (parameters m) (PLUGINS_TASK m)
    (loadedTasks m) (scenariocontents m) (scenarioTimeStr m)
    (totalElapsedTime_ms m) (last_client_sync m) (connection_timeout m)
    (experiment_pause m) (experiment_running m) (termination_message_sent m)
    (ended_time m) (last_time_microsec m) (error_counter m) (time_time m) (default_timer m) (operator m) (float_ m) (literal_eval m) x.

(** The state [Main.__init__] leaves, for a given role, plugin table and
    environment. *)
Definition init_Main (client server : bool) (plugins : Dict.t PluginTask)
    (now : Z) (op : list Event -> bool) (fl : string -> option string)
    (ev : string -> option pyval) : Main :=
  mkMain client server
    [("showlabels", PBool true); ("allowescape", PBool true);
     ("messagetolog", PStr EmptyString); ("allowaltf4", PBool true)]%string
    plugins [] [] None 0 0 5000 false true false 0 now 0 now now op fl ev [].

(* ================================================================== *)
(** ** The monad of [Main] methods *)
(* ================================================================== *)

Inductive Res (A : Type) : Type :=
| Ok (a : A) (m : Main)          (** normal return *)
| Exit (m : Main)                (** [sys.exit()] *)
| Raise (e : Exn) (m : Main)     (** an uncaught exception *)
| Parked (m : Main).             (** waiting in [waitEndofPause] for the
                                     session to be resumed *)
Arguments Ok {A} a m.
Arguments Exit {A} m.
Arguments Raise {A} e m.
Arguments Parked {A} m.

Definition M (A : Type) : Type := Main -> Res A.

Definition ret {A} (a : A) : M A := fun m => Ok a m.
Definition bind {A B} (c : M A) (k : A -> M B) : M B :=
  fun m => match c m with
           | Ok a m' => k a m'
           | Exit m' => Exit m'
           | Raise e m' => Raise e m'
           | Parked m' => Parked m'
           end.
Definition raise {A} (e : Exn) : M A := fun m => Raise e m.
Definition sys_exit {A} : M A := fun m => Exit m.
Definition gets {A} (f : Main -> A) : M A := fun m => Ok (f m) m.
Definition modify (f : Main -> Main) : M unit := fun m => Ok tt (f m).

Declare Scope py_scope.
Delimit Scope py_scope with py.
Notation "x <- c ;; k" := (bind c (fun x => k))
  (at level 61, c at next level, right associativity) : py_scope.
Notation "' pat <- c ;; k" := (bind c (fun x => let 'pat := x in k))
  (at level 61, pat pattern, c at next level, right associativity) : py_scope.
Notation "c ;; k" := (bind c (fun _ => k))
  (at level 61, right associativity) : py_scope.
Local Open Scope py_scope.

(** [for x in l: body(x)] *)
Fixpoint for_ {A} (l : list A) (body : A -> M unit) : M unit :=
  match l with
  | [] => ret tt
  | x :: r => body x ;; for_ r body
  end.

Definition when (b : bool) (c : M unit) : M unit := if b then c else ret tt.

Definition emit (e : Event) : M unit :=
  modify (fun m => set_trace (e :: trace m) m).

(** [self.PLUGINS_TASK[plugin]], a [KeyError] when absent. *)
Definition plugin_entry (plugin : string) : M PluginTask :=
  fun m => match Dict.get plugin (PLUGINS_TASK m) with
           | Some p => Ok p m
           | None => Raise (KeyError plugin) m
           end.

(** [self.PLUGINS_TASK[plugin][field] = value] *)
Definition update_plugin (plugin : string) (f : PluginTask -> PluginTask) : M unit :=
  p <- plugin_entry plugin ;;
  modify (fun m => set_PLUGINS_TASK (Dict.set plugin (f p) (PLUGINS_TASK m)) m).

(** [hasattr(self.getPluginClass(plugin), name)] for a registered plugin. *)
Definition plugin_hasattr (p : PluginTask) (name : string) : bool :=
  Py.mem name (attrs (class p)).

(** The [on...] methods that [Main] itself defines. *)
Definition Main_attrs : list string := ["onEnd"; "onPause"; "onResume"]%string.

(* ================================================================== *)
(** ** Session control: [end], [onEnd], [closeEvent],
       [showCriticalMessage], [onPause], [onResume] *)
(* ================================================================== *)

(** [self.parameters[name]] *)
Definition main_parameter (name : string) : M pyval :=
  fun m => match Dict.get name (parameters m) with
           | Some v => Ok v m
           | None => Raise (KeyError name) m
           end.

(** [Main.end] when the window is being closed already, that is when
    [closeEvent] is running: the [onEnd] hook of every plugin that has one,
    the END line, [self.close()], which Qt ignores while the window is
    closing, then the reactor is stopped (Host) or the process exits. *)
Definition end_closing : M unit :=
  plugins <- gets (fun m => Dict.keys (PLUGINS_TASK m)) ;;
  for_ plugins (fun plugin =>
    when (negb (String.eqb plugin "__main__"))
      (p <- plugin_entry plugin ;;
       when (plugin_hasattr p "onEnd") (emit (EvCall plugin "onEnd")))) ;;
  emit (EvLog ["MAIN"; "STATE"; EmptyString; "END"]%string) ;;
  emit EvClose ;;
  server <- gets is_server ;;
  if server then emit EvReactorStop else sys_exit.

(** [Main.onEnd] called by [closeEvent]. *)
Definition onEnd_closing : M unit :=
  modify (set_experiment_running false) ;;
  server <- gets is_server ;;
  if negb server then end_closing
  else modify (fun m => set_ended_time (time_time m) m).

(** [Main.closeEvent]; [true] for [e.accept()], [false] for [e.ignore()].
    [self.hide()] is recorded as a call on ["__main__"]. *)
Definition closeEvent : M bool :=
  allowaltf4 <- main_parameter "allowaltf4" ;;
  if truthy allowaltf4 then
    emit (EvCall "__main__" "hide") ;;
    onEnd_closing ;;
    ret true
  else ret false.

(** A handler that Qt calls while it serves a call of the window: an
    exception raised in the handler is printed by the binding and does not
    reach the caller; [sys.exit()] in the handler ends the process. *)
Definition from_qt {A} (handler : M A) : M unit :=
  fun m => match handler m with
           | Ok _ m' => Ok tt m'
           | Exit m' => Exit m'
           | Raise _ m' => Ok tt m'
           | Parked m' => Parked m'
           end.

(** [self.close()] on a window that is not being closed: Qt delivers the
    close event to [closeEvent] before [close()] returns. *)
Definition close_ : M unit :=
  emit EvClose ;;
  from_qt closeEvent.

(** [Main.end]: the [onEnd] hook of every plugin that has one, the END
    line, [self.close()], then the reactor is stopped (Host) or the process
    exits. *)
Definition end_ : M unit :=
  plugins <- gets (fun m => Dict.keys (PLUGINS_TASK m)) ;;
  for_ plugins (fun plugin =>
    when (negb (String.eqb plugin "__main__"))
      (p <- plugin_entry plugin ;;
       when (plugin_hasattr p "onEnd") (emit (EvCall plugin "onEnd")))) ;;
  emit (EvLog ["MAIN"; "STATE"; EmptyString; "END"]%string) ;;
  close_ ;;
  server <- gets is_server ;;
  if server then emit EvReactorStop else sys_exit.

(** [Main.onEnd] *)
Definition onEnd : M unit :=
  modify (set_experiment_running false) ;;
  server <- gets is_server ;;
  if negb server then end_
  else modify (fun m => set_ended_time (time_time m) m).

(** [Main.showCriticalMessage]: Abort ends the experiment and exits,
    Ignore returns to the caller. *)
Definition showCriticalMessage (msg : CriticalMessage) : M unit :=
  emit (EvDialog msg) ;;
  abort <- gets (fun m => operator m (trace m)) ;;
  if abort then (onEnd ;; sys_exit) else ret tt.

(** [Main.onPause] *)
Definition onPause (hide_ui : bool) : M unit :=
  emit (EvLog ["MAIN"; "STATE"; EmptyString; "PAUSE"]%string) ;;
  modify (set_experiment_pause true) ;;
  emit (EvTimers false) ;;
  plugins <- gets (fun m => Dict.keys (PLUGINS_TASK m)) ;;
  for_ plugins (fun plugin =>
    when (negb (String.eqb plugin "__main__"))
      (update_plugin plugin (fun p => set_taskPreviouslyPaused (Some (taskPaused p)) p) ;;
       p <- plugin_entry plugin ;;
       when (negb (taskPaused p))
         (update_plugin plugin (set_taskPaused true) ;;
          when (plugin_hasattr p "onPause") (emit (EvCall plugin "onPause"))) ;;
       when hide_ui
         (when (ui_label p) (emit (EvLabel plugin false))) ;;
       emit (EvCall plugin "hide"))).

(** [self.PLUGINS_TASK[plugin]['taskPreviouslyPaused']], a key that exists
    only once [onPause] has run. *)
Definition previously_paused (plugin : string) (p : PluginTask) : M bool :=
  match taskPreviouslyPaused p with
  | Some b => ret b
  | None => raise (KeyError "taskPreviouslyPaused")
  end.

(** [Main.onResume] *)
Definition onResume : M unit :=
  emit (EvLog ["MAIN"; "STATE"; EmptyString; "RESUME"]%string) ;;
  modify (set_experiment_pause false) ;;
  emit (EvTimers true) ;;
  plugins <- gets (fun m => Dict.keys (PLUGINS_TASK m)) ;;
  for_ plugins (fun plugin =>
    when (negb (String.eqb plugin "__main__"))
      (p <- plugin_entry plugin ;;
       back <- (if taskRunning p
                then (prev <- previously_paused plugin p ;; ret (negb prev))
                else ret false) ;;
       when back
         (update_plugin plugin (set_taskPaused false) ;;
          when (plugin_hasattr p "onResume") (emit (EvCall plugin "onResume")) ;;
          when (ui_label p) (emit (EvLabel plugin true)) ;;
          emit (EvCall plugin "show")))).

(* ================================================================== *)
(** ** Scenario compiler: [getCommand], [testParameterVariable],
       [loadScenario], [validateScenario] *)
(* ================================================================== *)

(** [taskclass]: a reference to [self] (for ["__main__"]) or to the [Task]
    instance of a registered plugin. *)
Inductive taskclass_ref : Type :=
| SelfClass
| PluginClass (plugin : string).

Definition taskclass_attrs (m : Main) (tc : taskclass_ref) : list string :=
  match tc with
  | SelfClass => Main_attrs
  | PluginClass plugin =>
      match Dict.get plugin (PLUGINS_TASK m) with
      | Some p => attrs (class p)
      | None => []
      end
  end.

Definition taskclass_hasattr (m : Main) (tc : taskclass_ref) (name : string) : bool :=
  Py.mem name (taskclass_attrs m tc).

(** [hasattr(taskclass, PARAMETERS_VARIABLE)]: [Main.__init__] sets the
    attribute and [load_plugins] registers no plugin without it. *)
Definition taskclass_has_parameters (tc : taskclass_ref) : bool := true.

Definition taskclass_parameters (m : Main) (tc : taskclass_ref) : Dict.t pyval :=
  match tc with
  | SelfClass => parameters m
  | PluginClass plugin =>
      match Dict.get plugin (PLUGINS_TASK m) with
      | Some p => task_parameters (class p)
      | None => []
      end
  end.

(** The loop of [testParameterVariable] over the keys of the address. *)
Fixpoint testParameterVariable_keys (task : string) (current : pyval)
    (adress : list string) : M bool :=
  match adress with
  | [] => ret true
  | k :: rest =>
      match current with
      | PDict d =>
          match Dict.get k d with
          | Some v => testParameterVariable_keys task v rest
          | None => showCriticalMessage (MsgVariableUnknown k task) ;; ret false
          end
      | _ => showCriticalMessage (MsgMalformedParameters task) ;; ret false
      end
  end.

(** [Main.testParameterVariable] *)
Definition testParameterVariable (task : string) (tc : taskclass_ref)
    (adress : string) : M bool :=
  current <- gets (fun m => PDict (taskclass_parameters m tc)) ;;
  if negb (truthy current) then ret false
  else testParameterVariable_keys task current (Py.split "-" adress).

(** What [getCommand] returns: the 3-tuple [(None, None, None)] or the
    4-tuple [(time, task, command, priority)]. *)
Inductive getCommand_result : Type :=
| None3
| Tuple4 (time task : string) (command : list string) (priority : Z).

Definition lifecycle_names : list string :=
  ["onStart"; "onStop"; "onHide"; "onPause"; "onShow"; "onResume"]%string.

(** [lineList.insert(1, x)] on a list of at least one element. *)
Definition insert1 (x : string) (l : list string) : list string :=
  match l with
  | [] => [x]
  | a :: r => a :: x :: r
  end.

(** [return time, task, command, priority]: reading a local variable that
    no branch assigned raises [UnboundLocalError]. *)
Definition return_tuple4 (time task : string) (command : list string)
    (priority : option Z) : M getCommand_result :=
  match priority with
  | Some p => ret (Tuple4 time task command p)
  | None => raise (UnboundLocalError "priority")
  end.

(** [Main.getCommand] *)
Definition getCommand (lineNumber : nat) (lineContent : string) : M getCommand_result :=
  let lineList := Py.split ";" (Py.strip lineContent) in
  if negb ((1 <? List.length lineList)%nat && (List.length lineList <? 5)%nat) then
    showCriticalMessage (MsgNumberOfValue lineNumber lineContent) ;;
    ret None3
  else
    main_parameters <- gets parameters ;;
    let lineList :=
      if (List.length lineList =? 2)%nat || Dict.mem (nth 1 lineList EmptyString) main_parameters
      then insert1 "__main__" lineList else lineList in
    let time := nth 0 lineList EmptyString in
    let task := nth 1 lineList EmptyString in
    let command := skipn 2 lineList in
    let command :=
      if String.eqb task "sysmon" && String.eqb (hd EmptyString command) "feedbackduration"
      then "feedbacks-positive-duration"%string :: tl command else command in
    plugins <- gets PLUGINS_TASK ;;
    let found :=
      if String.eqb task "__main__" then Some SelfClass
      else if Dict.mem task plugins then Some (PluginClass task)
      else None in
    match found with
    | None =>
        showCriticalMessage (MsgUnknownPlugin task lineNumber) ;;
        ret None3
    | Some taskclass =>
        tp <- (if negb (String.length time =? 7)%nat then
                 let splitTime := Py.split "-" time in
                 if (List.length splitTime =? 2)%nat
                    && (String.length (nth 0 splitTime EmptyString) =? 7)%nat
                    && Py.isnumeric (nth 1 splitTime EmptyString)
                 then match Py.int (nth 1 splitTime EmptyString) with
                      | Some p => ret (nth 0 splitTime EmptyString, Some p)
                      | None => raise ValueError
                      end
                 else
                   showCriticalMessage (MsgWrongTimeFormat task lineNumber) ;;
                   ret (time, None)
               else ret (time, Some 0)) ;;
        let time := fst tp in
        let priority := snd tp in
        if (List.length command =? 1)%nat then
          let functionname := ("on" ++ Py.capitalize (hd EmptyString command))%string in
          has <- gets (fun m => taskclass_hasattr m taskclass functionname) ;;
          if negb has && negb (Py.mem functionname lifecycle_names) then
            showCriticalMessage (MsgNotFound functionname task lineNumber) ;;
            ret None3
          else return_tuple4 time task command priority
        else
          if negb (taskclass_has_parameters taskclass) then
            showCriticalMessage (MsgNoParametersDict task lineNumber) ;;
            ret None3
          else
            ok <- testParameterVariable task taskclass (hd EmptyString command) ;;
            if negb ok then
              showCriticalMessage
                (MsgVariableUnknownLine (hd EmptyString command) task lineNumber) ;;
              ret None3
            else return_tuple4 time task command priority
    end.

(** [time, task, command, priority = self.getCommand(...)]: unpacking a
    3-tuple into four names raises [ValueError]. *)
Definition unpack4 (r : getCommand_result)
    : M (string * string * list string * Z) :=
  match r with
  | Tuple4 time task command priority => ret (time, task, command, priority)
  | None3 => raise ValueError
  end.

(** [scenario_content[time]], a [KeyError] when absent. *)
Definition scenario_at (time : string) (sc : Scenario) : M (Dict.t (list Command)) :=
  match Dict.get time sc with
  | Some d => ret d
  | None => raise (KeyError time)
  end.

Definition str_truthy (s : string) : bool := negb (String.eqb s EmptyString).
Definition list_truthy {A} (l : list A) : bool := match l with [] => false | _ => true end.

(** The body of the loop of [loadScenario] for one line of the file. *)
Definition loadScenario_line (lineNumber : nat) (scenario_line : string)
    (scenario_content : Scenario) : M Scenario :=
  let scenario_line := Py.strip scenario_line in
  if negb (Py.startswith "#" scenario_line) && str_truthy scenario_line then
    r <- getCommand lineNumber scenario_line ;;
    '(time, task, command, priority) <- unpack4 r ;;
    modify (fun m => if negb (Py.mem task (loadedTasks m))
                     then set_loadedTasks (loadedTasks m ++ [task]) m else m) ;;
    let scenario_content :=
      if str_truthy time && negb (Dict.mem time scenario_content)
      then Dict.set time [] scenario_content else scenario_content in
    scenario_content <-
      (if str_truthy task then
         at_time <- scenario_at time scenario_content ;;
         if negb (Dict.mem task at_time)
         then ret (Dict.set time (Dict.set task [] at_time) scenario_content)
         else ret scenario_content
       else ret scenario_content) ;;
    if list_truthy command && str_truthy time && str_truthy task then
      at_time <- scenario_at time scenario_content ;;
      match Dict.get task at_time with
      | Some cmds =>
          ret (Dict.set time (Dict.set task (cmds ++ [(command, priority)]) at_time)
                 scenario_content)
      | None => raise (KeyError task)
      end
    else ret scenario_content
  else ret scenario_content.

Fixpoint loadScenario_lines (lineNumber : nat) (lines : list string)
    (scenario_content : Scenario) : M Scenario :=
  match lines with
  | [] => ret scenario_content
  | l :: rest =>
      sc <- loadScenario_line lineNumber l scenario_content ;;
      loadScenario_lines (S lineNumber) rest sc
  end.

(** All [(command, priority)] entries of [checktask], over the time keys
    in dictionary order. *)
Definition task_entries (checktask : string) (sc : Scenario) : list Command :=
  flat_map (fun kv => match Dict.get checktask (snd kv) with
                      | Some cmds => cmds
                      | None => []
                      end) sc.

(** The first loop of [validateScenario]; [false] is its early
    [return False]. *)
Fixpoint validate_tasks (tasks : list string) (sc : Scenario) : M bool :=
  match tasks with
  | [] => ret true
  | checktask :: rest =>
      if String.eqb checktask "__main__" then validate_tasks rest sc
      else
        let entries := task_entries checktask sc in
        if (List.length entries =? 0)%nat then
          showCriticalMessage (MsgNoEntry checktask) ;; ret false
        else if negb (Py.mem "start" (map (fun e => hd EmptyString (fst e)) entries)) then
          showCriticalMessage (MsgNoCommand checktask "start") ;; ret false
        else validate_tasks rest sc
  end.

(** [sorted(scenario_content.items())]: ascending by key, stable. *)
Fixpoint insert_item {V} (kv : string * V) (l : list (string * V)) : list (string * V) :=
  match l with
  | [] => [kv]
  | kv' :: r => if Py.str_ltb (fst kv) (fst kv') then kv :: l else kv' :: insert_item kv r
  end.
Definition sorted_items {V} (d : Dict.t V) : list (string * V) :=
  fold_left (fun acc kv => insert_item kv acc) d [].

(** The [try] block of [validateScenario]: [true] when it finishes,
    [false] when anything in it raises. *)
Definition ends_with_end (sc : Scenario) : bool :=
  match last (map Some (sorted_items sc)) None with
  | None => false                                     (* IndexError *)
  | Some (lasttime, lasttask) =>
      match last (map Some lasttask) None with
      | None => false                                 (* IndexError *)
      | Some (_, lastcmd) =>
          match Dict.get lasttime sc with
          | None => false                             (* KeyError *)
          | Some at_last =>
              if (1 <? List.length (Dict.keys at_last))%nat then false
              else match lastcmd with
                   | [] => false                      (* IndexError *)
                   | first :: _ => Py.mem "end" (fst first)
                   end
          end
      end
  end.

(** [Main.validateScenario] *)
Definition validateScenario (scenario_content : Scenario) : M bool :=
  tasks <- gets loadedTasks ;;
  ok <- validate_tasks tasks scenario_content ;;
  if negb ok then ret false
  else if negb (ends_with_end scenario_content) then
    showCriticalMessage MsgShouldTerminateWithEnd ;; ret false
  else
    tasks <- gets loadedTasks ;;
    if (List.length tasks <=? 1)%nat then
      showCriticalMessage MsgNoTaskStarted ;; ret false
    else ret true.

(** [Main.loadScenario], on the lines of the scenario file. *)
Definition loadScenario (lines : list string) : M Scenario :=
  scenario_content <- loadScenario_lines 0 lines [] ;;
  valid <- validateScenario scenario_content ;;
  if negb valid then sys_exit else ret scenario_content.

(* ================================================================== *)
(** ** Priority dispatcher: [setParameterVariable], [updateLabels],
       [waitEndofPause], [executeScenario] *)
(* ================================================================== *)

(** The new value of a leaf of the parameters tree, converted to the type
    of the value it replaces. *)
Definition coerce (old : pyval) (value : string) : M pyval :=
  match old with
  | PBool _ =>
      if String.eqb (Py.lower value) "true" then ret (PBool true)
      else if String.eqb (Py.lower value) "false" then ret (PBool false)
      else ret old
  | PInt _ =>
      match Py.int value with
      | Some z => ret (PInt z)
      | None => raise ValueError
      end
  | PFloat _ =>
      conv <- gets float_ ;;
      match conv value with
      | Some f => ret (PFloat f)
      | None => raise ValueError
      end
  | PStr _ | PNone => ret (PStr value)
  | PDict _ | PObj _ =>
      ev <- gets literal_eval ;;
      match ev value with
      | Some v => ret v
      | None => showCriticalMessage MsgUnableToEvaluate ;; ret old
      end
  end.

(** Walk [command[:-1]] with [current.get] and assign [current[command[-1]]];
    the result is the updated tree with the value now at the leaf. *)
Fixpoint assign_at (command : list string) (value : string) (current : pyval)
    : M (pyval * pyval) :=
  match command with
  | [] => raise IndexError
  | [k] =>
      match current with
      | PDict d =>
          match Dict.get k d with
          | Some old =>
              new <- coerce old value ;;
              ret (PDict (Dict.set k new d), new)
          | None => raise (KeyError k)
          end
      | _ => raise TypeError
      end
  | k :: rest =>
      match current with
      | PDict d =>
          match Dict.get k d with
          | Some sub =>
              '(sub', new) <- assign_at rest value sub ;;
              ret (PDict (Dict.set k sub' d), new)
          | None => raise TypeError          (* [None] has no such item *)
          end
      | _ => raise (AttributeError "get")
      end
  end.

Definition isinstance_int (v : pyval) : bool :=
  match v with PInt _ | PBool _ => true | _ => false end.

(** [taskclass.parameters = tree] for the object [task] names. *)
Definition store_parameters (task : string) (d : Dict.t pyval) : M unit :=
  if String.eqb task "__main__" then modify (set_parameters d)
  else update_plugin task (fun p =>
         set_class (mkTaskClass (attrs (class p)) d (sync_payload (class p))
                      (new_inputs (class p)) (window_calls (class p))) p).

(** [Main.setParameterVariable]; its result is never used. *)
Definition setParameterVariable (task : string) (tc : taskclass_ref)
    (variable value : string) : M unit :=
  current <- gets (fun m => taskclass_parameters m tc) ;;
  if negb (truthy (PDict current)) then ret tt
  else
    '(tree, new) <- assign_at (Py.split "-" variable) value (PDict current) ;;
    match tree with
    | PDict d => store_parameters task d
    | _ => ret tt
    end ;;
    if String.eqb variable "title" then
      p <- plugin_entry task ;;
      if ui_label p then emit (EvSetTitle task value)
      else raise (KeyError "ui_label")
    else if String.eqb variable "taskupdatetime" && isinstance_int new then
      match Py.int value with
      | Some z => update_plugin task (set_UPDATE_TIME (Some z))
      | None => raise ValueError
      end
    else ret tt.

(** [Main.updateLabels] *)
Definition updateLabels : M unit :=
  tasks <- gets loadedTasks ;;
  for_ tasks (fun plugin_name =>
    when (negb (String.eqb plugin_name "__main__"))
      (p <- plugin_entry plugin_name ;;
       when (ui_label p)
         (if negb (taskVisible p) then emit (EvLabel plugin_name false)
          else
            match Dict.get "title" (task_parameters (class p)) with
            | Some (PStr title) =>
                emit (EvSetTitle plugin_name (Py.upper title)) ;;
                emit (EvLabel plugin_name true)
            | Some _ => raise (AttributeError "upper")
            | None => raise (KeyError "title")
            end))).

(** [Main.waitEndofPause]: the pause barrier.  While the session is paused
    the coroutine stays in its loop; otherwise it records the time and
    returns. *)
Definition waitEndofPause : M unit :=
  paused <- gets experiment_pause ;;
  if paused then (fun m => Parked m)
  else modify (fun m => set_last_time_microsec (default_timer m) m).

(** [self.getPluginClass(task)] *)
Definition getPluginClass (task : string) : M taskclass_ref :=
  if String.eqb task "__main__" then ret SelfClass
  else (_ <- plugin_entry task ;; ret (PluginClass task)).

(** The calls that the hook [functionname] of a [Task] instance makes on
    the window. *)
Definition hook_script (p : PluginTask) (functionname : string) : list WindowCall :=
  match Dict.get functionname (window_calls (class p)) with
  | Some script => script
  | None => []
  end.

Definition window_call (task : string) (c : WindowCall) : M unit :=
  match c with
  | WcPause => onPause true
  | WcResume => onResume
  | WcCritical text => showCriticalMessage (MsgFromPlugin task text)
  end.

(** [getattr(taskclass, functionname)()] for the [on...] methods: the
    hook of a plugin is recorded and makes its calls on the window. *)
Definition call_hook (task : string) (tc : taskclass_ref) (functionname : string) : M unit :=
  match tc with
  | PluginClass _ =>
      emit (EvCall task functionname) ;;
      p <- plugin_entry task ;;
      for_ (hook_script p functionname) (window_call task)
  | SelfClass =>
      if String.eqb functionname "onEnd" then onEnd
      else if String.eqb functionname "onPause" then onPause true
      else if String.eqb functionname "onResume" then onResume
      else raise (AttributeError functionname)
  end.

(** The branch of [executeScenario] on [functionname] that updates the
    flags of [self.PLUGINS_TASK[task]]; it returns [msg]. *)
Definition lifecycle_transition (task functionname : string) : M string :=
  if String.eqb functionname "onStart" then
    update_plugin task (set_taskRunning true) ;;
    update_plugin task (set_taskVisible true) ;;
    update_plugin task (set_taskPaused false) ;;
    emit (EvCall task "show") ;;
    ret "START"%string
  else if String.eqb functionname "onStop" then
    update_plugin task (set_taskRunning false) ;;
    update_plugin task (set_taskPaused true) ;;
    update_plugin task (set_taskVisible false) ;;
    emit (EvCall task "hide") ;;
    ret "STOP"%string
  else if String.eqb functionname "onShow" then
    update_plugin task (set_taskVisible true) ;;
    emit (EvCall task "show") ;;
    ret "SHOW"%string
  else if String.eqb functionname "onHide" then
    update_plugin task (set_taskVisible false) ;;
    emit (EvCall task "hide") ;;
    ret "HIDE"%string
  else if String.eqb functionname "onPause" then
    p <- plugin_entry task ;;
    if negb (taskPaused p) then
      update_plugin task (set_taskPaused true) ;; ret "PAUSE"%string
    else ret EmptyString
  else if String.eqb functionname "onResume" then
    p <- plugin_entry task ;;
    if taskPaused p then
      update_plugin task (set_taskPaused false) ;; ret "RESUME"%string
    else ret EmptyString
  else ret EmptyString.

(** [self.parameters['showlabels']] as a condition. *)
Definition showlabels : M bool :=
  fun m => match Dict.get "showlabels" (parameters m) with
           | Some v => Ok (truthy v) m
           | None => Raise (KeyError "showlabels") m
           end.

(** The body of the innermost loop of [executeScenario] for a command of
    the current priority. *)
Definition execute_command (task : string) (tc : taskclass_ref) (command : list string)
    : M unit :=
  if (List.length command =? 1)%nat then
    let functionname := ("on" ++ Py.capitalize (hd EmptyString command))%string in
    msg <- lifecycle_transition task functionname ;;
    has <- gets (fun m => taskclass_hasattr m tc functionname) ;;
    when has (call_hook task tc functionname) ;;
    when (negb (String.eqb msg EmptyString))
      (emit (EvLog ["MAIN"; "STATE"; Py.upper task; msg]%string)) ;;
    waitEndofPause ;;
    labels <- showlabels ;;
    when labels updateLabels
  else
    match command with
    | variable :: value :: _ =>
        setParameterVariable task tc variable value ;;
        emit (EvLog ["MAIN"; "SCENARIO"; Py.upper task; Py.upper variable; value]%string)
    | _ => raise IndexError
    end.

(** The priorities used at one instant, in order of first encounter. *)
Fixpoint mem_Z (x : Z) (l : list Z) : bool :=
  match l with
  | [] => false
  | y :: r => (x =? y) || mem_Z x r
  end.

Definition gather_priorities (at_time : Dict.t (list Command)) : list Z :=
  fold_left
    (fun priorities task_cmds =>
       fold_left (fun priorities c =>
                    if negb (mem_Z (snd c) priorities)
                    then priorities ++ [snd c] else priorities)
                 (snd task_cmds) priorities)
    at_time [].

(** [priorities.sort(reverse=True)] *)
Fixpoint insert_desc (x : Z) (l : list Z) : list Z :=
  match l with
  | [] => [x]
  | y :: r => if y <? x then x :: l else y :: insert_desc x r
  end.
Definition sort_desc (l : list Z) : list Z := fold_right insert_desc [] l.

(** [Main.executeScenario] *)
Definition executeScenario (time : string) : M unit :=
  sc <- gets scenariocontents ;;
  match Dict.get time sc with
  | None => ret tt
  | Some at_time =>
      let priorities := sort_desc (gather_priorities at_time) in
      for_ priorities (fun cur_priority =>
        for_ at_time (fun task_cmds =>
          let task := fst task_cmds in
          taskclass <- getPluginClass task ;;
          for_ (snd task_cmds) (fun c =>
            let command := fst c in
            let priority := snd c in
            if negb (priority =? cur_priority) then ret tt
            else execute_command task taskclass command)))
  end.

(* ================================================================== *)
(** ** Synchronisation session: plugin roles, the Host's remote methods,
       [doNetworkCommunications] *)
(* ================================================================== *)

(** [plugin_class.is_server()] and [plugin_class.is_client()], as every
    networked plugin defines them from its [network] parameter. *)
Definition class_is_server (plugin : string) : M bool :=
  p <- plugin_entry plugin ;;
  if negb (plugin_hasattr p "is_server") then raise (AttributeError "is_server")
  else match Dict.get "network" (task_parameters (class p)) with
       | None => raise (KeyError "network")
       | Some v =>
           server <- gets is_server ;;
           ret (is_str "server" v || (is_str "as_host" v && server))
       end.

Definition class_is_client (plugin : string) : M bool :=
  p <- plugin_entry plugin ;;
  if negb (plugin_hasattr p "is_client") then raise (AttributeError "is_client")
  else match Dict.get "network" (task_parameters (class p)) with
       | None => raise (KeyError "network")
       | Some v =>
           client <- gets is_client ;;
           ret (is_str "client" v || (is_str "as_host" v && client))
       end.

(** Loops that build a dictionary. *)
Fixpoint collect (l : list string) (body : string -> M (option pyval))
    (acc : Dict.t pyval) : M (Dict.t pyval) :=
  match l with
  | [] => ret acc
  | x :: r =>
      o <- body x ;;
      collect r body (match o with Some v => Dict.set x v acc | None => acc end)
  end.

(** [remote_get_time] *)
Definition remote_get_time : M Z := gets totalElapsedTime_ms.

(** [remote_confirm_connected] *)
Definition remote_confirm_connected : M bool :=
  modify (fun m => set_last_client_sync (time_time m) m) ;;
  ret true.

(** [remote_get_sync_data] *)
Definition remote_get_sync_data : M (Dict.t pyval) :=
  plugins <- gets (fun m => Dict.keys (PLUGINS_TASK m)) ;;
  sync_data <- collect plugins (fun plugin_name =>
    p <- plugin_entry plugin_name ;;
    if plugin_hasattr p "getSyncData" then
      server <- class_is_server plugin_name ;;
      if server then
        emit (EvCall plugin_name "getSyncData") ;;
        ret (Some (sync_payload (class p)))
      else ret None
    else ret None) [] ;;
  running <- gets experiment_running ;;
  sync_data <-
    (if negb running then
       modify (set_termination_message_sent true) ;;
       ret (Dict.set "terminate" (PBool true) sync_data)
     else ret sync_data) ;;
  modify (fun m => set_last_client_sync (time_time m) m) ;;
  ret sync_data.

(** [remote_pass_new_input] *)
Definition remote_pass_new_input (new_input : Dict.t pyval) : M unit :=
  counter_before <- gets error_counter ;;
  for_ new_input (fun item =>
    let plugin_name := fst item in
    let input_data := snd item in
    plugins <- gets PLUGINS_TASK ;;
    match Dict.get plugin_name plugins with
    | Some p =>
        if plugin_hasattr p "applyNewInputs" then
          server <- class_is_server plugin_name ;;
          if server then emit (EvApplyNewInputs plugin_name input_data)
          else
            counter <- gets error_counter ;;
            if 10 <? counter then showCriticalMessage (MsgInputNotServer plugin_name)
            else modify (fun m => set_error_counter (error_counter m + 1) m)
        else showCriticalMessage (MsgInputNoApply plugin_name)
    | None => showCriticalMessage (MsgInputNoPlugin plugin_name)
    end) ;;
  counter <- gets error_counter ;;
  when (counter_before =? counter) (modify (set_error_counter 0)).

(** What the Host answers to the Participant during one exchange. *)
Record HostReplies : Type := mkHostReplies {
  reply_sync_data : Dict.t pyval;   (** to [get_sync_data] *)
  reply_time : Z                    (** to [get_time] *)
}.

(** [Main.doNetworkCommunications]; the remote calls are recorded, the
    answer to [get_sync_data] is the one of [host]. *)
Definition doNetworkCommunications (host : HostReplies) : M (option (Dict.t pyval)) :=
  client <- gets is_client ;;
  when client
    (plugins <- gets (fun m => Dict.keys (PLUGINS_TASK m)) ;;
     new_input <- collect plugins (fun plugin_name =>
       p <- plugin_entry plugin_name ;;
       if plugin_hasattr p "popNewInputs" then
         c <- class_is_client plugin_name ;;
         if c then
           emit (EvCall plugin_name "popNewInputs") ;;
           ret (Some (new_inputs (class p)))
         else ret None
       else ret None) [] ;;
     emit (EvCallRemote "pass_new_input" (PDict new_input))) ;;
  sync_data <-
    (if client then
       emit (EvCallRemote "get_sync_data" PNone) ;;
       ret (Some (reply_sync_data host))
     else ret None) ;;
  match sync_data with
  | Some d => when (Dict.mem "terminate" d) onEnd
  | None => ret tt
  end ;;
  ret sync_data.

(* ================================================================== *)
(** ** Clock scheduler loop: [scenarioUpdateTime], [scheduler] *)
(* ================================================================== *)

Definition MAIN_SCHEDULER_INTERVAL : Z := 1.

(** ["%d:%02d:%02d" % (h, m, s)] for the clock value [ms]. *)
Definition time_key (ms : Z) : string :=
  let secs := ms / 1000 in
  let s := secs mod 60 in
  let m := (secs / 60) mod 60 in
  let h := secs / 60 / 60 in
  (Py.fmt_d h ++ ":" ++ Py.fmt_02d m ++ ":" ++ Py.fmt_02d s)%string.

Definition option_str_eqb (a : string) (b : option string) : bool :=
  match b with Some b' => String.eqb a b' | None => false end.

(** [Main.scenarioUpdateTime] *)
Definition scenarioUpdateTime : M unit :=
  t <- gets totalElapsedTime_ms ;;
  when (9 <? t / 1000 / 60 / 60) (showCriticalMessage MsgTimingOverflow) ;;
  let s := time_key t in
  current <- gets scenarioTimeStr ;;
  when (negb (option_str_eqb s current))
    (modify (set_scenarioTimeStr (Some s)) ;;
     executeScenario s).

(** The application of the sync data to one plugin in [scheduler]. *)
Definition apply_sync (plugin_name : string) (p : PluginTask)
    (sync_data : option (Dict.t pyval)) (full_update : bool) (complain : bool) : M unit :=
  client <- gets is_client ;;
  match (if client then sync_data else None) with
  | None => ret tt
  | Some d =>
      match Dict.get plugin_name d with
      | None => ret tt
      | Some payload =>
          if plugin_hasattr p "applySyncData" then
            c <- class_is_client plugin_name ;;
            if c then emit (EvApplySyncData plugin_name payload full_update)
            else showCriticalMessage (MsgSyncNotClient plugin_name)
          else when complain (showCriticalMessage (MsgSyncNoApply plugin_name))
      end
  end.

(** The body of the plugin loop of [scheduler]. *)
Definition update_plugin_time (plugin_name : string) (elapsed_time_ms : Z)
    (sync_data : option (Dict.t pyval)) : M unit :=
  tasks <- gets loadedTasks ;;
  when (Py.mem plugin_name tasks)
    (p <- plugin_entry plugin_name ;;
     match UPDATE_TIME p with
     | None => ret tt
     | Some update_time =>
         when (negb (taskPaused p))
           (update_plugin plugin_name
              (fun p => set_TIME_SINCE_UPDATE (TIME_SINCE_UPDATE p + elapsed_time_ms) p) ;;
            p <- plugin_entry plugin_name ;;
            if update_time <=? TIME_SINCE_UPDATE p then
              (if plugin_hasattr p "onUpdate" then emit (EvCall plugin_name "onUpdate")
               else showCriticalMessage (MsgRequiresOnUpdate plugin_name)) ;;
              apply_sync plugin_name p sync_data true true ;;
              update_plugin plugin_name (set_TIME_SINCE_UPDATE 0)
            else apply_sync plugin_name p sync_data false false)
     end).

(** The termination condition the Host evaluates in [scheduler]. *)
Definition teardown_due (m : Main) : bool :=
  is_server m
  && ((negb (experiment_running m)
       && (termination_message_sent m || (10000 <? ended_time m - time_time m)))
      || (connection_timeout m <? time_time m - last_client_sync m)).

(** [len(self.parameters['messagetolog']) > 0] and what follows. *)
Definition log_message : M unit :=
  params <- gets parameters ;;
  match Dict.get "messagetolog" params with
  | Some (PStr msg) =>
      when (0 <? String.length msg)%nat
        (emit (EvLog ["MAIN"; "LOG"; msg]%string) ;;
         modify (set_parameters (Dict.set "messagetolog" (PStr EmptyString) params)))
  | Some _ => raise TypeError
  | None => raise (KeyError "messagetolog")
  end.

(** The block of [scheduler] that ends the session of a Host. *)
Definition teardown_if_due : M unit :=
  due <- gets teardown_due ;;
  when due
    (lost <- gets (fun m => connection_timeout m <? time_time m - last_client_sync m) ;;
     when lost (emit (EvPrint "Exiting: connection to client lost.")) ;;
     end_).

(** The time increment of [scheduler]; it returns the elapsed time that the
    plugins are to account for. *)
Definition advance_clock (host : HostReplies) (elapsed_time_ms : Z) : M Z :=
  client <- gets is_client ;;
  if negb client then
    cur_time <- gets totalElapsedTime_ms ;;
    modify (set_time (cur_time + elapsed_time_ms)) ;;
    ret elapsed_time_ms
  else
    old_time <- gets totalElapsedTime_ms ;;
    emit (EvCallRemote "get_time" PNone) ;;
    let new_time := reply_time host in
    modify (set_time new_time) ;;
    now <- gets totalElapsedTime_ms ;;
    ret (now - old_time).

(** What [scheduler] does once it found the experiment running and not
    paused. *)
Definition running_tick (host : HostReplies) (elapsed_time_ms : Z)
    (sync_data : option (Dict.t pyval)) : M unit :=
  elapsed_time_ms <- advance_clock host elapsed_time_ms ;;
  plugins <- gets (fun m => Dict.keys (PLUGINS_TASK m)) ;;
  for_ plugins (fun plugin_name =>
    update_plugin_time plugin_name elapsed_time_ms sync_data) ;;
  log_message ;;
  scenarioUpdateTime.

(** [Main.scheduler]: one tick. *)
Definition scheduler (host : HostReplies) : M unit :=
  current_time_microsec <- gets default_timer ;;
  last <- gets last_time_microsec ;;
  let elapsed_time_ms := current_time_microsec - last in
  if elapsed_time_ms <? MAIN_SCHEDULER_INTERVAL then ret tt
  else
    modify (set_last_time_microsec current_time_microsec) ;;
    sync_data <- doNetworkCommunications host ;;
    teardown_if_due ;;
    paused <- gets experiment_pause ;;
    running <- gets experiment_running ;;
    if paused || negb running then ret tt
    else running_tick host elapsed_time_ms sync_data.

(* ================================================================== *)
(** ** Runs of a process *)
(* ================================================================== *)

(** What happens to a [Main] object between the start of the main loop and
    the end of the process: the looping call fires, the peer calls a remote
    method, or a plugin hook or a Qt event handler calls [onPause],
    [onResume] or [onEnd]. *)
Inductive Step : Type :=
| Tick (time_now timer_now : Z) (host : HostReplies)
| CallOnPause (hide_ui : bool)
| CallOnResume
| CallOnEnd
| RpcConfirmConnected (time_now : Z)
| RpcGetTime
| RpcGetSyncData (time_now : Z)
| RpcPassNewInput (new_input : Dict.t pyval).

Definition ignore {A} (c : M A) : M unit := c ;; ret tt.

(** One step.  [mainLoop] runs [scheduler] unless a previous call is still
    in flight; a call that parked, raised or exited ends the run, so a
    step is only taken after the previous ones returned. *)
Definition step (s : Step) : M unit :=
  match s with
  | Tick time_now timer_now host =>
      modify (set_time_time time_now) ;;
      modify (set_default_timer timer_now) ;;
      scheduler host
  | CallOnPause hide_ui => onPause hide_ui
  | CallOnResume => onResume
  | CallOnEnd => onEnd
  | RpcConfirmConnected time_now =>
      modify (set_time_time time_now) ;; ignore remote_confirm_connected
  | RpcGetTime => ignore remote_get_time
  | RpcGetSyncData time_now =>
      modify (set_time_time time_now) ;; ignore remote_get_sync_data
  | RpcPassNewInput new_input => remote_pass_new_input new_input
  end.

Definition run (steps : list Step) : M unit := for_ steps step.

(** The state in which a computation leaves the object, however it ends. *)
Definition state_of {A} (r : Res A) : Main :=
  match r with
  | Ok _ m | Exit m | Raise _ m | Parked m => m
  end.

Definition returns {A} (r : Res A) : bool :=
  match r with Ok _ _ => true | _ => false end.

(** The events a computation adds to the trace of [m], oldest first. *)
Definition new_events (m m' : Main) : list Event :=
  rev (firstn (List.length (trace m') - List.length (trace m)) (trace m')).

(** How often the method [method] of plugin [task] was called. *)
Definition is_call (task method : string) (e : Event) : bool :=
  match e with
  | EvCall t f => String.eqb t task && String.eqb f method
  | _ => false
  end.
Definition calls (task method : string) (m : Main) : nat :=
  List.length (filter (is_call task method) (trace m)).

(* ================================================================== *)
(** ** Vocabulary of the specification *)
(* ================================================================== *)

(** The lifecycle verbs of section 4.2 and the hook each one names. *)
Inductive Verb : Type := VStart | VStop | VShow | VHide | VPause | VResume.

Definition hook_of (v : Verb) : string :=
  match v with
  | VStart => "onStart"
  | VStop => "onStop"
  | VShow => "onShow"
  | VHide => "onHide"
  | VPause => "onPause"
  | VResume => "onResume"
  end%string.

(** The transition of a [PluginTaskState] that the specification gives
    for each verb. *)
Definition verb_transition (v : Verb) (p : PluginTask) : PluginTask :=
  match v with
  | VStart => set_taskPaused false (set_taskVisible true (set_taskRunning true p))
  | VStop => set_taskVisible false (set_taskPaused true (set_taskRunning false p))
  | VShow => set_taskVisible true p
  | VHide => set_taskVisible false p
  | VPause => if taskPaused p then p else set_taskPaused true p
  | VResume => if taskPaused p then set_taskPaused false p else p
  end.

(* ================================================================== *)
(** ** A concrete plugin table *)
(* ================================================================== *)

(** The entry [load_plugins] creates for a [Task] instance; [label] tells
    whether [place_plugins_on_screen] gave it a [ui_label]. *)
Definition load_plugin (task : TaskClass) (label : bool) : PluginTask :=
  mkPluginTask task 0 false false false None
    (match Dict.get "taskupdatetime" (task_parameters task) with
     | Some (PInt z) => Some z
     | _ => None
     end)
    (Py.mem "keyEvent" (attrs task)) (Py.mem "onLog" (attrs task)) label.

(** [Plugins/track.py], with its [network] parameter set to [as_host]. *)
Definition track_class : TaskClass :=
  mkTaskClass
    ["onStart"; "onUpdate"; "getSyncData"; "applySyncData";
     "popNewInputs"; "applyNewInputs"; "is_client"; "is_server"; "is_local"]%string
    [("taskplacement", PStr "topmid"); ("taskupdatetime", PInt 20);
     ("title", PStr "Tracking"); ("cursorcolor", PStr "#0000FF");
     ("automaticsolver", PBool false); ("targetradius", PFloat "0.1");
     ("resetperformance", PNone); ("network", PStr "as_host")]%string
    (PObj "track state") (PObj "joystick record") [].

(** [Plugins/sysmon.py], with its default [network] parameter: local
    only. *)
Definition sysmon_class : TaskClass :=
  mkTaskClass
    ["onStart"; "onUpdate"; "keyEvent"; "getSyncData"; "applySyncData";
     "popNewInputs"; "applyNewInputs"; "is_client"; "is_server"; "is_local"]%string
    [("title", PStr "System monitoring"); ("taskplacement", PStr "topleft");
     ("taskupdatetime", PInt 200); ("alerttimeout", PInt 10000);
     ("scalestyle", PInt 1);
     ("feedbacks",
      PDict [("positive", PDict [("active", PBool true); ("color", PStr "#ffff00");
                                 ("duration", PFloat "1500.0"); ("trigger", PInt 0)]);
             ("negative", PDict [("active", PBool true); ("color", PStr "#ff0000");
                                 ("duration", PFloat "1500.0"); ("trigger", PInt 0)])]);
     ("network", PStr "no"); ("score", PInt 0)]%string
    (PObj "sysmon state") (PObj "key record") [].

(** [Plugins/scoreboard.py]: no network methods. *)
Definition scoreboard_class : TaskClass :=
  mkTaskClass ["onStart"; "onUpdate"]%string
    [("title", PStr "Scoreboard"); ("taskplacement", PStr "topright");
     ("taskupdatetime", PInt 1000)]%string
    PNone PNone [].

(** [Plugins/genericscales.py]: full screen, no periodic update; with no
    scale file named, [onStart] pauses the session and then reports that
    there is no file to load. *)
Definition genericscales_class : TaskClass :=
  mkTaskClass
    ["onStart"; "onUpdate"; "getSyncData"; "applySyncData"; "popNewInputs";
     "applyNewInputs"; "is_client"; "is_server"; "is_local"]%string
    [("taskplacement", PStr "fullscreen"); ("taskupdatetime", PNone);
     ("filename", PStr EmptyString); ("network", PStr "as_host");
     ("NETWORK_WHILE_PAUSED", PBool true)]%string
    (PObj "scales state") (PObj "scales input")
    [("onStart", [WcPause; WcCritical "No file to load!"])]%string.

Definition demo_plugins : Dict.t PluginTask :=
  [("track", load_plugin track_class true);
   ("sysmon", load_plugin sysmon_class true);
   ("scoreboard", load_plugin scoreboard_class true);
   ("genericscales", load_plugin genericscales_class false)]%string.

(** An operator who never presses Abort, and library functions that
    reject every text. *)
Definition never_abort : list Event -> bool := fun _ => false.
Definition no_float : string -> option string := fun _ => None.
Definition no_literal : string -> option pyval := fun _ => None.

(** A local session, a Host and a Participant over [demo_plugins]. *)
Definition local_Main : Main :=
  init_Main false false demo_plugins 0 never_abort no_float no_literal.
Definition host_Main : Main :=
  init_Main false true demo_plugins 0 never_abort no_float no_literal.
Definition participant_Main : Main :=
  init_Main true false demo_plugins 0 never_abort no_float no_literal.

(** What [onPause] does to one entry of [PLUGINS_TASK], and what
    [onResume] does to it afterwards. *)
Definition pause_entry (p : PluginTask) : PluginTask :=
  let q := set_taskPreviouslyPaused (Some (taskPaused p)) p in
  if taskPaused p then q else set_taskPaused true q.

Definition resumed (p : PluginTask) : bool :=
  taskRunning p
  && match taskPreviouslyPaused p with Some b => negb b | None => false end.

Definition resume_entry (p : PluginTask) : PluginTask :=
  if resumed p then set_taskPaused false p else p.

(** The entries of a dictionary, each value replaced by [f key value]. *)
Definition map_entries {V} (f : string -> V -> V) (d : Dict.t V) : Dict.t V :=
  map (fun kv => (fst kv, f (fst kv) (snd kv))) d.

(** The trace after each entry added its events, the first entry first. *)
Definition add_events {V} (ev : string -> V -> list Event) (d : Dict.t V)
    (t : list Event) : list Event :=
  fold_left (fun acc kv => ev (fst kv) (snd kv) ++ acc) d t.

(** The body of the loop of [onPause] on the entry [p] of plugin [k]: the
    entry it leaves and the events it adds, the most recent first. *)
Definition pause_plugin (k : string) (p : PluginTask) : PluginTask :=
  if String.eqb k "__main__" then p else pause_entry p.

Definition pause_events (hide_ui : bool) (k : string) (p : PluginTask) : list Event :=
  if String.eqb k "__main__" then []
  else [EvCall k "hide"]
       ++ (if hide_ui && ui_label p then [EvLabel k false] else [])
       ++ (if negb (taskPaused p) && plugin_hasattr p "onPause"
           then [EvCall k "onPause"] else []).

(** The same for the loop of [onResume], on an entry that has the key
    [taskPreviouslyPaused] or is not running. *)
Definition resume_plugin (k : string) (p : PluginTask) : PluginTask :=
  if String.eqb k "__main__" then p else resume_entry p.

Definition resume_events (k : string) (p : PluginTask) : list Event :=
  if String.eqb k "__main__" then []
  else if resumed p then
    [EvCall k "show"]
    ++ (if ui_label p then [EvLabel k true] else [])
    ++ (if plugin_hasattr p "onResume" then [EvCall k "onResume"] else [])
  else [].

(** A local session in the middle of a scenario: [track] runs,
    [scoreboard] runs but was paused by a scenario command, and
    [genericscales] has not been started. *)
Definition mid_session_Main : Main :=
  set_PLUGINS_TASK
    [("track", set_taskRunning true (set_taskVisible true (load_plugin track_class true)));
     ("scoreboard",
      set_taskPaused true
        (set_taskRunning true (set_taskVisible true (load_plugin scoreboard_class true))));
     ("genericscales", load_plugin genericscales_class false)]%string
    (set_loadedTasks ["track"; "scoreboard"; "genericscales"; "__main__"]%string local_Main).

(** *** Input entries, in the terms of section 4.5 *)

(** (b) the plugin is authoritative on the Host side: what its
    [is_server()] returns. *)
Definition host_authoritative (server : bool) (p : PluginTask) : bool :=
  match Dict.get "network" (task_parameters (class p)) with
  | Some v => is_str "server" v || (is_str "as_host" v && server)
  | None => false
  end.

(** An entry of [new_input] is for a plugin that exists, has the
    input-application capability and is Host-authoritative; or it is
    misrouted (not Host-authoritative), or the plugin lacks the capability,
    or there is no such plugin. *)
Inductive InputClass : Type := Eligible | Misrouted | NoCapability | NoPlugin.

Definition classify (plugins : Dict.t PluginTask) (server : bool)
    (plugin_name : string) : InputClass :=
  match Dict.get plugin_name plugins with
  | None => NoPlugin
  | Some p =>
      if negb (plugin_hasattr p "applyNewInputs") then NoCapability
      else if host_authoritative server p then Eligible
      else Misrouted
  end.

Definition is_error (c : InputClass) : bool :=
  match c with Eligible => false | _ => true end.

Definition errors_in (m : Main) (new_input : Dict.t pyval) : Z :=
  Z.of_nat (List.length
    (filter (fun item => is_error (classify (PLUGINS_TASK m) (is_server m) (fst item)))
       new_input)).

Definition is_dialog (e : Event) : bool :=
  match e with EvDialog _ => true | _ => false end.

(** The error budget as the specification words it: every malformed or
    misrouted entry counts, a call without errors resets the counter, no
    warning while the errors stay within the first ten, a warning for an
    error after them. *)
Definition error_budget_as_specified (m : Main) (new_input : Dict.t pyval) : Prop :=
  let m' := state_of (remote_pass_new_input new_input m) in
  let errors := errors_in m new_input in
  error_counter m' = (if errors =? 0 then 0 else error_counter m + errors)
  /\ (error_counter m + errors <= 10 ->
      filter is_dialog (new_events m m') = [])
  /\ (10 <= error_counter m -> 0 < errors ->
      filter is_dialog (new_events m m') <> []).

(** The error budget as the code keeps it: a misrouted entry is counted
    while the counter is at most 10 and is warned about otherwise. *)
Definition count_step (plugins : Dict.t PluginTask) (server : bool)
    (counter : Z) (item : string * pyval) : Z :=
  match classify plugins server (fst item) with
  | Misrouted => if 10 <? counter then counter else counter + 1
  | _ => counter
  end.

Definition count_after (plugins : Dict.t PluginTask) (server : bool)
    (counter : Z) (new_input : Dict.t pyval) : Z :=
  fold_left (count_step plugins server) new_input counter.

(** What one entry makes the Host do, given the counter when the entry is
    reached. *)
Definition entry_events (plugins : Dict.t PluginTask) (server : bool)
    (counter : Z) (item : string * pyval) : list Event :=
  match classify plugins server (fst item) with
  | Eligible => [EvApplyNewInputs (fst item) (snd item)]
  | Misrouted => if 10 <? counter then [EvDialog (MsgInputNotServer (fst item))] else []
  | NoCapability => [EvDialog (MsgInputNoApply (fst item))]
  | NoPlugin => [EvDialog (MsgInputNoPlugin (fst item))]
  end.

Fixpoint input_events (plugins : Dict.t PluginTask) (server : bool)
    (counter : Z) (new_input : Dict.t pyval) : list Event :=
  match new_input with
  | [] => []
  | item :: rest =>
      entry_events plugins server counter item
      ++ input_events plugins server (count_step plugins server counter item) rest
  end.

(** Every plugin that takes input can tell its role: it defines
    [is_server] and has a [network] parameter. *)
Definition roles_defined (m : Main) : Prop :=
  forall k p,
    Dict.get k (PLUGINS_TASK m) = Some p ->
    plugin_hasattr p "applyNewInputs" = true ->
    plugin_hasattr p "is_server" = true
    /\ Dict.mem "network" (task_parameters (class p)) = true.

(** The operator answers Ignore to every message box. *)
Definition ignores_dialogs (m : Main) : Prop :=
  forall shown, operator m shown = false.

(* ================================================================== *)
(** ** Relations between the state before and after a method *)
(* ================================================================== *)

(** [stable R c]: whatever way [c] ends, the state it leaves is related by
    [R] to the state it started from. *)
Definition stable {A} (R : Main -> Main -> Prop) (c : M A) : Prop :=
  forall m, R m (state_of (c m)).

(** [R] does not see the field that [setter] writes. *)
Definition ignores {X} (R : Main -> Main -> Prop) (setter : X -> Main -> Main) : Prop :=
  forall x m, R m (setter x m).

(** [R] does not see the event [e] in the trace. *)
Definition quiet (R : Main -> Main -> Prop) (e : Event) : Prop :=
  forall m, R m (set_trace (e :: trace m) m).

(** Relations that compare one observation of the state before and after. *)
Definition same {B} (f : Main -> B) : Main -> Main -> Prop :=
  fun m m' => f m' = f m.

(** The events that tell of the session itself: the stop of the reactor
    and the calls of the Host's remote methods. *)
Definition loud (e : Event) : bool :=
  match e with
  | EvReactorStop | EvCallRemote _ _ => true
  | _ => false
  end.

(** The events of [end]: the [onEnd] hooks, the END line, the window
    closed and hidden, the reactor stopped. *)
Definition of_the_end (e : Event) : bool :=
  match e with
  | EvCall _ f => String.eqb f "onEnd" || String.eqb f "hide"
  | EvLog _ | EvClose | EvReactorStop => true
  | _ => false
  end.

(** A frame: a preorder that [onEnd] respects and that sees neither the
    events that are not loud, nor the fields that the commands of a
    scenario write. *)
Record frame (R : Main -> Main -> Prop) : Prop := mkFrame {
  frame_refl : forall m, R m m;
  frame_trans : forall a b c, R a b -> R b c -> R a c;
  frame_emit : forall e, loud e = false -> quiet R e;
  frame_onEnd : stable R onEnd;
  frame_PLUGINS_TASK : ignores R set_PLUGINS_TASK;
  frame_parameters : ignores R set_parameters;
  frame_last_time_microsec : ignores R set_last_time_microsec;
  frame_experiment_pause : ignores R set_experiment_pause
}.

(** *** Termination of a session *)

(** Once the experiment has stopped it stays stopped. *)
Definition stays_ended : Main -> Main -> Prop :=
  fun a b => experiment_running a = false -> experiment_running b = false.

(** The Host finalises its teardown when [end] stops the reactor. *)
Definition is_stop (e : Event) : bool :=
  match e with EvReactorStop => true | _ => false end.
Definition stops (m : Main) : nat := List.length (filter is_stop (trace m)).

(** On a Host, the reactor is not stopped. *)
Definition host_goes_on : Main -> Main -> Prop :=
  fun a b => is_server a = true -> is_server b = true /\ stops b = stops a.

(** A Host that ended its session at time 1000, with the flag not yet
    delivered, and the same Host once the flag was delivered. *)
Definition ended_host : Main :=
  set_last_client_sync 900
    (set_ended_time 1000 (set_experiment_running false host_Main)).
Definition acknowledged_host : Main :=
  set_termination_message_sent true ended_host.

(** *** The Participant's clock *)

(** The calls of the Host's [get_time] that a Participant made. *)
Definition is_get_time (e : Event) : bool :=
  match e with
  | EvCallRemote f _ => String.eqb f "get_time"
  | _ => false
  end.
Definition get_time_calls (m : Main) : nat :=
  List.length (filter is_get_time (trace m)).

(** What the property of the Participant's clock looks at. *)
Definition participant_view (m : Main) : bool * Z * nat :=
  (is_client m, totalElapsedTime_ms m, get_time_calls m).

(** *** Pauses and the periodic updates *)

(** The calls of [onUpdate] so far, the most recent first. *)
Definition is_update (e : Event) : bool :=
  match e with
  | EvCall _ f => String.eqb f "onUpdate"
  | _ => false
  end.
Definition update_events (m : Main) : list Event := filter is_update (trace m).

(** What a tick must leave alone while the session is paused or stopped:
    the pause flag, the virtual clock, every entry of [PLUGINS_TASK] (with
    its accumulator [TIME_SINCE_UPDATE]), the update calls and the recorded
    time key. *)
Definition paused_view (m : Main)
    : bool * Z * Dict.t PluginTask * list Event * option string :=
  (experiment_pause m, totalElapsedTime_ms m, PLUGINS_TASK m, update_events m,
   scenarioTimeStr m).

(** *** Readings of the clocks *)

(** The state with other readings of the wall clock and of the timer, and
    another time of the last tick. *)
Definition retimed (a b c : Z -> Z) (m : Main) : Main :=
  set_time_time (a (time_time m))
    (set_default_timer (b (default_timer m))
       (set_last_time_microsec (c (last_time_microsec m)) m)).

(** The state as it would be had the timer been started [d] later: its
    reading and the time of the last tick are [d] earlier. *)
Definition shift (d : Z) : Main -> Main :=
  retimed (fun t => t) (fun t => t - d) (fun t => t - d).

Definition res_map {A} (f : Main -> Main) (r : Res A) : Res A :=
  match r with
  | Ok a m => Ok a (f m)
  | Exit m => Exit (f m)
  | Raise e m => Raise e (f m)
  | Parked m => Parked (f m)
  end.

(** [c] does the same from the state [f m] as from [m]. *)
Definition commutes {A} (f : Main -> Main) (c : M A) : Prop :=
  forall m, c (f m) = res_map f (c m).

(** A step with the reading of the timer [d] earlier. *)
Definition timer_shift (d : Z) (s : Step) : Step :=
  match s with
  | Tick time_now timer_now host => Tick time_now (timer_now - d) host
  | _ => s
  end.

(** The steps of a local session: ticks, and calls of [onPause] and
    [onResume] by hooks and event handlers. *)
Definition local_step (s : Step) : bool :=
  match s with
  | Tick _ _ _ | CallOnPause _ | CallOnResume => true
  | _ => false
  end.

Definition is_tick (s : Step) : bool :=
  match s with Tick _ _ _ => true | _ => false end.

(** What is compared between two runs: how the run ended, the virtual
    clock, the plugin table and the trace. *)
Inductive Ending : Type := Returned | Exited | Raised (e : Exn) | Waiting.

Definition ending {A} (r : Res A) : Ending :=
  match r with
  | Ok _ _ => Returned
  | Exit _ => Exited
  | Raise e _ => Raised e
  | Parked _ => Waiting
  end.

Definition observation {A} (r : Res A)
    : Ending * Z * Dict.t PluginTask * list Event * option string :=
  (ending r, totalElapsedTime_ms (state_of r), PLUGINS_TASK (state_of r),
   trace (state_of r), scenarioTimeStr (state_of r)).

(** The second half of the property as the specification words it: the
    updates of plugin [k] over a window with a pause during which the timer
    advanced by [P] are as many as over the window without the pause, the
    later ticks coming [P] earlier. *)
Definition pause_neutral_as_specified (m : Main)
    (before during after : list Step) (P : Z) (k : string) : Prop :=
  calls k "onUpdate"
    (state_of (run (before ++ [CallOnPause true] ++ during
                      ++ [CallOnResume] ++ after) m))
  = calls k "onUpdate"
      (state_of (run (before ++ map (timer_shift P) after) m)).

(** A local session whose scenario loads [track] and [scoreboard] and has
    started neither yet. *)
Definition loaded_Main : Main :=
  set_loadedTasks ["track"; "scoreboard"; "__main__"]%string local_Main.


(** A host that has nothing to say, for the ticks of local sessions. *)
Definition h0 : HostReplies := mkHostReplies [] 0.

(** The session [loaded_Main] with [track] started, after one tick and the
    begin of a pause. *)
Definition paused_Main : Main :=
  state_of (run [Tick 20 20 h0; CallOnPause true]
              (set_PLUGINS_TASK
                 (Dict.set "track"
                    (set_taskRunning true
                       (set_taskVisible true (load_plugin track_class true)))
                    (PLUGINS_TASK loaded_Main))
                 loaded_Main)).


(* ------------------------------------------------------------------ *)
(** ** Lines that [getCommand] rejects *)

(** The fields of a line as [getCommand] reads them, once [__main__] is
    inserted where the line names no plugin. *)
Definition line_fields (m : Main) (lineContent : string) : list string :=
  let lineList := Py.split ";" (Py.strip lineContent) in
  if (List.length lineList =? 2)%nat
     || Dict.mem (nth 1 lineList EmptyString) (parameters m)
  then insert1 "__main__" lineList else lineList.

Definition line_time (m : Main) (lineContent : string) : string :=
  nth 0 (line_fields m lineContent) EmptyString.

Definition line_task (m : Main) (lineContent : string) : string :=
  nth 1 (line_fields m lineContent) EmptyString.

Definition line_command (m : Main) (lineContent : string) : list string :=
  let command := skipn 2 (line_fields m lineContent) in
  if String.eqb (line_task m lineContent) "sysmon"
     && String.eqb (hd EmptyString command) "feedbackduration"
  then "feedbacks-positive-duration"%string :: tl command else command.

Definition line_taskclass (m : Main) (lineContent : string) : option taskclass_ref :=
  let task := line_task m lineContent in
  if String.eqb task "__main__" then Some SelfClass
  else if Dict.mem task (PLUGINS_TASK m) then Some (PluginClass task)
  else None.

(** Whether the address leads to a value in the parameters tree. *)
Fixpoint parameter_known (current : pyval) (adress : list string) : bool :=
  match adress with
  | [] => true
  | k :: rest =>
      match current with
      | PDict d =>
          match Dict.get k d with
          | Some v => parameter_known v rest
          | None => false
          end
      | _ => false
      end
  end.

(** The reasons for which [getCommand] rejects a line. *)
Inductive Rejection : Type :=
| FieldCount          (** fewer than 2 or more than 4 fields *)
| UnknownTask         (** neither [__main__] nor a registered plugin *)
| UnknownVerb         (** no such method and not a lifecycle verb *)
| UnknownParameter.   (** no such path in the parameters of the task *)

Definition rejection (m : Main) (lineContent : string) : option Rejection :=
  let n := List.length (Py.split ";" (Py.strip lineContent)) in
  if negb ((1 <? n)%nat && (n <? 5)%nat) then Some FieldCount
  else
    match line_taskclass m lineContent with
    | None => Some UnknownTask
    | Some taskclass =>
        let command := line_command m lineContent in
        if (List.length command =? 1)%nat then
          let functionname := ("on" ++ Py.capitalize (hd EmptyString command))%string in
          if negb (taskclass_hasattr m taskclass functionname)
             && negb (Py.mem functionname lifecycle_names)
          then Some UnknownVerb else None
        else
          let current := PDict (taskclass_parameters m taskclass) in
          if truthy current
             && parameter_known current (Py.split "-" (hd EmptyString command))
          then None else Some UnknownParameter
    end.

(** A time field that is neither [H:MM:SS] nor [H:MM:SS-n] for a number
    [n]. *)
Definition time_malformed (time : string) : bool :=
  let splitTime := Py.split "-" time in
  negb (String.length time =? 7)%nat
  && negb ((List.length splitTime =? 2)%nat
           && (String.length (nth 0 splitTime EmptyString) =? 7)%nat
           && Py.isnumeric (nth 1 splitTime EmptyString)).

(** The lines of the file that [loadScenario] passes to [getCommand]. *)
Definition considered (scenario_line : string) : bool :=
  negb (Py.startswith "#" (Py.strip scenario_line))
  && str_truthy (Py.strip scenario_line).

(** Dialogs were added to the trace, and nothing else changed. *)
Definition only_dialogs (m m' : Main) : Prop :=
  exists shown : list Event,
    m' = set_trace (shown ++ trace m) m
    /\ forallb is_dialog shown = true.

(** The time key and the priority that [getCommand] reads in the time
    field; no priority when the field is malformed. *)
Definition time_and_priority (time : string) : string * option Z :=
  if negb (String.length time =? 7)%nat then
    let splitTime := Py.split "-" time in
    if (List.length splitTime =? 2)%nat
       && (String.length (nth 0 splitTime EmptyString) =? 7)%nat
       && Py.isnumeric (nth 1 splitTime EmptyString)
    then (nth 0 splitTime EmptyString,
          Some (Py.digits_value 0 (nth 1 splitTime EmptyString)))
    else (time, None)
  else (time, Some 0).


(* ------------------------------------------------------------------ *)
(** ** Runs of the dispatcher *)

(** The virtual clock, the recorded time key and the role. *)
Definition clock_view (m : Main) : Z * option string * bool * bool :=
  (totalElapsedTime_ms m, scenarioTimeStr m, is_client m, is_server m).

(** The key for which [executeScenario] ran between [m] and [m']:
    [scenarioUpdateTime] records the key just before it calls the
    dispatcher, and nothing else writes [scenarioTimeStr]. *)
Definition dispatched (m m' : Main) : list string :=
  match scenarioTimeStr m' with
  | Some k => if option_str_eqb k (scenarioTimeStr m) then [] else [k]
  | None => []
  end.

(** The keys for which the dispatcher ran during a run, oldest first. *)
Fixpoint dispatches (steps : list Step) (m : Main) : list string :=
  match steps with
  | [] => []
  | s :: rest =>
      dispatched m (state_of (step s m))
      ++ match step s m with
         | Ok _ m' => dispatches rest m'
         | _ => []
         end
  end.

(** The recorded key is the key of a past value of the clock. *)
Definition recorded_behind (m : Main) : Prop :=
  0 <= totalElapsedTime_ms m
  /\ forall k, scenarioTimeStr m = Some k ->
       exists t0, 0 <= t0 <= totalElapsedTime_ms m /\ k = time_key t0.

(** The clock of the Host, as its replies to [get_time] show it, does not
    run backwards from [t] on. *)
Fixpoint host_clock_advances (t : Z) (steps : list Step) : bool :=
  match steps with
  | [] => true
  | Tick _ _ host :: rest =>
      (t <=? reply_time host) && host_clock_advances (reply_time host) rest
  | _ :: rest => host_clock_advances t rest
  end.

(** The last sentence of the property as the specification words it: in
    a run that takes the clock to the time [T] of the [end] command or
    beyond, the dispatcher runs exactly once for the key of [T]. *)
Definition end_dispatched_once_as_specified (m : Main) (steps : list Step)
    (T : Z) : Prop :=
  T <= totalElapsedTime_ms (state_of (run steps m)) ->
  count_occ string_dec (dispatches steps m) (time_key T) = 1%nat.

(** A local session with [track] loaded, whose scenario starts [track] at
    0:00:00 and ends at 0:00:02. *)
Definition short_Main : Main :=
  set_scenariocontents
    [("0:00:00", [("track", [(["start"], 0)])]);
     ("0:00:02", [("__main__", [(["end"], 0)])])]%string
    (set_loadedTasks ["track"; "__main__"]%string local_Main).

(** The key [k] is the key of a time that the clock of [m] has not
    passed, in a later second than the recorded key. *)
Definition later (m : Main) (k : string) : Prop :=
  exists t, k = time_key t
            /\ totalElapsedTime_ms m <= t
            /\ forall t0, 0 <= t0 <= totalElapsedTime_ms m ->
                 scenarioTimeStr m = Some (time_key t0) ->
                 t0 / 1000 < t / 1000.


(* ------------------------------------------------------------------ *)
(** ** The order of a dispatch *)

(** The commands of priority [p] at one instant, task by task: what the
    two inner loops of [executeScenario] go through for [cur_priority]. *)
Definition tier (p : Z) (at_time : Dict.t (list Command))
    : list (string * list Command) :=
  map (fun task_cmds =>
         (fst task_cmds, filter (fun c => snd c =? p) (snd task_cmds)))
      at_time.

Definition run_tier (groups : list (string * list Command)) : M unit :=
  for_ groups (fun g =>
    taskclass <- getPluginClass (fst g) ;;
    for_ (snd g) (fun c => execute_command (fst g) taskclass (fst c))).

(** The commands of an instant in the order of their dispatch. *)
Definition dispatch_order (at_time : Dict.t (list Command))
    : list (string * Command) :=
  flat_map (fun p =>
              flat_map (fun g => map (fun c => (fst g, c)) (snd g))
                       (tier p at_time))
           (sort_desc (gather_priorities at_time)).

(** A compiled line: the time key, the task, the command and the
    priority that [getCommand] returns. *)
Record Line : Type := mkLine {
  l_time : string;
  l_task : string;
  l_command : list string;
  l_priority : Z
}.

Definition or_empty {A} (o : option (list A)) : list A :=
  match o with Some l => l | None => [] end.

(** What [loadScenario] does to [scenario_content] for a compiled line:
    the command goes last in the list of its task at its time key, a new
    task last among the tasks of the time key, a new time key last. *)
Definition add_command (l : Line) (sc : Scenario) : Scenario :=
  let at_time := or_empty (Dict.get (l_time l) sc) in
  let cmds := or_empty (Dict.get (l_task l) at_time) in
  Dict.set (l_time l)
    (Dict.set (l_task l) (cmds ++ [(l_command l, l_priority l)]) at_time) sc.

Definition compile (lines : list Line) : Scenario :=
  fold_left (fun sc l => add_command l sc) lines [].

(** The elements of a list in the order of their first appearance. *)
Definition first_appearance (l : list string) : list string :=
  fold_left (fun seen x => if Py.mem x seen then seen else seen ++ [x]) l [].

(** The lines of a time key, the commands of a task among them, in the
    order of the file. *)
Definition lines_at (time : string) (lines : list Line) : list Line :=
  filter (fun l => String.eqb (l_time l) time) lines.

Definition commands_of (task : string) (lines : list Line) : list Command :=
  map (fun l => (l_command l, l_priority l))
      (filter (fun l => String.eqb (l_task l) task) lines).

(** The property as the specification words it: within a tier, the
    commands of an instant are dispatched in the order of the file. *)
Definition tier_in_file_order_as_specified (lines : list Line) (time : string)
    : Prop :=
  let at_time := or_empty (Dict.get time (compile lines)) in
  dispatch_order at_time
  = flat_map (fun p =>
                map (fun l => (l_task l, (l_command l, l_priority l)))
                    (filter (fun l => l_priority l =? p) (lines_at time lines)))
             (sort_desc (gather_priorities at_time)).

(** The entries that [executeScenario] wrote to the log of the session,
    oldest first. *)
Definition log_entry (e : Event) : list (list string) :=
  match e with EvLog line => [line] | _ => [] end.
Definition session_log (m : Main) : list (list string) :=
  flat_map log_entry (rev (trace m)).

(** Three lines of one instant and one priority. *)
Definition interleaved : list Line :=
  [mkLine "0:00:05" "track" ["start"] 0;
   mkLine "0:00:05" "sysmon" ["start"] 0;
   mkLine "0:00:05" "track" ["hide"] 0]%string.

(** The tasks of an instant with their commands, as [loadScenario]
    builds them from the lines of that instant. *)
Definition group (lines : list Line) (at_time : Dict.t (list Command))
    : Dict.t (list Command) :=
  fold_left
    (fun at_time l =>
       Dict.set (l_task l)
         (or_empty (Dict.get (l_task l) at_time) ++ [(l_command l, l_priority l)])
         at_time)
    lines at_time.

(** [loadedTasks] once [loadScenario] has seen a line of [task]. *)
Definition register (task : string) (m : Main) : Main :=
  if negb (Py.mem task (loadedTasks m))
  then set_loadedTasks (loadedTasks m ++ [task]) m else m.

(** The compiled lines of a file of which [getCommand] accepts every line
    that is neither blank nor a comment, with the state after the last
    line. *)
Fixpoint accepted_lines (lineNumber : nat) (lines : list string) (m : Main)
    : option (list Line * Main) :=
  match lines with
  | [] => Some ([], m)
  | scenario_line :: rest =>
      if considered scenario_line then
        match getCommand lineNumber (Py.strip scenario_line) m with
        | Ok (Tuple4 time task command priority) m1 =>
            if str_truthy time && str_truthy task && list_truthy command then
              match accepted_lines (S lineNumber) rest (register task m1) with
              | Some (ls, m') => Some (mkLine time task command priority :: ls, m')
              | None => None
              end
            else None
        | _ => None
        end
      else accepted_lines (S lineNumber) rest m
  end.

(** The entry of [task] after the flag updates of a verb, the other
    entries, and the hook calls so far. *)
Definition transition_post (v : Verb) (task : string) (p : PluginTask)
    (m m1 : Main) : Prop :=
  Dict.get task (PLUGINS_TASK m1) = Some (verb_transition v p)
  /\ (forall other, other <> task ->
        Dict.get other (PLUGINS_TASK m1) = Dict.get other (PLUGINS_TASK m))
  /\ (forall v', calls task (hook_of v') m1 = calls task (hook_of v') m).

(** The hook [functionname] of the task, if it has one, makes no call on
    the window. *)
Definition keeps_to_its_task (p : PluginTask) (functionname : string) : Prop :=
  plugin_hasattr p functionname = true -> hook_script p functionname = [].

(** The dispatch of the lifecycle command [word] on [task]. *)
Definition dispatch_command (task word : string) : M unit :=
  taskclass <- getPluginClass task ;;
  execute_command task taskclass [word].

(** The property as the specification words it: after the command the
    entry of the task has made the transition of the verb, and the hook of
    the verb was invoked on the task if the task defines it. *)
Definition lifecycle_as_specified (v : Verb) (word task : string)
    (p : PluginTask) (m : Main) : Prop :=
  let m' := state_of (dispatch_command task word m) in
  Dict.get task (PLUGINS_TASK m') = Some (verb_transition v p)
  /\ calls task (hook_of v) m'
     = (calls task (hook_of v) m
        + (if plugin_hasattr p (hook_of v) then 1 else 0))%nat.

(** The hook calls of a task do not get fewer. *)
Definition calls_grow (task method : string) (m m' : Main) : Prop :=
  (calls task method m <= calls task method m')%nat.

(** The state after a call of [remote_pass_new_input] changed the counter
    and the trace. *)
Definition with_input_effects (counter : Z) (events : list Event) (m : Main) : Main :=
  set_error_counter counter (set_trace (events ++ trace m) m).


(* ------------------------------------------------------------------ *)
(** ** What a run leaves alone *)

(** What only [__init__] and [loadScenario] write: the role, the loaded
    tasks, the compiled scenario and the time-out of the connection. *)
Definition static_view (m : Main)
    : bool * bool * list string * Scenario * Z :=
  (is_client m, is_server m, loadedTasks m, scenariocontents m,
   connection_timeout m).

(** Whether plugin [k] is registered with the paused flag set. *)
Definition plugin_paused (k : string) (m : Main) : bool :=
  match Dict.get k (PLUGINS_TASK m) with
  | Some p => taskPaused p
  | None => false
  end.

(** The [onEnd] hook of plugin [k], when it defines one. *)
Definition end_events (k : string) (p : PluginTask) : list Event :=
  if negb (String.eqb k "__main__") && plugin_hasattr p "onEnd"
  then [EvCall k "onEnd"] else [].

(** Whether [closeEvent] ends the session: [allowaltf4] is set. *)
Definition close_reenters (m : Main) : bool :=
  match Dict.get "allowaltf4" (parameters m) with
  | Some v => truthy v
  | None => false
  end.

(** The trace after one pass of [end] over the plugins [d], from the trace
    [t]: the [onEnd] hooks, the END line, the window closed. *)
Definition end_line : Event := EvLog ["MAIN"; "STATE"; EmptyString; "END"]%string.
Definition ended_trace (d : Dict.t PluginTask) (t : list Event) : list Event :=
  EvClose :: end_line :: add_events end_events d t.

(** The trace a session that is not a Host leaves when [end] exits: one
    pass, or two when closing the window ends the session again. *)
Definition exit_trace (m : Main) : list Event :=
  if close_reenters m
  then ended_trace (PLUGINS_TASK m)
         (EvCall "__main__" "hide" :: ended_trace (PLUGINS_TASK m) (trace m))
  else ended_trace (PLUGINS_TASK m) (trace m).

(** The END lines of the log so far. *)
Definition is_end_line (e : Event) : bool :=
  match e with
  | EvLog ["MAIN"; "STATE"; EmptyString; "END"]%string => true
  | _ => false
  end.
Definition end_lines (m : Main) : nat :=
  List.length (filter is_end_line (trace m)).

(** An operator who answers every message box with Abort. *)
Definition always_abort : list Event -> bool := fun _ => true.
Definition aborting_Main : Main :=
  init_Main false false demo_plugins 0 always_abort no_float no_literal.

(** Whether the plugin loop of [scheduler] accounts the elapsed time to
    the entry [p] of a plugin, and whether the update of the plugin is
    then due. *)
Definition accounted (loaded : bool) (p : PluginTask) : bool :=
  loaded && negb (taskPaused p)
  && match UPDATE_TIME p with Some _ => true | None => false end.

Definition update_due (loaded : bool) (elapsed : Z) (p : PluginTask) : bool :=
  accounted loaded p
  && match UPDATE_TIME p with
     | Some update_time => update_time <=? TIME_SINCE_UPDATE p + elapsed
     | None => false
     end.

(** [track], loaded and running in a local session, 15 ms after its last
    update. *)
Definition tracking_Main : Main :=
  set_PLUGINS_TASK
    (Dict.set "track"
       (set_TIME_SINCE_UPDATE 15
          (set_taskRunning true
             (set_taskVisible true (load_plugin track_class true))))
       (PLUGINS_TASK loaded_Main))
    loaded_Main.

(** The value at a path of a parameters tree. *)
Fixpoint lookup_path (current : pyval) (path : list string) : option pyval :=
  match path with
  | [] => Some current
  | k :: rest =>
      match current with
      | PDict d =>
          match Dict.get k d with
          | Some v => lookup_path v rest
          | None => None
          end
      | _ => None
      end
  end.

(** What the answers of the Host to [get_sync_data] depend on and what
    they record. *)
Definition sync_view (m : Main) : bool * bool * Z :=
  (experiment_running m, termination_message_sent m, time_time m).

(** A Host whose experiment runs, at the time 1200 of the wall clock. *)
Definition running_host : Main := set_time_time 1200 host_Main.

(** The errors counted by [remote_pass_new_input] stay within the bound
    that its test [error_counter > 10] sets. *)
Definition counter_bounded (m m' : Main) : Prop :=
  0 <= error_counter m <= 11 -> 0 <= error_counter m' <= 11.

(** An answer of the Host that announces the end. *)
Definition terminating_host : HostReplies :=
  mkHostReplies [("track", PObj "track state"); ("terminate", PBool true)]%string 0.


(** A Participant whose timer has advanced since the last tick. *)
Definition due_participant : Main := set_default_timer 5 participant_Main.

(** The calls of the Host's remote methods that a session has made. *)
Definition is_remote_call (e : Event) : bool :=
  match e with
  | EvCallRemote _ _ => true
  | _ => false
  end.

Definition remote_calls (m : Main) : list Event := filter is_remote_call (trace m).

(** A session that is no Participant stays so and calls no remote method. *)
Definition keeps_to_itself (m m' : Main) : Prop :=
  is_client m = false ->
  is_client m' = false /\ remote_calls m' = remote_calls m.

(* ================================================================== *)
(** ** Qt event handlers and the log relay: [eventFilter],
       [sendLogToPlugins] *)
(* ================================================================== *)

(** The events that [eventFilter] tells apart by [event.type()]; [key] is
    [event.key()]. *)
Inductive QEvent : Type :=
| KeyPress (key : Z)
| KeyRelease (key : Z)
| OtherEvent.

(** [QtCore.Qt.Key_Escape], 0x01000000. *)
Definition Key_Escape : Z := 16777216.

(** What [eventFilter] returns: [True], or whatever
    [QtWidgets.QMainWindow.eventFilter] returns. *)
Inductive Filtered : Type := Consumed | Inherited.

(** [self.getPluginClass(task).keyEvent(key)]; the key handed over is the
    one of the [KEY_RELEASE] line logged before. *)
Definition keyEvent (task : string) : M unit :=
  tc <- getPluginClass task ;;
  match tc with
  | PluginClass _ =>
      p <- plugin_entry task ;;
      if plugin_hasattr p "keyEvent" then emit (EvCall task "keyEvent")
      else raise (AttributeError "keyEvent")
  | SelfClass => raise (AttributeError "keyEvent")
  end.

(** [Main.eventFilter] *)
Definition eventFilter (event : QEvent) : M Filtered :=
  match event with
  | KeyPress key =>
      emit (EvLog ["MAIN"; "INPUT"; "KEY_PRESS"; Py.fmt_d key]%string)
  | _ => ret tt
  end ;;
  match event with
  | KeyRelease key =>
      if key =? Key_Escape then
        emit (EvLog ["MAIN"; "INPUT"; "KEY_RELEASE"; "ESC"]%string) ;;
        allowescape <- main_parameter "allowescape" ;;
        when (truthy allowescape) onEnd ;;
        ret Consumed
      else
        emit (EvLog ["MAIN"; "INPUT"; "KEY_RELEASE"; Py.fmt_d key]%string) ;;
        tasks <- gets (fun m => Dict.keys (PLUGINS_TASK m)) ;;
        for_ tasks (fun task =>
          p <- plugin_entry task ;;
          when (RECEIVE_KEY p && negb (taskPaused p) && taskRunning p)
            (keyEvent task)) ;;
        ret Consumed
  | _ => ret Inherited
  end.

(** [Main.sendLogToPlugins], once [__init__] has created [loadedTasks];
    the line handed to [onLog] is not recorded. *)
Definition sendLogToPlugins (stringLine : string) : M unit :=
  plugins <- gets (fun m => Dict.keys (PLUGINS_TASK m)) ;;
  for_ plugins (fun plugin_name =>
    loaded <- gets loadedTasks ;;
    when (Py.mem plugin_name loaded)
      (p <- plugin_entry plugin_name ;;
       when (NEED_LOG p)
         (if plugin_hasattr p "onLog" then emit (EvCall plugin_name "onLog")
          else raise (AttributeError "onLog")))).

(* ================================================================== *)
(** ** The configuration file: [loadConfig], [getConfigValue] *)
(* ================================================================== *)

(** The loop of [loadConfig] over the lines of [config.txt], each with its
    line end as the file iterator yields it. *)
Definition config_line (CONFIG : Dict.t string) (line : string) : Dict.t string :=
  match Py.split "=" line with
  | [key; value] => Dict.set key value CONFIG
  | _ => CONFIG
  end.

(** [loadConfig]: [file] is [None] when [config.txt] does not exist; it
    returns the new [CONFIG] and the value given to [Translator._lang]. *)
Definition loadConfig (file : option (list string)) (CONFIG : Dict.t string)
    : Dict.t string * option string :=
  let CONFIG' :=
    match file with
    | Some lines => fold_left config_line lines CONFIG
    | None => CONFIG
    end in
  (CONFIG', Dict.get "language" CONFIG').

(** [getConfigValue] *)
Definition getConfigValue (CONFIG : Dict.t string) (key defaultvalue : string) : string :=
  match Dict.get key CONFIG with
  | Some value => value
  | None => defaultvalue
  end.

(** *** Vocabulary for the handlers *)

(** The test of [eventFilter] on an entry of [PLUGINS_TASK]. *)
Definition key_receiver (p : PluginTask) : bool :=
  RECEIVE_KEY p && negb (taskPaused p) && taskRunning p.

Definition key_events (k : string) (p : PluginTask) : list Event :=
  if key_receiver p then [EvCall k "keyEvent"] else [].

(** What [load_plugins] establishes: [RECEIVE_KEY] is set for [Task]
    instances with a [keyEvent] method, [NEED_LOG] for those with [onLog],
    and the window itself is no entry with either flag. *)
Definition flags_as_loaded (m : Main) : Prop :=
  forall k p, Dict.get k (PLUGINS_TASK m) = Some p ->
    (RECEIVE_KEY p = true ->
     k <> "__main__"%string /\ plugin_hasattr p "keyEvent" = true)
    /\ (NEED_LOG p = true -> plugin_hasattr p "onLog" = true).

Definition log_events (loaded : list string) (k : string) (p : PluginTask) : list Event :=
  if Py.mem k loaded && NEED_LOG p then [EvCall k "onLog"] else [].

(** The character [=] does not occur in [s]. *)
Fixpoint no_equals (s : string) : bool :=
  match s with
  | EmptyString => true
  | String c r => negb (Ascii.eqb c "=") && no_equals r
  end.

(** The line sets the key [key]. *)
Definition sets_key (key line : string) : bool :=
  match Py.split "=" line with
  | [k; _] => String.eqb k key
  | _ => false
  end.

(** A local session in which [sysmon] runs and [track] runs but is
    paused. *)
Definition monitoring_Main : Main :=
  set_PLUGINS_TASK
    [("track",
      set_taskPaused true
        (set_taskRunning true (set_taskVisible true (load_plugin track_class true))));
     ("sysmon", set_taskRunning true (set_taskVisible true (load_plugin sysmon_class true)));
     ("scoreboard", load_plugin scoreboard_class true)]%string
    (set_loadedTasks ["track"; "sysmon"; "__main__"]%string local_Main).

(** A plugin that asks for the log lines, as [load_plugins] registers it. *)
Definition recorder_class : TaskClass :=
  mkTaskClass ["onStart"; "onLog"]%string
    [("taskplacement", PStr "bottomleft"); ("taskupdatetime", PNone)]%string
    PNone PNone [].

Definition recording_Main : Main :=
  set_PLUGINS_TASK
    [("track", load_plugin track_class true);
     ("recorder", load_plugin recorder_class false);
     ("spare", load_plugin recorder_class false)]%string
    (set_loadedTasks ["track"; "recorder"; "__main__"]%string local_Main).

(** The lines of a [config.txt], as the file iterator yields them. *)
Definition LF : string := String "010"%char EmptyString.

Definition config_head : list string :=
  [("language=en" ++ LF)%string; ("a note without the sign" ++ LF)%string].

Definition config_tail : list string :=
  [("language=de=ch" ++ LF)%string; ("screen=0" ++ LF)%string].

(** What a loop over [tasks] may add to the label events of plugin [k]:
    the plugin table stays, and a label of [k] is shown or hidden only if
    [k] is among [tasks], is not the window itself, has a label and is
    visible or hidden accordingly. *)
Definition label_follows (k : string) (tasks : list string) (m m' : Main) : Prop :=
  PLUGINS_TASK m' = PLUGINS_TASK m
  /\ forall shown,
       In (EvLabel k shown) (trace m') ->
       In (EvLabel k shown) (trace m)
       \/ (In k tasks /\ k <> "__main__"%string
           /\ exists p, Dict.get k (PLUGINS_TASK m) = Some p
                        /\ ui_label p = true /\ taskVisible p = shown).

(* ================================================================== *)
(** * Properties *)
(* ================================================================== *)

(** ** Dictionaries *)

Lemma Dict_get_set_same {V} (k : string) (v : V) (d : Dict.t V) :
  Dict.get k (Dict.set k v d) = Some v.
Proof.
  induction d as [|[k' v'] d IH]; simpl.
  - now rewrite String.eqb_refl.
  - destruct (String.eqb k k') eqn:E; simpl; rewrite E; auto.
Qed.

Lemma Dict_get_set_other {V} (k k' : string) (v : V) (d : Dict.t V) :
  k' <> k -> Dict.get k' (Dict.set k v d) = Dict.get k' d.
Proof.
  intros Hne. induction d as [|[k0 v0] d IH]; simpl.
  - apply String.eqb_neq in Hne. now rewrite Hne.
  - destruct (String.eqb k k0) eqn:E; simpl.
    + apply String.eqb_eq in E. subst k0.
      apply String.eqb_neq in Hne. now rewrite Hne.
    + destruct (String.eqb k' k0); auto.
Qed.

Lemma Dict_keys_set_present {V} (k : string) (v : V) (d : Dict.t V) :
  Dict.mem k d = true -> Dict.keys (Dict.set k v d) = Dict.keys d.
Proof.
  unfold Dict.mem, Dict.keys.
  induction d as [|[k0 v0] d IH]; simpl; intros H.
  - discriminate.
  - destruct (String.eqb k k0) eqn:E; simpl; auto.
    f_equal. auto.
Qed.

Lemma Dict_get_In_keys {V} (k : string) (d : Dict.t V) (v : V) :
  Dict.get k d = Some v -> In k (Dict.keys d).
Proof.
  unfold Dict.keys. induction d as [|[k0 v0] d IH]; simpl; intros H.
  - discriminate.
  - destruct (String.eqb k k0) eqn:E.
    + left. symmetry. now apply String.eqb_eq.
    + right. auto.
Qed.

Lemma Dict_In_keys_get {V} (k : string) (d : Dict.t V) :
  In k (Dict.keys d) -> exists v, Dict.get k d = Some v.
Proof.
  unfold Dict.keys. induction d as [|[k0 v0] d IH]; simpl; intros H.
  - contradiction.
  - destruct (String.eqb k k0) eqn:E; eauto.
    destruct H as [H|H]; auto.
    subst k0. now rewrite String.eqb_refl in E.
Qed.

Lemma Dict_mem_get {V} (k : string) (d : Dict.t V) (v : V) :
  Dict.get k d = Some v -> Dict.mem k d = true.
Proof. unfold Dict.mem. now intros ->. Qed.

Lemma Py_mem_In (x : string) (l : list string) :
  Py.mem x l = true <-> In x l.
Proof.
  induction l as [|y l IH]; simpl.
  - split; [discriminate | contradiction].
  - rewrite orb_true_iff, IH, String.eqb_eq. intuition congruence.
Qed.

(** ** A program logic for the methods of [Main] *)

Section Stable.

Variable R : Main -> Main -> Prop.
Hypothesis R_refl : forall m, R m m.
Hypothesis R_trans : forall a b c, R a b -> R b c -> R a c.

Lemma stable_ret {A} (a : A) : stable R (ret a).
Proof. intro m. apply R_refl. Qed.

Lemma stable_raise {A} (e : Exn) : stable R (@raise A e).
Proof. intro m. apply R_refl. Qed.

Lemma stable_sys_exit {A} : stable R (@sys_exit A).
Proof. intro m. apply R_refl. Qed.

Lemma stable_gets {A} (f : Main -> A) : stable R (gets f).
Proof. intro m. apply R_refl. Qed.

Lemma stable_modify (f : Main -> Main) :
  (forall m, R m (f m)) -> stable R (modify f).
Proof. intros H m. apply H. Qed.

Lemma stable_bind {A B} (c : M A) (k : A -> M B) :
  stable R c -> (forall a, stable R (k a)) -> stable R (bind c k).
Proof.
  intros Hc Hk m. unfold bind.
  specialize (Hc m). destruct (c m) as [a m'| | |]; simpl in *; auto.
  eapply R_trans; [exact Hc | apply Hk].
Qed.

Lemma stable_for_ {A} (l : list A) (body : A -> M unit) :
  (forall x, stable R (body x)) -> stable R (for_ l body).
Proof.
  intros Hb. induction l as [|x l IH]; simpl.
  - apply stable_ret.
  - apply stable_bind; auto.
Qed.

Lemma stable_when (b : bool) (c : M unit) :
  stable R c -> stable R (when b c).
Proof. destruct b; simpl; auto using stable_ret. Qed.

Lemma stable_collect (l : list string) (body : string -> M (option pyval))
    (acc : Dict.t pyval) :
  (forall x, stable R (body x)) -> stable R (collect l body acc).
Proof.
  intros Hb. revert acc. induction l as [|x l IH]; simpl; intro acc.
  - apply stable_ret.
  - apply stable_bind; auto.
Qed.

Lemma stable_emit (e : Event) : quiet R e -> stable R (emit e).
Proof. intros H m. apply H. Qed.

Lemma stable_plugin_entry (plugin : string) : stable R (plugin_entry plugin).
Proof.
  intro m. unfold plugin_entry.
  destruct (Dict.get plugin (PLUGINS_TASK m)); apply R_refl.
Qed.

Lemma stable_update_plugin (plugin : string) (f : PluginTask -> PluginTask) :
  ignores R set_PLUGINS_TASK -> stable R (update_plugin plugin f).
Proof.
  intros H. unfold update_plugin.
  apply stable_bind; [apply stable_plugin_entry|].
  intro p. apply stable_modify. intro m. apply H.
Qed.

Lemma stable_showlabels : stable R showlabels.
Proof.
  intro m. unfold showlabels.
  destruct (Dict.get _ _); apply R_refl.
Qed.

End Stable.

Lemma same_refl {B} (f : Main -> B) : forall m, same f m m.
Proof. reflexivity. Qed.

Lemma same_trans {B} (f : Main -> B) :
  forall a b c, same f a b -> same f b c -> same f a c.
Proof. unfold same. congruence. Qed.

(** One structural step of a stability proof.  The rules look for the
    reflexivity and transitivity of the relation, and for what it ignores,
    among the hypotheses. *)
Ltac stable_leaf :=
  first
    [ assumption
    | match goal with H : ignores _ _ |- _ => solve [apply H] end
    | match goal with
      | H : forall e, loud e = false -> quiet _ e |- _ =>
          solve [apply H; reflexivity]
      end
    | match goal with
      | H : forall f a, quiet _ (EvCallRemote f a) |- _ => solve [apply H]
      end
    | solve [intro; reflexivity]
    | solve [auto] ].

Ltac stable_step :=
  match goal with
  | |- stable _ (bind _ _) => apply stable_bind; try assumption; intros
  | |- stable _ (ret _) => apply stable_ret; assumption
  | |- stable _ (raise _) => apply stable_raise; assumption
  | |- stable _ sys_exit => apply stable_sys_exit; assumption
  | |- stable _ (gets _) => apply stable_gets; assumption
  | |- stable _ (emit _) => apply stable_emit; stable_leaf
  | |- stable _ (plugin_entry _) => apply stable_plugin_entry; assumption
  | |- stable _ (update_plugin _ _) => apply stable_update_plugin; assumption
  | |- stable _ showlabels => apply stable_showlabels; assumption
  | |- stable _ (for_ _ _) => apply stable_for_; try assumption; intros
  | |- stable _ (collect _ _ _) => apply stable_collect; try assumption; intros
  | |- stable _ (when _ _) => apply stable_when; try assumption
  | |- stable _ (modify _) => apply stable_modify; intros; stable_leaf
  | |- stable _ (if ?b then _ else _) => destruct b
  | |- stable _ (match ?x with _ => _ end) => destruct x
  | |- stable _ (let '(_, _) := ?x in _) => destruct x
  | |- stable _ _ => assumption
  end.

Ltac stable_auto := repeat (cbv beta zeta; stable_step).

(** Start a stability proof for a relation [same f]. *)
Ltac stable_same :=
  match goal with
  | |- stable (same ?f) _ =>
      let Hr := fresh "Hrefl" in
      let Ht := fresh "Htrans" in
      pose proof (same_refl f) as Hr;
      pose proof (same_trans f) as Ht
  end.

(** Bring the fields of a [frame] among the hypotheses. *)
Ltac frame_open HF :=
  pose proof (frame_refl _ HF);
  pose proof (frame_trans _ HF);
  pose proof (frame_emit _ HF);
  pose proof (frame_onEnd _ HF);
  pose proof (frame_PLUGINS_TASK _ HF);
  pose proof (frame_parameters _ HF);
  pose proof (frame_last_time_microsec _ HF);
  pose proof (frame_experiment_pause _ HF).

(** A handler called by Qt leaves the state its body leaves. *)
Lemma state_of_from_qt {A} (handler : M A) (m : Main) :
  state_of (from_qt handler m) = state_of (handler m).
Proof. unfold from_qt. now destruct (handler m). Qed.

Lemma stable_from_qt {A} (R : Main -> Main -> Prop) (handler : M A) :
  stable R handler -> stable R (from_qt handler).
Proof. intros H m. rewrite state_of_from_qt. apply H. Qed.

Lemma stable_main_parameter (R : Main -> Main -> Prop) (name : string) :
  (forall m, R m m) -> stable R (main_parameter name).
Proof.
  intros Hrefl m. unfold main_parameter.
  destruct (Dict.get name (parameters m)); apply Hrefl.
Qed.

Lemma ignores_trace_quiet (R : Main -> Main -> Prop) :
  ignores R set_trace -> forall e, quiet R e.
Proof. intros Ht e m. apply Ht. Qed.

(** [end_], [onEnd] and [closeEvent] for a relation that the events of the
    end keep, and that does not look at the moment of the end or at a
    session being stopped. *)
Section StableEnd.

Variable R : Main -> Main -> Prop.
Hypothesis Hrefl : forall m, R m m.
Hypothesis Htrans : forall a b c, R a b -> R b c -> R a c.
Hypothesis Hq : forall e, of_the_end e = true -> quiet R e.
Hypothesis Hr : forall m, R m (set_experiment_running false m).
Hypothesis He : ignores R set_ended_time.

Ltac end_event := apply stable_emit; apply Hq; reflexivity.

Lemma stable_end_closing : stable R end_closing.
Proof.
  unfold end_closing, plugin_hasattr. stable_auto.
  all: end_event.
Qed.

Lemma stable_onEnd_closing : stable R onEnd_closing.
Proof. unfold onEnd_closing. stable_auto. apply stable_end_closing. Qed.

Lemma stable_closeEvent : stable R closeEvent.
Proof.
  unfold closeEvent.
  apply stable_bind; try assumption; [now apply stable_main_parameter|].
  intros. stable_auto.
  all: first [apply stable_onEnd_closing | end_event].
Qed.

Lemma stable_close_ : stable R close_.
Proof.
  unfold close_. stable_auto.
  all: first [apply stable_from_qt, stable_closeEvent | end_event].
Qed.

Lemma stable_end_ : stable R end_.
Proof.
  unfold end_, plugin_hasattr. stable_auto.
  all: first [apply stable_close_ | end_event].
Qed.

Lemma stable_onEnd : stable R onEnd.
Proof. unfold onEnd. stable_auto. apply stable_end_. Qed.

End StableEnd.

(** [end_] and [onEnd] for an observation that looks neither at the trace
    nor at the fields that [onEnd] writes. *)
Ltac stable_end_same :=
  first [apply stable_end_ | apply stable_onEnd | apply stable_close_
        | apply stable_closeEvent];
  [ apply same_refl
  | apply same_trans
  | intros ? ? ?; reflexivity
  | intros ?; reflexivity
  | intros ? ?; reflexivity ].

(** The methods of the dispatcher and of the scheduler under a frame. *)
Section Footprints.

Variable R : Main -> Main -> Prop.
Hypothesis HF : frame R.

Lemma stable_showCriticalMessage (msg : CriticalMessage) :
  stable R (showCriticalMessage msg).
Proof. frame_open HF. unfold showCriticalMessage. stable_auto. Qed.

Lemma stable_updateLabels : stable R updateLabels.
Proof. frame_open HF. unfold updateLabels. stable_auto. Qed.

Lemma stable_waitEndofPause : stable R waitEndofPause.
Proof.
  frame_open HF. unfold waitEndofPause. stable_auto.
Qed.

Lemma stable_onPause (hide_ui : bool) : stable R (onPause hide_ui).
Proof. frame_open HF. unfold onPause, plugin_hasattr. stable_auto. Qed.

Lemma stable_previously_paused plugin p : stable R (previously_paused plugin p).
Proof. frame_open HF. unfold previously_paused. stable_auto. Qed.

Lemma stable_onResume : stable R onResume.
Proof.
  frame_open HF. unfold onResume, plugin_hasattr. stable_auto.
  all: now apply stable_previously_paused.
Qed.

Lemma stable_coerce (old : pyval) (value : string) : stable R (coerce old value).
Proof.
  frame_open HF. unfold coerce. stable_auto.
  all: now apply stable_showCriticalMessage.
Qed.

Lemma stable_assign_at (command : list string) (value : string) (current : pyval) :
  stable R (assign_at command value current).
Proof.
  frame_open HF. revert current.
  induction command as [|k rest IH]; intro current; cbn [assign_at].
  - stable_auto.
  - destruct rest as [|k' rest'].
    + stable_auto. all: now apply stable_coerce.
    + stable_auto. all: apply IH.
Qed.

Lemma stable_store_parameters (task : string) (d : Dict.t pyval) :
  stable R (store_parameters task d).
Proof. frame_open HF. unfold store_parameters. stable_auto. Qed.

Lemma stable_setParameterVariable (task : string) (tc : taskclass_ref)
    (variable value : string) :
  stable R (setParameterVariable task tc variable value).
Proof.
  frame_open HF. unfold setParameterVariable. stable_auto.
  all: first [now apply stable_assign_at | now apply stable_store_parameters].
Qed.

Lemma stable_getPluginClass (task : string) : stable R (getPluginClass task).
Proof. frame_open HF. unfold getPluginClass. stable_auto. Qed.

Lemma stable_window_call (task : string) (c : WindowCall) :
  stable R (window_call task c).
Proof.
  destruct c; cbn [window_call];
    first [ apply stable_onPause | apply stable_onResume
          | apply stable_showCriticalMessage ].
Qed.

Lemma stable_call_hook (task : string) (tc : taskclass_ref) (functionname : string) :
  stable R (call_hook task tc functionname).
Proof.
  frame_open HF. unfold call_hook. stable_auto.
  all: first [ now apply stable_onPause | now apply stable_onResume
             | now apply stable_window_call ].
Qed.

Lemma stable_lifecycle_transition (task functionname : string) :
  stable R (lifecycle_transition task functionname).
Proof. frame_open HF. unfold lifecycle_transition. stable_auto. Qed.

Lemma stable_execute_command (task : string) (tc : taskclass_ref)
    (command : list string) :
  stable R (execute_command task tc command).
Proof.
  frame_open HF. unfold execute_command. stable_auto.
  all: first [ now apply stable_lifecycle_transition
             | now apply stable_call_hook
             | now apply stable_waitEndofPause
             | now apply stable_updateLabels
             | now apply stable_setParameterVariable ].
Qed.

Lemma stable_executeScenario (time : string) : stable R (executeScenario time).
Proof.
  frame_open HF. unfold executeScenario. stable_auto.
  all: first [now apply stable_getPluginClass | now apply stable_execute_command].
Qed.

Lemma stable_scenarioUpdateTime :
  ignores R set_scenarioTimeStr -> stable R scenarioUpdateTime.
Proof.
  intro H_key. frame_open HF. unfold scenarioUpdateTime. stable_auto.
  all: first [now apply stable_showCriticalMessage | now apply stable_executeScenario].
Qed.

Lemma stable_class_is_client (plugin : string) : stable R (class_is_client plugin).
Proof. frame_open HF. unfold class_is_client. stable_auto. Qed.

Lemma stable_class_is_server (plugin : string) : stable R (class_is_server plugin).
Proof. frame_open HF. unfold class_is_server. stable_auto. Qed.

Lemma stable_apply_sync (plugin_name : string) (p : PluginTask)
    (sync_data : option (Dict.t pyval)) (full_update complain : bool) :
  stable R (apply_sync plugin_name p sync_data full_update complain).
Proof.
  frame_open HF. unfold apply_sync. stable_auto.
  all: first [now apply stable_class_is_client | now apply stable_showCriticalMessage].
Qed.

Lemma stable_update_plugin_time (plugin_name : string) (elapsed_time_ms : Z)
    (sync_data : option (Dict.t pyval)) :
  stable R (update_plugin_time plugin_name elapsed_time_ms sync_data).
Proof.
  frame_open HF. unfold update_plugin_time. stable_auto.
  all: first [now apply stable_apply_sync | now apply stable_showCriticalMessage].
Qed.

Lemma stable_log_message : stable R log_message.
Proof. frame_open HF. unfold log_message. stable_auto. Qed.

End Footprints.

(** ** Lifecycle commands (C4) *)

Lemma update_plugin_Ok (task : string) (f : PluginTask -> PluginTask) (m : Main)
    (p : PluginTask) :
  Dict.get task (PLUGINS_TASK m) = Some p ->
  update_plugin task f m
  = Ok tt (set_PLUGINS_TASK (Dict.set task (f p) (PLUGINS_TASK m)) m).
Proof.
  intros H. unfold update_plugin, bind, plugin_entry. now rewrite H.
Qed.

Lemma plugin_entry_Ok (task : string) (m : Main) (p : PluginTask) :
  Dict.get task (PLUGINS_TASK m) = Some p -> plugin_entry task m = Ok p m.
Proof. intros H. unfold plugin_entry. now rewrite H. Qed.

Lemma calls_emit (task method : string) (e : Event) (m : Main) :
  calls task method (set_trace (e :: trace m) m)
  = ((if is_call task method e then 1 else 0) + calls task method m)%nat.
Proof. unfold calls. simpl. destruct (is_call task method e); reflexivity. Qed.

Lemma lifecycle_transition_spec (v : Verb) (task : string) (p : PluginTask) (m : Main) :
  Dict.get task (PLUGINS_TASK m) = Some p ->
  exists msg m1,
    lifecycle_transition task (hook_of v) m = Ok msg m1
    /\ transition_post v task p m m1.
Proof.
  intros Hp. unfold transition_post.
  destruct v; cbn [hook_of lifecycle_transition String.eqb Ascii.eqb Bool.eqb];
    unfold bind.
  - (* VStart *)
    rewrite (update_plugin_Ok _ _ _ _ Hp).
    erewrite update_plugin_Ok by (cbn; apply Dict_get_set_same).
    erewrite update_plugin_Ok by (cbn; apply Dict_get_set_same).
    cbn. do 2 eexists. split; [reflexivity|]. cbn.
    split; [apply Dict_get_set_same|]. split.
    + intros other Hne. now rewrite !Dict_get_set_other.
    + intros v'. unfold calls; cbn.
      destruct (String.eqb task task); destruct v'; reflexivity.
  - (* VStop *)
    rewrite (update_plugin_Ok _ _ _ _ Hp).
    erewrite update_plugin_Ok by (cbn; apply Dict_get_set_same).
    erewrite update_plugin_Ok by (cbn; apply Dict_get_set_same).
    cbn. do 2 eexists. split; [reflexivity|]. cbn.
    split; [apply Dict_get_set_same|]. split.
    + intros other Hne. now rewrite !Dict_get_set_other.
    + intros v'. unfold calls; cbn.
      destruct (String.eqb task task); destruct v'; reflexivity.
  - (* VShow *)
    rewrite (update_plugin_Ok _ _ _ _ Hp).
    cbn. do 2 eexists. split; [reflexivity|]. cbn.
    split; [apply Dict_get_set_same|]. split.
    + intros other Hne. now rewrite !Dict_get_set_other.
    + intros v'. unfold calls; cbn.
      destruct (String.eqb task task); destruct v'; reflexivity.
  - (* VHide *)
    rewrite (update_plugin_Ok _ _ _ _ Hp).
    cbn. do 2 eexists. split; [reflexivity|]. cbn.
    split; [apply Dict_get_set_same|]. split.
    + intros other Hne. now rewrite !Dict_get_set_other.
    + intros v'. unfold calls; cbn.
      destruct (String.eqb task task); destruct v'; reflexivity.
  - (* VPause *)
    rewrite (plugin_entry_Ok _ _ _ Hp).
    destruct (taskPaused p) eqn:E; cbn.
    + do 2 eexists. split; [reflexivity|]. rewrite E. auto.
    + rewrite (update_plugin_Ok _ _ _ _ Hp). cbn.
      do 2 eexists. split; [reflexivity|]. cbn. rewrite E.
      split; [apply Dict_get_set_same|]. split; auto.
      intros other Hne. now rewrite !Dict_get_set_other.
  - (* VResume *)
    rewrite (plugin_entry_Ok _ _ _ Hp).
    destruct (taskPaused p) eqn:E; cbn.
    + rewrite (update_plugin_Ok _ _ _ _ Hp). cbn.
      do 2 eexists. split; [reflexivity|]. cbn. rewrite E.
      split; [apply Dict_get_set_same|]. split; auto.
      intros other Hne. now rewrite !Dict_get_set_other.
    + do 2 eexists. split; [reflexivity|]. rewrite E. auto.
Qed.

Lemma class_verb_transition (v : Verb) (p : PluginTask) :
  class (verb_transition v p) = class p.
Proof. destruct v; cbn; try reflexivity; destruct (taskPaused p); reflexivity. Qed.

(** What follows the hook call in a lifecycle command: the STATE line, the
    pause barrier and the labels.  None of it touches [PLUGINS_TASK] or
    calls a lifecycle hook. *)
Lemma lifecycle_rest_stable (task msg : string) :
  stable (same (fun m => (PLUGINS_TASK m, fun v => calls task (hook_of v) m)))
    (when (negb (String.eqb msg EmptyString))
       (emit (EvLog ["MAIN"; "STATE"; Py.upper task; msg]%string)) ;;
     waitEndofPause ;;
     labels <- showlabels ;;
     when labels updateLabels)%py.
Proof.
  stable_same. unfold waitEndofPause, updateLabels. stable_auto.
Qed.

Lemma getPluginClass_Ok (task : string) (p : PluginTask) (m : Main) :
  task <> "__main__"%string ->
  Dict.get task (PLUGINS_TASK m) = Some p ->
  getPluginClass task m = Ok (PluginClass task) m.
Proof.
  intros Hne Hp. unfold getPluginClass.
  apply String.eqb_neq in Hne. rewrite Hne.
  unfold bind. now rewrite (plugin_entry_Ok _ _ _ Hp).
Qed.

Lemma hook_script_verb_transition (v : Verb) (p : PluginTask) (h : string) :
  hook_script (verb_transition v p) h = hook_script p h.
Proof. unfold hook_script. now rewrite class_verb_transition. Qed.

(** The part of a lifecycle command up to the call of the hook. *)
Lemma lifecycle_to_hook (v : Verb) (word task : string) (p : PluginTask) (m : Main) :
  ("on" ++ Py.capitalize word)%string = hook_of v ->
  task <> "__main__"%string ->
  Dict.get task (PLUGINS_TASK m) = Some p ->
  exists msg m1,
    transition_post v task p m m1
    /\ dispatch_command task word m
       = ((when (plugin_hasattr p (hook_of v))
             (call_hook task (PluginClass task) (hook_of v)) ;;
           when (negb (String.eqb msg EmptyString))
             (emit (EvLog ["MAIN"; "STATE"; Py.upper task; msg]%string)) ;;
           waitEndofPause ;;
           labels <- showlabels ;;
           when labels updateLabels)%py m1).
Proof.
  intros Hword Hne Hp.
  destruct (lifecycle_transition_spec v task p m Hp) as (msg & m1 & Hrun & Hpost).
  exists msg, m1. split; [exact Hpost|].
  destruct Hpost as (Hget & _ & _).
  assert (Hhas : taskclass_hasattr m1 (PluginClass task) (hook_of v)
                 = plugin_hasattr p (hook_of v)).
  { unfold taskclass_hasattr, taskclass_attrs, plugin_hasattr.
    now rewrite Hget, class_verb_transition. }
  unfold dispatch_command. unfold bind at 1.
  rewrite (getPluginClass_Ok _ _ _ Hne Hp).
  unfold execute_command. cbn [List.length Nat.eqb hd].
  rewrite Hword. unfold bind at 1. rewrite Hrun.
  unfold bind at 1. cbn [gets]. rewrite Hhas. reflexivity.
Qed.

Lemma calls_grow_frame (task method : string) : frame (calls_grow task method).
Proof.
  assert (Hrefl : forall m, calls_grow task method m m)
    by (intro m; unfold calls_grow; lia).
  assert (Htrans : forall a b c, calls_grow task method a b ->
                     calls_grow task method b c -> calls_grow task method a c)
    by (unfold calls_grow; intros; lia).
  assert (Hemit : forall e, quiet (calls_grow task method) e).
  { intros e m. unfold calls_grow. rewrite calls_emit. lia. }
  assert (Hset : forall X (setter : X -> Main -> Main),
            (forall x m, trace (setter x m) = trace m) ->
            ignores (calls_grow task method) setter).
  { intros X setter Ht x m. unfold calls_grow, calls. rewrite Ht. lia. }
  constructor; try assumption.
  - intros e _. apply Hemit.
  - apply stable_onEnd; try assumption; try (now apply Hset).
    intros e _. apply Hemit.
  - now apply Hset.
  - now apply Hset.
  - now apply Hset.
  - now apply Hset.
Qed.



(** The Start command of [genericscales]: its [onStart] pauses the
    session, so that afterwards the task is marked paused, as is every
    other task, and the dispatcher waits at the pause barrier. *)
Lemma C4_start_pauses_counterexample :
  ~ lifecycle_as_specified VStart "start" "genericscales"
      (load_plugin genericscales_class false) local_Main
  /\ ending (dispatch_command "genericscales" "start" local_Main) = Waiting
  /\ map (fun entry => (fst entry, taskPaused (snd entry)))
       (PLUGINS_TASK
          (state_of (dispatch_command "genericscales" "start" local_Main)))
     = [("track", true); ("sysmon", true); ("scoreboard", true);
        ("genericscales", true)]%string.
Proof.
  split; [|split].
  - intros [H _]. vm_compute in H. discriminate H.
  - vm_compute. reflexivity.
  - vm_compute. reflexivity.
Qed.

(** ** Session pause and resume (C9) *)

Lemma Dict_get_app_notin {V} (k : string) (d1 d2 : Dict.t V) :
  ~ In k (Dict.keys d1) -> Dict.get k (d1 ++ d2) = Dict.get k d2.
Proof.
  unfold Dict.keys. induction d1 as [|[k0 v0] d1 IH]; simpl; intros H; auto.
  destruct (String.eqb_spec k k0).
  - subst. exfalso. auto.
  - apply IH. intuition.
Qed.

Lemma Dict_set_app_notin {V} (k : string) (v : V) (d1 d2 : Dict.t V) :
  ~ In k (Dict.keys d1) -> Dict.set k v (d1 ++ d2) = d1 ++ Dict.set k v d2.
Proof.
  unfold Dict.keys. induction d1 as [|[k0 v0] d1 IH]; simpl; intros H; auto.
  destruct (String.eqb_spec k k0).
  - subst. exfalso. auto.
  - f_equal. apply IH. intuition.
Qed.

Lemma Dict_set_same {V} (k : string) (v : V) (d : Dict.t V) :
  Dict.get k d = Some v -> Dict.set k v d = d.
Proof.
  induction d as [|[k0 v0] d IH]; simpl; intros H.
  - discriminate.
  - destruct (String.eqb_spec k k0).
    + subst. congruence.
    + f_equal. auto.
Qed.

Lemma Dict_set_set {V} (k : string) (v1 v2 : V) (d : Dict.t V) :
  Dict.set k v2 (Dict.set k v1 d) = Dict.set k v2 d.
Proof.
  induction d as [|[k0 v0] d IH]; simpl.
  - now rewrite String.eqb_refl.
  - destruct (String.eqb k k0) eqn:E; simpl; rewrite E; congruence.
Qed.

Lemma Dict_keys_map_entries {V} (f : string -> V -> V) (d : Dict.t V) :
  Dict.keys (map_entries f d) = Dict.keys d.
Proof.
  unfold Dict.keys, map_entries. rewrite map_map. reflexivity.
Qed.

Lemma Dict_get_map_entries {V} (f : string -> V -> V) (k : string) (d : Dict.t V) :
  Dict.get k (map_entries f d)
  = match Dict.get k d with Some v => Some (f k v) | None => None end.
Proof.
  unfold map_entries. induction d as [|[k0 v0] d IH]; simpl; auto.
  destruct (String.eqb_spec k k0); subst; auto.
Qed.

(** A loop over the keys of [PLUGINS_TASK] whose body rewrites the entry of
    its key and adds events rewrites every entry, in dictionary order. *)
Section PluginLoop.

Variable body : string -> M unit.
Variable P : string -> PluginTask -> Prop.
Variable F : string -> PluginTask -> PluginTask.
Variable E : string -> PluginTask -> list Event.

Hypothesis body_entry : forall k p m,
  P k p ->
  Dict.get k (PLUGINS_TASK m) = Some p ->
  body k m = Ok tt (set_trace (E k p ++ trace m)
                      (set_PLUGINS_TASK (Dict.set k (F k p) (PLUGINS_TASK m)) m)).

Lemma for_plugins_split (todo done : Dict.t PluginTask) (m : Main) :
  PLUGINS_TASK m = done ++ todo ->
  NoDup (Dict.keys (done ++ todo)) ->
  Forall (fun kv => P (fst kv) (snd kv)) todo ->
  for_ (Dict.keys todo) body m
  = Ok tt (set_trace (add_events E todo (trace m))
             (set_PLUGINS_TASK (done ++ map_entries F todo) m)).
Proof.
  revert done m. induction todo as [|[k p] todo IH]; intros done m Hm Hnd HP.
  - simpl. rewrite app_nil_r in *. unfold ret. f_equal.
    rewrite <- Hm. destruct m; reflexivity.
  - assert (Hk : ~ In k (Dict.keys done)).
    { unfold Dict.keys in *. rewrite map_app in Hnd. simpl in Hnd.
      apply NoDup_remove_2 in Hnd. rewrite in_app_iff in Hnd. tauto. }
    assert (Hget : Dict.get k (PLUGINS_TASK m) = Some p).
    { rewrite Hm, Dict_get_app_notin by exact Hk. simpl.
      now rewrite String.eqb_refl. }
    inversion HP as [|? ? HPk HPrest]; subst.
    cbn [Dict.keys map fst for_]. unfold bind at 1.
    rewrite (body_entry k p m HPk Hget).
    fold (Dict.keys todo).
    rewrite (IH (done ++ [(k, F k p)])).
    + cbn. rewrite <- app_assoc. reflexivity.
    + cbn. rewrite Hm, Dict_set_app_notin by exact Hk. simpl.
      rewrite String.eqb_refl. now rewrite <- app_assoc.
    + rewrite <- app_assoc. simpl.
      unfold Dict.keys in *. rewrite map_app in *. exact Hnd.
    + exact HPrest.
Qed.

Lemma for_plugins (m : Main) :
  NoDup (Dict.keys (PLUGINS_TASK m)) ->
  Forall (fun kv => P (fst kv) (snd kv)) (PLUGINS_TASK m) ->
  for_ (Dict.keys (PLUGINS_TASK m)) body m
  = Ok tt (set_trace (add_events E (PLUGINS_TASK m) (trace m))
             (set_PLUGINS_TASK (map_entries F (PLUGINS_TASK m)) m)).
Proof. intros Hnd HP. now apply (for_plugins_split (PLUGINS_TASK m) []). Qed.

End PluginLoop.

(** In the events a loop over the plugins adds, the calls of a method of
    plugin [k] are those of the entry of [k]. *)
Lemma calls_add_events (k method : string)
    (E : string -> PluginTask -> list Event) (d : Dict.t PluginTask)
    (t : list Event) :
  (forall k' p', k' <> k -> filter (is_call k method) (E k' p') = []) ->
  NoDup (Dict.keys d) ->
  List.length (filter (is_call k method) (add_events E d t))
  = (List.length (filter (is_call k method) t)
     + match Dict.get k d with
       | Some p => List.length (filter (is_call k method) (E k p))
       | None => 0
       end)%nat.
Proof.
  intros Hother. revert t.
  induction d as [|[k0 p0] d IH]; intros t Hnd; cbn [add_events fold_left fst snd].
  - simpl. lia.
  - inversion Hnd as [|? ? Hnotin Hnd']; subst.
    change (fold_left _ d ?x) with (add_events E d x).
    rewrite IH by exact Hnd'.
    rewrite filter_app, length_app. cbn [Dict.get].
    destruct (String.eqb_spec k k0) as [->|Hne].
    + destruct (Dict.get k0 d) eqn:Hg.
      * exfalso. apply Hnotin. eapply Dict_get_In_keys; eauto.
      * lia.
    + rewrite (Hother k0 p0) by congruence. simpl. lia.
Qed.

(** The events [onPause] and [onResume] add for one plugin, the most
    recent first. *)
Lemma onPause_body_entry (hide_ui : bool) (k : string) (p : PluginTask) (m : Main) :
  Dict.get k (PLUGINS_TASK m) = Some p ->
  when (negb (String.eqb k "__main__"))
    (update_plugin k (fun p => set_taskPreviouslyPaused (Some (taskPaused p)) p) ;;
     p <- plugin_entry k ;;
     when (negb (taskPaused p))
       (update_plugin k (set_taskPaused true) ;;
        when (plugin_hasattr p "onPause") (emit (EvCall k "onPause"))) ;;
     when hide_ui (when (ui_label p) (emit (EvLabel k false))) ;;
     emit (EvCall k "hide"))%py m
  = Ok tt (set_trace (pause_events hide_ui k p ++ trace m)
             (set_PLUGINS_TASK (Dict.set k (pause_plugin k p) (PLUGINS_TASK m)) m)).
Proof.
  intros Hp. unfold pause_plugin, pause_events.
  destruct (String.eqb k "__main__") eqn:Ek; cbn [negb when].
  - rewrite (Dict_set_same _ _ _ Hp). unfold ret. f_equal. destruct m; reflexivity.
  - unfold bind at 1. rewrite (update_plugin_Ok _ _ _ _ Hp).
    unfold bind at 1. erewrite plugin_entry_Ok by (cbn; apply Dict_get_set_same).
    unfold pause_entry. cbn [taskPaused set_taskPreviouslyPaused].
    destruct (taskPaused p) eqn:Epa; cbn [negb when].
    + destruct hide_ui, (ui_label p) eqn:El; cbn; rewrite ?El; reflexivity.
    + unfold bind at 1. unfold bind at 1.
      erewrite update_plugin_Ok by (cbn; apply Dict_get_set_same).
      unfold plugin_hasattr.
      cbn [class set_taskPreviouslyPaused].
      destruct (Py.mem "onPause" (attrs (class p))) eqn:Eh;
        destruct hide_ui, (ui_label p) eqn:El; cbn;
        rewrite ?El, ?Eh, Dict_set_set; reflexivity.
Qed.

Lemma onResume_body_entry (k : string) (p : PluginTask) (m : Main) :
  (String.eqb k "__main__" = true \/ taskPreviouslyPaused p <> None) ->
  Dict.get k (PLUGINS_TASK m) = Some p ->
  when (negb (String.eqb k "__main__"))
    (p <- plugin_entry k ;;
     back <- (if taskRunning p
              then (prev <- previously_paused k p ;; ret (negb prev))
              else ret false) ;;
     when back
       (update_plugin k (set_taskPaused false) ;;
        when (plugin_hasattr p "onResume") (emit (EvCall k "onResume")) ;;
        when (ui_label p) (emit (EvLabel k true)) ;;
        emit (EvCall k "show")))%py m
  = Ok tt (set_trace (resume_events k p ++ trace m)
             (set_PLUGINS_TASK (Dict.set k (resume_plugin k p) (PLUGINS_TASK m)) m)).
Proof.
  intros HP Hp. unfold resume_plugin, resume_events.
  assert (Hsame : Ok tt m
                  = Ok tt (set_trace ([] ++ trace m)
                             (set_PLUGINS_TASK (Dict.set k p (PLUGINS_TASK m)) m))).
  { rewrite (Dict_set_same _ _ _ Hp). f_equal. destruct m; reflexivity. }
  destruct (String.eqb k "__main__") eqn:Ek; cbn [negb when].
  - exact Hsame.
  - destruct HP as [HP|HP]; [discriminate|].
    unfold bind at 1. rewrite (plugin_entry_Ok _ _ _ Hp).
    unfold resume_entry, resumed, previously_paused.
    destruct (taskPreviouslyPaused p) as [prev|] eqn:Eprev; [|congruence].
    destruct (taskRunning p) eqn:Er; cbn [andb].
    + destruct prev; cbn [negb].
      * exact Hsame.
      * unfold bind at 1. cbn [ret bind when negb].
        unfold bind at 1. rewrite (update_plugin_Ok _ _ _ _ Hp).
        unfold plugin_hasattr.
        destruct (Py.mem "onResume" (attrs (class p))) eqn:Eh;
          destruct (ui_label p) eqn:El; cbn; reflexivity.
    + exact Hsame.
Qed.

Lemma onPause_run (hide_ui : bool) (m : Main) :
  NoDup (Dict.keys (PLUGINS_TASK m)) ->
  onPause hide_ui m
  = Ok tt (set_trace
             (add_events (pause_events hide_ui) (PLUGINS_TASK m)
                (EvTimers false :: EvLog ["MAIN"; "STATE"; EmptyString; "PAUSE"]%string
                   :: trace m))
             (set_PLUGINS_TASK (map_entries pause_plugin (PLUGINS_TASK m))
                (set_experiment_pause true m))).
Proof.
  intros Hnd. unfold onPause.
  unfold bind at 1. cbn [emit modify]. unfold bind at 1. cbn [modify].
  unfold bind at 1. cbn [emit modify]. unfold bind at 1. cbn [gets].
  cbn [PLUGINS_TASK set_trace set_experiment_pause].
  match goal with
  | |- for_ _ ?b ?m0 = _ =>
      pose proof (for_plugins b (fun _ _ => True) pause_plugin (pause_events hide_ui)
                    (fun k p m _ H => onPause_body_entry hide_ui k p m H) m0) as Hloop
  end.
  cbn [PLUGINS_TASK set_trace set_experiment_pause] in Hloop.
  rewrite Hloop; [reflexivity | exact Hnd |].
  apply Forall_forall. auto.
Qed.

Lemma onResume_run (m : Main) :
  NoDup (Dict.keys (PLUGINS_TASK m)) ->
  Forall (fun kv => String.eqb (fst kv) "__main__" = true
                    \/ taskPreviouslyPaused (snd kv) <> None) (PLUGINS_TASK m) ->
  onResume m
  = Ok tt (set_trace
             (add_events resume_events (PLUGINS_TASK m)
                (EvTimers true :: EvLog ["MAIN"; "STATE"; EmptyString; "RESUME"]%string
                   :: trace m))
             (set_PLUGINS_TASK (map_entries resume_plugin (PLUGINS_TASK m))
                (set_experiment_pause false m))).
Proof.
  intros Hnd HP. unfold onResume.
  unfold bind at 1. cbn [emit modify]. unfold bind at 1. cbn [modify].
  unfold bind at 1. cbn [emit modify]. unfold bind at 1. cbn [gets].
  cbn [PLUGINS_TASK set_trace set_experiment_pause].
  match goal with
  | |- for_ _ ?b ?m0 = _ =>
      pose proof (for_plugins b
                    (fun k p => String.eqb k "__main__" = true
                                \/ taskPreviouslyPaused p <> None)
                    resume_plugin resume_events
                    (fun k p m HPk H => onResume_body_entry k p m HPk H) m0) as Hloop
  end.
  cbn [PLUGINS_TASK set_trace set_experiment_pause] in Hloop.
  rewrite Hloop; [reflexivity | exact Hnd | exact HP].
Qed.

Lemma is_call_other_plugin (k k' method method' : string) :
  k' <> k -> is_call k method (EvCall k' method') = false.
Proof.
  intros Hne. unfold is_call. apply String.eqb_neq in Hne. now rewrite Hne.
Qed.

Lemma pause_events_other (hide_ui : bool) (k method k' : string) (p' : PluginTask) :
  k' <> k -> filter (is_call k method) (pause_events hide_ui k' p') = [].
Proof.
  intros Hne. unfold pause_events.
  destruct (String.eqb k' "__main__"); [reflexivity|].
  destruct (hide_ui && ui_label p'), (negb (taskPaused p') && plugin_hasattr p' "onPause");
    cbn [app filter]; rewrite ?is_call_other_plugin by exact Hne; reflexivity.
Qed.

Lemma resume_events_other (k method k' : string) (p' : PluginTask) :
  k' <> k -> filter (is_call k method) (resume_events k' p') = [].
Proof.
  intros Hne. unfold resume_events.
  destruct (String.eqb k' "__main__"); [reflexivity|].
  destruct (resumed p'); [|reflexivity].
  destruct (ui_label p'), (plugin_hasattr p' "onResume");
    cbn [app filter]; rewrite ?is_call_other_plugin by exact Hne; reflexivity.
Qed.

Lemma resumed_pause_entry (p : PluginTask) :
  resumed (pause_entry p) = taskRunning p && negb (taskPaused p).
Proof.
  unfold resumed, pause_entry. destruct (taskPaused p) eqn:E; cbn; rewrite ?E; reflexivity.
Qed.

(** C9: [onPause] records the paused flag of every plugin in
    [taskPreviouslyPaused] and pauses it; the [onResume] that follows clears
    the paused flag, calls the [onResume] hook (when defined) and shows the
    widget exactly for the plugins that were running and not paused when the
    pause began.  A plugin that was paused before the pause is paused after
    the resume. *)
Theorem C9_pause_then_resume (hide_ui : bool) (m : Main) :
  NoDup (Dict.keys (PLUGINS_TASK m)) ->
  exists m1 m2,
    onPause hide_ui m = Ok tt m1
    /\ onResume m1 = Ok tt m2
    /\ forall k p,
         k <> "__main__"%string ->
         Dict.get k (PLUGINS_TASK m) = Some p ->
         let restored := taskRunning p && negb (taskPaused p) in
         (exists p1, Dict.get k (PLUGINS_TASK m1) = Some p1
                     /\ taskPreviouslyPaused p1 = Some (taskPaused p)
                     /\ taskPaused p1 = true)
         /\ (exists p2, Dict.get k (PLUGINS_TASK m2) = Some p2
                        /\ taskPaused p2 = negb restored)
         /\ (taskPaused p = true ->
             exists p2, Dict.get k (PLUGINS_TASK m2) = Some p2 /\ taskPaused p2 = true)
         /\ calls k "onResume" m2
            = (calls k "onResume" m
               + (if restored && plugin_hasattr p "onResume" then 1 else 0))%nat
         /\ calls k "show" m2
            = (calls k "show" m + (if restored then 1 else 0))%nat.
Proof.
  intros Hnd.
  eexists. eexists. split; [apply (onPause_run hide_ui m Hnd)|].
  split.
  { apply onResume_run; cbn [PLUGINS_TASK set_trace set_PLUGINS_TASK].
    - now rewrite Dict_keys_map_entries.
    - unfold map_entries. apply Forall_forall. intros [k q] Hin.
      apply in_map_iff in Hin. destruct Hin as ([k0 p0] & Heq & _).
      cbn in Heq. injection Heq as <- <-. cbn [fst snd].
      unfold pause_plugin.
      destruct (String.eqb k0 "__main__"); [now left|right].
      unfold pause_entry. destruct (taskPaused p0); cbn; discriminate. }
  intros k p Hne Hp restored.
  assert (Hk : String.eqb k "__main__" = false) by now apply String.eqb_neq.
  cbn [PLUGINS_TASK set_trace set_PLUGINS_TASK set_experiment_pause].
  assert (H1 : Dict.get k (map_entries pause_plugin (PLUGINS_TASK m))
               = Some (pause_entry p)).
  { rewrite Dict_get_map_entries, Hp. unfold pause_plugin. now rewrite Hk. }
  assert (H2 : Dict.get k (map_entries resume_plugin
                             (map_entries pause_plugin (PLUGINS_TASK m)))
               = Some (resume_entry (pause_entry p))).
  { rewrite Dict_get_map_entries, H1. unfold resume_plugin. now rewrite Hk. }
  assert (Hpaused : taskPaused (resume_entry (pause_entry p)) = negb restored).
  { unfold resume_entry. rewrite resumed_pause_entry. subst restored.
    unfold pause_entry.
    destruct (taskRunning p), (taskPaused p) eqn:E; cbn; rewrite ?E; reflexivity. }
  split.
  { exists (pause_entry p). split; [exact H1|].
    unfold pause_entry. destruct (taskPaused p) eqn:E; cbn; rewrite ?E; auto. }
  split.
  { exists (resume_entry (pause_entry p)). auto. }
  split.
  { intros Hwas. exists (resume_entry (pause_entry p)). split; [exact H2|].
    rewrite Hpaused. subst restored. rewrite Hwas.
    now destruct (taskRunning p). }
  assert (Hnd1 : NoDup (Dict.keys (map_entries pause_plugin (PLUGINS_TASK m))))
    by now rewrite Dict_keys_map_entries.
  unfold calls. cbn [trace set_trace].
  split.
  - rewrite calls_add_events
      by (auto using resume_events_other).
    cbn [filter is_call].
    rewrite calls_add_events by (auto using pause_events_other).
    cbn [filter is_call]. rewrite H1, Hp.
    unfold resume_events, pause_events. rewrite Hk, resumed_pause_entry.
    fold restored.
    assert (Hattr : plugin_hasattr (pause_entry p) "onResume"
                    = plugin_hasattr p "onResume").
    { unfold pause_entry, plugin_hasattr. now destruct (taskPaused p). }
    rewrite Hattr.
    assert (Hlab : ui_label (pause_entry p) = ui_label p).
    { unfold pause_entry. now destruct (taskPaused p). }
    rewrite Hlab.
    destruct restored, (plugin_hasattr p "onResume"), (ui_label p), hide_ui,
      (negb (taskPaused p) && plugin_hasattr p "onPause");
      cbn; rewrite ?String.eqb_refl; cbn; lia.
  - rewrite calls_add_events
      by (auto using resume_events_other).
    cbn [filter is_call].
    rewrite calls_add_events by (auto using pause_events_other).
    cbn [filter is_call]. rewrite H1, Hp.
    unfold resume_events, pause_events. rewrite Hk, resumed_pause_entry.
    fold restored.
    assert (Hlab : ui_label (pause_entry p) = ui_label p).
    { unfold pause_entry. now destruct (taskPaused p). }
    rewrite Hlab.
    destruct restored, (plugin_hasattr (pause_entry p) "onResume"), (ui_label p),
      hide_ui, (negb (taskPaused p) && plugin_hasattr p "onPause");
      cbn; rewrite ?String.eqb_refl; cbn; lia.
Qed.

Lemma C9_pause_then_resume_witness :
  exists m1 m2,
    onPause true mid_session_Main = Ok tt m1
    /\ onResume m1 = Ok tt m2
    /\ forall k p,
         k <> "__main__"%string ->
         Dict.get k (PLUGINS_TASK mid_session_Main) = Some p ->
         let restored := taskRunning p && negb (taskPaused p) in
         (exists p1, Dict.get k (PLUGINS_TASK m1) = Some p1
                     /\ taskPreviouslyPaused p1 = Some (taskPaused p)
                     /\ taskPaused p1 = true)
         /\ (exists p2, Dict.get k (PLUGINS_TASK m2) = Some p2
                        /\ taskPaused p2 = negb restored)
         /\ (taskPaused p = true ->
             exists p2, Dict.get k (PLUGINS_TASK m2) = Some p2 /\ taskPaused p2 = true)
         /\ calls k "onResume" m2
            = (calls k "onResume" mid_session_Main
               + (if restored && plugin_hasattr p "onResume" then 1 else 0))%nat
         /\ calls k "show" m2
            = (calls k "show" mid_session_Main + (if restored then 1 else 0))%nat.
Proof.
  apply (C9_pause_then_resume true mid_session_Main).
  simpl. repeat constructor; simpl; intuition discriminate.
Defined.

(** ** The input channel of the Host (C2) *)

Lemma showCriticalMessage_ignored (msg : CriticalMessage) (m : Main) :
  ignores_dialogs m ->
  showCriticalMessage msg m = Ok tt (set_trace (EvDialog msg :: trace m) m).
Proof.
  intros Hop. unfold showCriticalMessage, bind, emit, modify, gets.
  cbn [trace set_trace operator]. now rewrite Hop.
Qed.

Lemma class_is_server_Ok (k : string) (p : PluginTask) (m : Main) :
  Dict.get k (PLUGINS_TASK m) = Some p ->
  plugin_hasattr p "is_server" = true ->
  Dict.mem "network" (task_parameters (class p)) = true ->
  class_is_server k m = Ok (host_authoritative (is_server m) p) m.
Proof.
  intros Hp Hattr Hnet. unfold class_is_server, host_authoritative.
  unfold bind at 1. rewrite (plugin_entry_Ok _ _ _ Hp), Hattr. cbn [negb].
  unfold Dict.mem in Hnet.
  destruct (Dict.get "network" (task_parameters (class p))); [reflexivity|discriminate].
Qed.

Lemma pass_new_input_entry (item : string * pyval) (m : Main) :
  roles_defined m -> ignores_dialogs m ->
  (let plugin_name := fst item in
   let input_data := snd item in
   plugins <- gets PLUGINS_TASK ;;
   match Dict.get plugin_name plugins with
   | Some p =>
       if plugin_hasattr p "applyNewInputs" then
         server <- class_is_server plugin_name ;;
         if server then emit (EvApplyNewInputs plugin_name input_data)
         else
           counter <- gets error_counter ;;
           if 10 <? counter then showCriticalMessage (MsgInputNotServer plugin_name)
           else modify (fun m => set_error_counter (error_counter m + 1) m)
       else showCriticalMessage (MsgInputNoApply plugin_name)
   | None => showCriticalMessage (MsgInputNoPlugin plugin_name)
   end)%py m
  = Ok tt (with_input_effects
             (count_step (PLUGINS_TASK m) (is_server m) (error_counter m) item)
             (rev (entry_events (PLUGINS_TASK m) (is_server m) (error_counter m) item)) m).
Proof.
  intros Hroles Hop. destruct item as [k v]. cbn [fst snd].
  unfold with_input_effects, count_step, entry_events, classify. cbn [fst snd].
  unfold bind at 1. cbn [gets].
  destruct (Dict.get k (PLUGINS_TASK m)) as [p|] eqn:Hp.
  - destruct (plugin_hasattr p "applyNewInputs") eqn:Hcap; cbn [negb].
    + destruct (Hroles k p Hp Hcap) as [Hattr Hnet].
      unfold bind at 1. rewrite (class_is_server_Ok k p m Hp Hattr Hnet).
      destruct (host_authoritative (is_server m) p).
      * reflexivity.
      * unfold bind at 1. cbn [gets].
        destruct (10 <? error_counter m).
        -- rewrite showCriticalMessage_ignored by exact Hop. reflexivity.
        -- reflexivity.
    + rewrite showCriticalMessage_ignored by exact Hop. reflexivity.
  - rewrite showCriticalMessage_ignored by exact Hop. reflexivity.
Qed.

Lemma pass_new_input_loop (body : string * pyval -> M unit) (new_input : Dict.t pyval) :
  (forall item m, roles_defined m -> ignores_dialogs m ->
     body item m
     = Ok tt (with_input_effects
                (count_step (PLUGINS_TASK m) (is_server m) (error_counter m) item)
                (rev (entry_events (PLUGINS_TASK m) (is_server m) (error_counter m) item)) m)) ->
  forall m, roles_defined m -> ignores_dialogs m ->
  for_ new_input body m
  = Ok tt (with_input_effects
             (count_after (PLUGINS_TASK m) (is_server m) (error_counter m) new_input)
             (rev (input_events (PLUGINS_TASK m) (is_server m) (error_counter m) new_input))
             m).
Proof.
  intros Hbody. induction new_input as [|item rest IH]; intros m Hroles Hop.
  - cbn. unfold ret, with_input_effects. f_equal. destruct m; reflexivity.
  - cbn [for_]. unfold bind at 1. rewrite Hbody by assumption.
    rewrite IH.
    + unfold with_input_effects. cbn.
      rewrite rev_app_distr, <- app_assoc. reflexivity.
    + exact Hroles.
    + exact Hop.
Qed.

Lemma new_events_app (l : list Event) (m m' : Main) :
  trace m' = l ++ trace m -> new_events m m' = rev l.
Proof.
  intros H. unfold new_events. rewrite H, length_app.
  replace (List.length l + List.length (trace m) - List.length (trace m))%nat
    with (List.length l + 0)%nat by lia.
  rewrite firstn_app_2. simpl. now rewrite app_nil_r.
Qed.

Lemma input_events_applied (plugins : Dict.t PluginTask) (server : bool)
    (new_input : Dict.t pyval) (counter : Z) (k : string) (v : pyval) :
  In (EvApplyNewInputs k v) (input_events plugins server counter new_input)
  <-> In (k, v) new_input /\ classify plugins server k = Eligible.
Proof.
  revert counter. induction new_input as [|[k0 v0] rest IH]; intro counter; cbn [input_events].
  - simpl. tauto.
  - rewrite in_app_iff, IH. unfold entry_events. cbn [fst snd In].
    destruct (classify plugins server k0) eqn:Hc.
    + split.
      * intros [[H|[]]|[H1 H2]]; [injection H as -> ->; auto | auto].
      * intros [[H|H1] H2]; [injection H as -> ->; left; now left | right; auto].
    + split.
      * intros [H|[H1 H2]]; [|auto].
        destruct (10 <? counter); [destruct H as [H|[]]; discriminate | destruct H].
      * intros [[H|H1] H2]; [injection H as -> ->; congruence | right; auto].
    + split.
      * intros [[H|[]]|[H1 H2]]; [discriminate | auto].
      * intros [[H|H1] H2]; [injection H as -> ->; congruence | right; auto].
    + split.
      * intros [[H|[]]|[H1 H2]]; [discriminate | auto].
      * intros [[H|H1] H2]; [injection H as -> ->; congruence | right; auto].
Qed.

Lemma error_free_input (plugins : Dict.t PluginTask) (server : bool)
    (new_input : Dict.t pyval) (counter : Z) :
  filter (fun item => is_error (classify plugins server (fst item))) new_input = [] ->
  count_after plugins server counter new_input = counter
  /\ filter is_dialog (input_events plugins server counter new_input) = [].
Proof.
  unfold count_after.
  revert counter. induction new_input as [|item rest IH]; intro counter;
    cbn [filter fold_left input_events]; [auto|].
  unfold count_step at 2 3. unfold entry_events.
  destruct (classify plugins server (fst item)); cbn [is_error]; try discriminate.
  intros H. cbn [app filter is_dialog]. now apply IH.
Qed.

(** C2, as the code has it: [remote_pass_new_input] applies the queued
    input exactly to the plugins that exist, expose [applyNewInputs] and are
    Host-authoritative.  An entry for an existing plugin with the capability
    that is not Host-authoritative adds one to the error counter while the
    counter is at most 10, and raises the warning once the counter exceeds
    10; an entry for a plugin that does not exist or lacks the capability
    raises the warning at once and leaves the counter alone.  A call that
    did not move the counter, in particular a call without errors, resets
    it to zero. *)
Theorem C2_pass_new_input (new_input : Dict.t pyval) (m : Main) :
  roles_defined m -> ignores_dialogs m ->
  exists m',
    remote_pass_new_input new_input m = Ok tt m'
    /\ new_events m m'
       = input_events (PLUGINS_TASK m) (is_server m) (error_counter m) new_input
    /\ error_counter m'
       = (let c := count_after (PLUGINS_TASK m) (is_server m) (error_counter m) new_input in
          if error_counter m =? c then 0 else c)
    /\ (forall k v,
          In (EvApplyNewInputs k v) (new_events m m')
          <-> In (k, v) new_input
              /\ classify (PLUGINS_TASK m) (is_server m) k = Eligible)
    /\ (errors_in m new_input = 0 ->
        error_counter m' = 0 /\ filter is_dialog (new_events m m') = []).
Proof.
  intros Hroles Hop.
  pose (c := count_after (PLUGINS_TASK m) (is_server m) (error_counter m) new_input).
  pose (evs := input_events (PLUGINS_TASK m) (is_server m) (error_counter m) new_input).
  exists (set_error_counter (if error_counter m =? c then 0 else c)
            (set_trace (rev evs ++ trace m) m)).
  assert (Hrun : remote_pass_new_input new_input m
                 = Ok tt (set_error_counter (if error_counter m =? c then 0 else c)
                            (set_trace (rev evs ++ trace m) m))).
  { unfold remote_pass_new_input. unfold bind at 1. cbn [gets].
    unfold bind at 1.
    match goal with
    | |- context [for_ new_input ?b m] =>
        rewrite (pass_new_input_loop b new_input
                   (fun item m0 Hr Ho => pass_new_input_entry item m0 Hr Ho)
                   m Hroles Hop)
    end.
    fold c evs. unfold with_input_effects.
    unfold bind at 1. cbn [gets error_counter set_error_counter].
    destruct (error_counter m =? c) eqn:E; cbn [when modify ret]; reflexivity. }
  assert (Hnew : new_events m
                   (set_error_counter (if error_counter m =? c then 0 else c)
                      (set_trace (rev evs ++ trace m) m)) = evs).
  { rewrite (new_events_app (rev evs)) by reflexivity. apply rev_involutive. }
  split; [exact Hrun|]. split; [exact Hnew|]. split; [reflexivity|].
  rewrite Hnew. split.
  - intros k v. apply input_events_applied.
  - intros Hzero. unfold errors_in in Hzero.
    assert (Hnil : filter (fun item =>
                     is_error (classify (PLUGINS_TASK m) (is_server m) (fst item)))
                     new_input = []).
    { destruct (filter _ new_input); [reflexivity|]. simpl in Hzero. lia. }
    destruct (error_free_input _ _ _ (error_counter m) Hnil) as [Hc Hd].
    fold c in Hc. fold evs in Hd.
    cbn [error_counter set_error_counter]. rewrite Hc, Z.eqb_refl. auto.
Qed.

Lemma C2_pass_new_input_witness :
  exists m',
    remote_pass_new_input [("track", PObj "joystick"); ("sysmon", PObj "keys")]%string
      host_Main = Ok tt m'
    /\ new_events host_Main m'
       = input_events (PLUGINS_TASK host_Main) (is_server host_Main)
           (error_counter host_Main)
           [("track", PObj "joystick"); ("sysmon", PObj "keys")]%string
    /\ error_counter m'
       = (let c := count_after (PLUGINS_TASK host_Main) (is_server host_Main)
                     (error_counter host_Main)
                     [("track", PObj "joystick"); ("sysmon", PObj "keys")]%string in
          if error_counter host_Main =? c then 0 else c)
    /\ (forall k v,
          In (EvApplyNewInputs k v) (new_events host_Main m')
          <-> In (k, v) [("track", PObj "joystick"); ("sysmon", PObj "keys")]%string
              /\ classify (PLUGINS_TASK host_Main) (is_server host_Main) k = Eligible)
    /\ (errors_in host_Main [("track", PObj "joystick"); ("sysmon", PObj "keys")]%string = 0 ->
        error_counter m' = 0 /\ filter is_dialog (new_events host_Main m') = []).
Proof.
  apply (C2_pass_new_input [("track", PObj "joystick"); ("sysmon", PObj "keys")]%string
           host_Main).
  - intros k p Hp Hcap. cbn in Hp.
    repeat match type of Hp with
           | (if ?b then _ else _) = _ => destruct b
           end;
      try discriminate; injection Hp as <-; split; try reflexivity;
      cbn in Hcap; discriminate.
  - intro shown. reflexivity.
Defined.

(** C2 as the specification words it fails on the code: an entry for a
    plugin that does not exist is warned about at once, as the first error,
    and is not counted; and the eleventh misrouted entry in a row is still
    silent. *)
Lemma C2_error_budget_counterexample :
  ~ error_budget_as_specified host_Main [("nosuch", PNone)]%string
  /\ ~ error_budget_as_specified (set_error_counter 10 host_Main)
         [("sysmon", PObj "keys")]%string.
Proof.
  split.
  - intros (Hcount & _). vm_compute in Hcount. discriminate.
  - intros (_ & _ & Hwarn). apply Hwarn; vm_compute; congruence.
Qed.

(** ** Termination handshake (C3) *)

(** The steps of a run under a frame that also ignores the clocks, the
    heartbeat, the error counter, the delivery flag, and that [end_]
    respects. *)
Section StepFootprint.

Variable R : Main -> Main -> Prop.
Hypothesis HF : frame R.
Hypothesis H_end : stable R end_.
Hypothesis H_time : ignores R set_time.
Hypothesis H_key : ignores R set_scenarioTimeStr.
Hypothesis H_time_time : ignores R set_time_time.
Hypothesis H_default_timer : ignores R set_default_timer.
Hypothesis H_last_client_sync : ignores R set_last_client_sync.
Hypothesis H_sent : ignores R set_termination_message_sent.
Hypothesis H_error_counter : ignores R set_error_counter.
Hypothesis H_remote : forall f a, quiet R (EvCallRemote f a).

Lemma stable_doNetworkCommunications (host : HostReplies) :
  stable R (doNetworkCommunications host).
Proof.
  frame_open HF. unfold doNetworkCommunications, plugin_hasattr. stable_auto.
  all: now apply stable_class_is_client.
Qed.

Lemma stable_teardown_if_due : stable R teardown_if_due.
Proof. frame_open HF. unfold teardown_if_due. stable_auto. Qed.

Lemma stable_advance_clock (host : HostReplies) (elapsed : Z) :
  stable R (advance_clock host elapsed).
Proof. frame_open HF. unfold advance_clock. stable_auto. Qed.

Lemma stable_running_tick (host : HostReplies) (elapsed : Z)
    (sync_data : option (Dict.t pyval)) :
  stable R (running_tick host elapsed sync_data).
Proof.
  frame_open HF. unfold running_tick. stable_auto.
  all: first [ now apply stable_advance_clock
             | now apply stable_update_plugin_time
             | now apply stable_log_message
             | now apply stable_scenarioUpdateTime ].
Qed.

Lemma stable_scheduler (host : HostReplies) : stable R (scheduler host).
Proof.
  frame_open HF. unfold scheduler. stable_auto.
  all: first [ now apply stable_doNetworkCommunications
             | now apply stable_teardown_if_due
             | now apply stable_running_tick ].
Qed.

Lemma stable_remote_get_sync_data : stable R remote_get_sync_data.
Proof.
  frame_open HF. unfold remote_get_sync_data, plugin_hasattr. stable_auto.
  all: now apply stable_class_is_server.
Qed.

Lemma stable_remote_pass_new_input (new_input : Dict.t pyval) :
  stable R (remote_pass_new_input new_input).
Proof.
  frame_open HF. unfold remote_pass_new_input, plugin_hasattr. stable_auto.
  all: first [now apply stable_class_is_server | now apply stable_showCriticalMessage].
Qed.

Lemma stable_step (s : Step) : stable R (step s).
Proof.
  frame_open HF. destruct s; cbn [step];
    unfold ignore, remote_confirm_connected, remote_get_time; stable_auto.
  all: first [ now apply stable_scheduler
             | now apply stable_onPause
             | now apply stable_onResume
             | now apply stable_remote_get_sync_data
             | now apply stable_remote_pass_new_input ].
Qed.

Lemma stable_run (steps : list Step) : stable R (run steps).
Proof.
  unfold run. apply stable_for_.
  - apply (frame_refl _ HF).
  - apply (frame_trans _ HF).
  - apply stable_step.
Qed.

End StepFootprint.

Lemma stays_ended_end_ : stable stays_ended end_.
Proof.
  apply stable_end_.
  - intros m H. exact H.
  - unfold stays_ended. auto.
  - intros e _ m H. exact H.
  - intros m _. reflexivity.
  - intros x m H. exact H.
Qed.

Lemma stays_ended_frame : frame stays_ended.
Proof.
  assert (Hrefl : forall m, stays_ended m m) by (intros m H; exact H).
  assert (Htrans : forall a b c, stays_ended a b -> stays_ended b c -> stays_ended a c)
    by (unfold stays_ended; auto).
  constructor; try assumption; try (intros x m H; exact H).
  - intros e _ m H. exact H.
  - apply stable_onEnd; try assumption.
    + intros e _ m H. exact H.
    + intros m _. reflexivity.
    + intros x m H. exact H.
Qed.

Lemma stays_ended_run (steps : list Step) : stable stays_ended (run steps).
Proof.
  apply stable_run; try (intros x m H; exact H).
  - apply stays_ended_frame.
  - apply stays_ended_end_.
  - intros f a m H. exact H.
Qed.

Lemma Ok_state_of {A} (c : M A) (m m' : Main) (a : A) :
  c m = Ok a m' -> state_of (c m) = m'.
Proof. now intros ->. Qed.

Lemma bind_Ok_inv {A B} (c : M A) (k : A -> M B) (m m' : Main) (b : B) :
  bind c k m = Ok b m' -> exists a m1, c m = Ok a m1 /\ k a m1 = Ok b m'.
Proof.
  unfold bind. destruct (c m) as [a m1| | |]; try discriminate. eauto.
Qed.

(** [get_sync_data] when the experiment has stopped. *)
Lemma remote_get_sync_data_terminate (m m' : Main) (d : Dict.t pyval) :
  experiment_running m = false ->
  remote_get_sync_data m = Ok d m' ->
  Dict.get "terminate" d = Some (PBool true) /\ termination_message_sent m' = true.
Proof.
  intros Hended Hrun. unfold remote_get_sync_data in Hrun.
  apply bind_Ok_inv in Hrun. destruct Hrun as (plugins & m1 & H1 & Hrun).
  cbn [gets] in H1. injection H1 as <- <-.
  apply bind_Ok_inv in Hrun. destruct Hrun as (sync_data & m2 & H2 & Hrun).
  assert (Hended2 : experiment_running m2 = false).
  { pose proof stays_ended_frame as HF. frame_open HF.
    assert (Hst : stable stays_ended
              (collect (Dict.keys (PLUGINS_TASK m))
                 (fun plugin_name =>
                    p <- plugin_entry plugin_name ;;
                    if plugin_hasattr p "getSyncData" then
                      server <- class_is_server plugin_name ;;
                      if server then
                        emit (EvCall plugin_name "getSyncData") ;;
                        ret (Some (sync_payload (class p)))
                      else ret None
                    else ret None)%py [])).
    { unfold plugin_hasattr. stable_auto. all: now apply stable_class_is_server. }
    specialize (Hst m). rewrite H2 in Hst. now apply Hst. }
  apply bind_Ok_inv in Hrun. destruct Hrun as (running & m3 & H3 & Hrun).
  cbn [gets] in H3. injection H3 as <- <-. rewrite Hended2 in Hrun.
  cbn [negb] in Hrun. unfold bind, modify, ret in Hrun. cbn in Hrun.
  injection Hrun as <- <-. split; [apply Dict_get_set_same | reflexivity].
Qed.

Lemma stops_emit (e : Event) (m : Main) :
  loud e = false -> stops (set_trace (e :: trace m) m) = stops m.
Proof. intros He. unfold stops. destruct e; cbn in *; congruence. Qed.

Lemma host_goes_on_onEnd : stable host_goes_on onEnd.
Proof.
  intros m Hserver. unfold onEnd, bind, modify, gets.
  cbn [is_server set_experiment_running]. rewrite Hserver. cbn. auto.
Qed.

Lemma host_goes_on_frame : frame host_goes_on.
Proof.
  constructor; try (intros x m H; split; [exact H | reflexivity]).
  - intros m H. auto.
  - intros a b c Hab Hbc H. destruct (Hab H) as [Hb Hs].
    destruct (Hbc Hb) as [Hc Hs']. split; [exact Hc | congruence].
  - intros e He m H. split; [exact H | now apply stops_emit].
  - apply host_goes_on_onEnd.
Qed.

(** When the Host's condition for teardown holds, the session has ended
    and the flag was delivered, or the grace test passed, or the peer has
    been silent for longer than the timeout. *)
Lemma teardown_due_cases (m : Main) :
  teardown_due m = true ->
  (experiment_running m = false /\ termination_message_sent m = true)
  \/ (experiment_running m = false /\ 10000 < ended_time m - time_time m)
  \/ connection_timeout m < time_time m - last_client_sync m.
Proof.
  unfold teardown_due. intros H.
  apply andb_true_iff in H. destruct H as [_ H].
  apply orb_true_iff in H. destruct H as [H|H].
  - apply andb_true_iff in H. destruct H as [Hr H].
    apply negb_true_iff in Hr.
    apply orb_true_iff in H. destruct H as [H|H]; [now left|].
    right. left. split; [exact Hr|]. now apply Z.ltb_lt.
  - right. right. now apply Z.ltb_lt.
Qed.

(** A tick of a Host that is not due for teardown leaves the reactor
    running. *)
Lemma host_tick_stops (m : Main) (time_now timer_now : Z) (host : HostReplies) :
  is_server m = true -> is_client m = false ->
  stops (state_of (step (Tick time_now timer_now host) m)) <> stops m ->
  teardown_due (set_time_time time_now m) = true.
Proof.
  intros Hserver Hclient Hstops.
  destruct (teardown_due (set_time_time time_now m)) eqn:Hdue; [reflexivity|].
  exfalso. apply Hstops. clear Hstops.
  cbn [step]. unfold bind at 1. cbn [modify]. unfold bind at 1. cbn [modify].
  unfold scheduler. unfold bind at 1. cbn [gets]. unfold bind at 1. cbn [gets].
  cbn [default_timer set_default_timer last_time_microsec set_time_time].
  destruct (timer_now - last_time_microsec m <? MAIN_SCHEDULER_INTERVAL);
    [reflexivity|].
  unfold bind at 1. cbn [modify]. unfold bind at 1.
  unfold doNetworkCommunications. unfold bind at 1. cbn [gets].
  cbn [is_client set_last_time_microsec set_default_timer set_time_time].
  rewrite Hclient. cbn [when]. unfold bind at 1. cbn [ret]. unfold bind at 1.
  cbn [ret]. unfold bind at 1. cbn [ret]. unfold bind at 1. cbn [ret].
  unfold bind at 1. unfold teardown_if_due. unfold bind at 1.
  cbn [gets].
  assert (Hdue' : teardown_due
                    (set_last_time_microsec timer_now
                       (set_default_timer timer_now (set_time_time time_now m)))
                  = false) by exact Hdue.
  rewrite Hdue'. cbn [when ret].
  match goal with
  | |- stops (state_of (?c ?m0)) = _ =>
      assert (Hst : stable host_goes_on c)
  end.
  { pose proof host_goes_on_frame as HF. frame_open HF. stable_auto.
    apply stable_running_tick; [exact HF| | |].
    - intros x m0 Hx. split; [exact Hx | reflexivity].
    - intros x m0 Hx. split; [exact Hx | reflexivity].
    - intros f0 a0 m0 Hx. split; [exact Hx | reflexivity]. }
  match goal with
  | |- stops (state_of (?c ?m0)) = _ => destruct (Hst m0 Hserver) as [_ Hs]
  end.
  rewrite Hs. reflexivity.
Qed.



(** ** The Participant's virtual clock (C5) *)

Lemma participant_view_quiet (e : Event) :
  is_get_time e = false -> quiet (same participant_view) e.
Proof.
  intros He m. unfold same, participant_view, get_time_calls.
  cbn. now rewrite He.
Qed.

Lemma participant_view_end_ : stable (same participant_view) end_.
Proof.
  apply stable_end_; try (intros x m; reflexivity).
  - apply same_refl.
  - apply same_trans.
  - intros e He. apply participant_view_quiet. now destruct e.
  - intro m. reflexivity.
Qed.

Lemma participant_view_onEnd : stable (same participant_view) onEnd.
Proof.
  apply stable_onEnd; try (intros x m; reflexivity).
  - apply same_refl.
  - apply same_trans.
  - intros e He. apply participant_view_quiet. now destruct e.
  - intro m. reflexivity.
Qed.

Lemma participant_view_frame : frame (same participant_view).
Proof.
  constructor; try (intros x m; reflexivity).
  - apply same_refl.
  - apply same_trans.
  - intros e He m. unfold same, participant_view, get_time_calls.
    destruct e; cbn in *; try reflexivity; discriminate.
  - apply participant_view_onEnd.
Qed.

Lemma participant_view_doNetworkCommunications (host : HostReplies) :
  stable (same participant_view) (doNetworkCommunications host).
Proof.
  stable_same. pose proof participant_view_onEnd.
  unfold doNetworkCommunications, plugin_hasattr. stable_auto.
  all: apply stable_class_is_client; apply participant_view_frame.
Qed.

Lemma participant_view_teardown_if_due : stable (same participant_view) teardown_if_due.
Proof.
  stable_same. pose proof participant_view_end_.
  unfold teardown_if_due. stable_auto.
Qed.

(** After the clock was set, the rest of the tick leaves it alone and
    makes no further call of [get_time]. *)
Lemma participant_view_after_clock (elapsed : Z) (sync_data : option (Dict.t pyval)) :
  stable (same participant_view)
    (plugins <- gets (fun m => Dict.keys (PLUGINS_TASK m)) ;;
     for_ plugins (fun plugin_name =>
       update_plugin_time plugin_name elapsed sync_data) ;;
     log_message ;;
     scenarioUpdateTime)%py.
Proof.
  stable_same. pose proof participant_view_frame as HF. stable_auto.
  - now apply stable_update_plugin_time.
  - now apply stable_log_message.
  - now apply stable_scenarioUpdateTime.
Qed.

Lemma state_of_bind {A B} (c : M A) (k : A -> M B) (m : Main) :
  state_of (bind c k m)
  = match c m with
    | Ok a m' => state_of (k a m')
    | Exit m' | Raise _ m' | Parked m' => m'
    end.
Proof. unfold bind. destruct (c m); reflexivity. Qed.

(** The tick of a Participant, seen through [participant_view]. *)
Lemma participant_tick (m : Main) (host : HostReplies) :
  is_client m = true ->
  let m' := state_of (scheduler host m) in
  (totalElapsedTime_ms m' = totalElapsedTime_ms m
   /\ get_time_calls m' = get_time_calls m)
  \/ (totalElapsedTime_ms m' = reply_time host
      /\ get_time_calls m' = S (get_time_calls m)).
Proof.
  intros Hclient m'. subst m'. unfold scheduler.
  rewrite state_of_bind. cbn [gets]. rewrite state_of_bind. cbn [gets].
  destruct (default_timer m - last_time_microsec m <? MAIN_SCHEDULER_INTERVAL);
    [left; split; reflexivity|].
  rewrite state_of_bind. cbn [modify].
  set (m1 := set_last_time_microsec (default_timer m) m).
  assert (Hv1 : participant_view m1 = participant_view m) by reflexivity.
  rewrite state_of_bind.
  pose proof (participant_view_doNetworkCommunications host m1) as Hnet.
  unfold same in Hnet. rewrite Hv1 in Hnet.
  destruct (doNetworkCommunications host m1) as [sync_data m2|m2|e m2|m2];
    cbn [state_of] in Hnet;
    try solve [left; unfold participant_view in Hnet; injection Hnet as _ Ht Hc; auto].
  rewrite state_of_bind.
  pose proof (participant_view_teardown_if_due m2) as Htd.
  unfold same in Htd. rewrite Hnet in Htd.
  destruct (teardown_if_due m2) as [[] m3|m3|e m3|m3];
    cbn [state_of] in Htd;
    try solve [left; unfold participant_view in Htd; injection Htd as _ Ht Hc; auto].
  rewrite state_of_bind. cbn [gets]. rewrite state_of_bind. cbn [gets].
  unfold participant_view in Htd. injection Htd as Hcl Ht Hc.
  destruct (experiment_pause m3 || negb (experiment_running m3));
    [left; auto|].
  right.
  set (el := default_timer m - last_time_microsec m).
  set (m4 := set_time (reply_time host)
               (set_trace (EvCallRemote "get_time" PNone :: trace m3) m3)).
  assert (E : state_of (running_tick host el sync_data m3)
              = state_of
                  ((plugins <- gets (fun m => Dict.keys (PLUGINS_TASK m)) ;;
                    for_ plugins (fun plugin_name =>
                      update_plugin_time plugin_name
                        (reply_time host - totalElapsedTime_ms m3) sync_data) ;;
                    log_message ;;
                    scenarioUpdateTime)%py m4)).
  { unfold running_tick. rewrite state_of_bind.
    unfold advance_clock. unfold bind at 1. cbn [gets]. rewrite Hcl, Hclient.
    cbn [negb]. unfold bind at 1. cbn [gets]. unfold bind at 1. cbn [emit modify].
    unfold bind at 1. cbn [modify]. unfold bind at 1. cbn [gets ret].
    reflexivity. }
  rewrite E.
  pose proof (participant_view_after_clock
                (reply_time host - totalElapsedTime_ms m3) sync_data m4) as Hrest.
  unfold same, participant_view in Hrest.
  injection Hrest as _ Ht' Hc'.
  rewrite Ht', Hc'. subst m4.
  unfold get_time_calls in *. cbn. now rewrite Hc.
Qed.

(** The steps of a Participant other than ticks. *)
Lemma participant_view_other_steps (s : Step) :
  (forall time_now timer_now host, s <> Tick time_now timer_now host) ->
  stable (same participant_view) (step s).
Proof.
  intros Hs. stable_same. pose proof participant_view_frame as HF.
  pose proof participant_view_onEnd.
  destruct s; cbn [step];
    unfold ignore, remote_confirm_connected, remote_get_time.
  - exfalso. eapply Hs. reflexivity.
  - now apply stable_onPause.
  - now apply stable_onResume.
  - assumption.
  - stable_auto.
  - stable_auto.
  - stable_auto.
    apply stable_remote_get_sync_data; [exact HF | |]; intros x m; reflexivity.
  - apply stable_remote_pass_new_input; [exact HF|]. intros x m; reflexivity.
Qed.



(** A Participant tick on the demo table: the clock takes the value the
    Host returned. *)
Lemma participant_tick_example :
  totalElapsedTime_ms
    (state_of (step (Tick 5 5 (mkHostReplies [] 1234)) participant_Main)) = 1234.
Proof. reflexivity. Qed.

(** ** Pauses and the periodic updates (C7) *)

Lemma of_the_end_is_update (e : Event) :
  of_the_end e = true -> is_update e = false.
Proof.
  destruct e; cbn; try reflexivity; try discriminate.
  intros H. apply orb_true_iff in H.
  destruct H as [H|H]; apply String.eqb_eq in H; subst; reflexivity.
Qed.

Lemma paused_view_quiet (e : Event) :
  is_update e = false -> quiet (same paused_view) e.
Proof.
  intros He m. unfold same, paused_view, update_events. cbn. now rewrite He.
Qed.

Lemma paused_view_end_ : stable (same paused_view) end_.
Proof.
  apply stable_end_; try (intros x m; reflexivity).
  - apply same_refl.
  - apply same_trans.
  - intros e He. now apply paused_view_quiet, of_the_end_is_update.
  - intro m. reflexivity.
Qed.

Lemma paused_view_onEnd : stable (same paused_view) onEnd.
Proof.
  apply stable_onEnd; try (intros x m; reflexivity).
  - apply same_refl.
  - apply same_trans.
  - intros e He. now apply paused_view_quiet, of_the_end_is_update.
  - intro m. reflexivity.
Qed.

Lemma paused_view_doNetworkCommunications (host : HostReplies) :
  stable (same paused_view) (doNetworkCommunications host).
Proof.
  stable_same. pose proof paused_view_onEnd.
  unfold doNetworkCommunications, class_is_client, plugin_hasattr. stable_auto.
Qed.

Lemma paused_view_teardown_if_due : stable (same paused_view) teardown_if_due.
Proof.
  stable_same. pose proof paused_view_end_. unfold teardown_if_due. stable_auto.
Qed.

Lemma stays_ended_doNetworkCommunications (host : HostReplies) :
  stable stays_ended (doNetworkCommunications host).
Proof.
  apply stable_doNetworkCommunications.
  - apply stays_ended_frame.
  - intros f a m H. exact H.
Qed.

Lemma stays_ended_teardown_if_due : stable stays_ended teardown_if_due.
Proof.
  apply stable_teardown_if_due.
  - apply stays_ended_frame.
  - apply stays_ended_end_.
Qed.

(** A tick while the session is paused or the experiment has stopped. *)
Lemma idle_tick (m : Main) (host : HostReplies) :
  experiment_pause m = true \/ experiment_running m = false ->
  paused_view (state_of (scheduler host m)) = paused_view m.
Proof.
  intros Hidle. unfold scheduler.
  rewrite state_of_bind. cbn [gets]. rewrite state_of_bind. cbn [gets].
  destruct (default_timer m - last_time_microsec m <? MAIN_SCHEDULER_INTERVAL);
    [reflexivity|].
  rewrite state_of_bind. cbn [modify].
  set (m1 := set_last_time_microsec (default_timer m) m).
  rewrite state_of_bind.
  pose proof (paused_view_doNetworkCommunications host m1) as Hv2.
  pose proof (stays_ended_doNetworkCommunications host m1) as He2.
  unfold same in Hv2. change (paused_view m1) with (paused_view m) in Hv2.
  unfold stays_ended in He2.
  change (experiment_running m1) with (experiment_running m) in He2.
  destruct (doNetworkCommunications host m1) as [sync_data m2|m2|e m2|m2];
    cbn [state_of] in *; try exact Hv2.
  rewrite state_of_bind.
  pose proof (paused_view_teardown_if_due m2) as Hv3.
  pose proof (stays_ended_teardown_if_due m2) as He3.
  unfold same in Hv3. rewrite Hv2 in Hv3. unfold stays_ended in He3.
  destruct (teardown_if_due m2) as [[] m3|m3|e m3|m3];
    cbn [state_of] in *; try exact Hv3.
  rewrite state_of_bind. cbn [gets]. rewrite state_of_bind. cbn [gets].
  assert (Hcheck : experiment_pause m3 || negb (experiment_running m3) = true).
  { destruct Hidle as [Hp|Hr].
    - assert (experiment_pause m3 = true) as ->; [|reflexivity].
      unfold paused_view in Hv3. congruence.
    - rewrite (He3 (He2 Hr)). apply orb_true_r. }
  rewrite Hcheck. exact Hv3.
Qed.

(** In a local session such a tick returns. *)
Lemma idle_tick_local (m : Main) (host : HostReplies) :
  is_client m = false -> is_server m = false ->
  experiment_pause m = true \/ experiment_running m = false ->
  scheduler host m
  = Ok tt (if default_timer m - last_time_microsec m <? MAIN_SCHEDULER_INTERVAL
           then m else set_last_time_microsec (default_timer m) m).
Proof.
  intros Hclient Hserver Hidle. unfold scheduler.
  unfold bind at 1. cbn [gets]. unfold bind at 1. cbn [gets].
  destruct (default_timer m - last_time_microsec m <? MAIN_SCHEDULER_INTERVAL);
    [reflexivity|].
  unfold bind at 1. cbn [modify]. unfold bind at 1.
  unfold doNetworkCommunications. unfold bind at 1. cbn [gets].
  cbn [is_client set_last_time_microsec]. rewrite Hclient. cbn [when].
  unfold bind at 1. cbn [ret]. unfold bind at 1. cbn [ret].
  unfold bind at 1. cbn [ret]. unfold bind at 1. cbn [ret].
  unfold bind at 1. unfold teardown_if_due. unfold bind at 1. cbn [gets].
  unfold bind at 1. cbn [gets].
  unfold teardown_due at 1. cbn [is_server set_last_time_microsec].
  rewrite Hserver. cbn [andb when ret].
  unfold bind at 1. cbn [gets].
  cbn [experiment_pause experiment_running set_last_time_microsec].
  destruct Hidle as [-> | ->]; [reflexivity|].
  rewrite orb_true_r. reflexivity.
Qed.

(** *** Methods that do not read the clocks *)

Section Commutes.

Variable f : Main -> Main.

Lemma commutes_ret {A} (a : A) : commutes f (ret a).
Proof. intro m. reflexivity. Qed.

Lemma commutes_raise {A} (e : Exn) : commutes f (@raise A e).
Proof. intro m. reflexivity. Qed.

Lemma commutes_sys_exit {A} : commutes f (@sys_exit A).
Proof. intro m. reflexivity. Qed.

Lemma commutes_bind {A B} (c : M A) (k : A -> M B) :
  commutes f c -> (forall a, commutes f (k a)) -> commutes f (bind c k).
Proof.
  intros Hc Hk m. unfold bind. rewrite Hc.
  destruct (c m) as [a m'| | |]; cbn; try reflexivity. apply Hk.
Qed.

Lemma commutes_for_ {A} (l : list A) (body : A -> M unit) :
  (forall x, commutes f (body x)) -> commutes f (for_ l body).
Proof.
  intros Hb. induction l as [|x l IH]; cbn [for_].
  - apply commutes_ret.
  - apply commutes_bind; auto.
Qed.

Lemma commutes_when (b : bool) (c : M unit) :
  commutes f c -> commutes f (when b c).
Proof. destruct b; cbn [when]; auto using commutes_ret. Qed.

Lemma commutes_collect (l : list string) (body : string -> M (option pyval))
    (acc : Dict.t pyval) :
  (forall x, commutes f (body x)) -> commutes f (collect l body acc).
Proof.
  intros Hb. revert acc. induction l as [|x l IH]; cbn [collect]; intro acc.
  - apply commutes_ret.
  - apply commutes_bind; auto.
Qed.

Lemma commutes_from_qt {A} (handler : M A) :
  commutes f handler -> commutes f (from_qt handler).
Proof.
  intros Hh m. unfold from_qt. rewrite Hh.
  destruct (handler m); reflexivity.
Qed.

End Commutes.

(** One structural step of a proof that a method commutes with
    [retimed]; the leaves read and write fields that [retimed] leaves
    alone, and close by computation. *)
Ltac commutes_step :=
  match goal with
  | |- commutes _ (bind _ _) => apply commutes_bind; intros
  | |- commutes _ (ret _) => apply commutes_ret
  | |- commutes _ (raise _) => apply commutes_raise
  | |- commutes _ sys_exit => apply commutes_sys_exit
  | |- commutes _ (for_ _ _) => apply commutes_for_; intros
  | |- commutes _ (collect _ _ _) => apply commutes_collect; intros
  | |- commutes _ (when _ _) => apply commutes_when
  | |- commutes _ (gets _) => intro; reflexivity
  | |- commutes _ (modify _) => intro; reflexivity
  | |- commutes _ (emit _) => intro; reflexivity
  | |- commutes _ (if ?b then _ else _) => destruct b
  | |- commutes _ (match ?x with _ => _ end) => destruct x
  | |- commutes _ (let '(_, _) := ?x in _) => destruct x
  | |- commutes _ _ => solve [auto]
  end.

Ltac commutes_auto := repeat (cbv beta zeta; commutes_step).

Section Retimed.

Variables a b c : Z -> Z.

Lemma commutes_plugin_entry (plugin : string) :
  commutes (retimed a b c) (plugin_entry plugin).
Proof.
  intro m. unfold plugin_entry. cbn [PLUGINS_TASK retimed set_time_time
    set_default_timer set_last_time_microsec].
  destruct (Dict.get plugin (PLUGINS_TASK m)); reflexivity.
Qed.

Lemma commutes_update_plugin (plugin : string) (g : PluginTask -> PluginTask) :
  commutes (retimed a b c) (update_plugin plugin g).
Proof.
  pose proof commutes_plugin_entry. unfold update_plugin. commutes_auto.
Qed.

Lemma commutes_main_parameter (name : string) :
  commutes (retimed a b c) (main_parameter name).
Proof.
  intro m. unfold main_parameter. cbn [parameters retimed set_time_time
    set_default_timer set_last_time_microsec].
  destruct (Dict.get name (parameters m)); reflexivity.
Qed.

Lemma commutes_onPause (hide_ui : bool) : commutes (retimed a b c) (onPause hide_ui).
Proof.
  pose proof commutes_plugin_entry. pose proof commutes_update_plugin.
  unfold onPause. commutes_auto.
Qed.

Lemma commutes_onResume : commutes (retimed a b c) onResume.
Proof.
  pose proof commutes_plugin_entry. pose proof commutes_update_plugin.
  unfold onResume, previously_paused. commutes_auto.
Qed.

End Retimed.

(** *** A tick does the same when the timer was started later *)

Ltac commutes_leaf :=
  match goal with
  | |- commutes _ _ => solve [intro; reflexivity]
  end.

Section Shifted.

Variable d : Z.

Lemma shift_plugin_entry (plugin : string) : commutes (shift d) (plugin_entry plugin).
Proof. apply commutes_plugin_entry. Qed.

Lemma shift_update_plugin (plugin : string) (g : PluginTask -> PluginTask) :
  commutes (shift d) (update_plugin plugin g).
Proof. apply commutes_update_plugin. Qed.

Lemma shift_end_closing : commutes (shift d) end_closing.
Proof. pose proof shift_plugin_entry. unfold end_closing. commutes_auto. Qed.

Lemma shift_closeEvent : commutes (shift d) closeEvent.
Proof.
  pose proof shift_end_closing. unfold closeEvent, onEnd_closing.
  apply commutes_bind; [apply commutes_main_parameter|].
  intros. commutes_auto.
Qed.

Lemma shift_end_ : commutes (shift d) end_.
Proof.
  pose proof shift_plugin_entry.
  pose proof (commutes_from_qt _ _ shift_closeEvent).
  unfold end_, close_. commutes_auto.
Qed.

Lemma shift_onPause (hide_ui : bool) : commutes (shift d) (onPause hide_ui).
Proof. apply commutes_onPause. Qed.

Lemma shift_onResume : commutes (shift d) onResume.
Proof. apply commutes_onResume. Qed.

Lemma shift_onEnd : commutes (shift d) onEnd.
Proof. pose proof shift_end_. unfold onEnd. commutes_auto. Qed.

Lemma shift_showCriticalMessage (msg : CriticalMessage) :
  commutes (shift d) (showCriticalMessage msg).
Proof. pose proof shift_onEnd. unfold showCriticalMessage. commutes_auto. Qed.

Lemma shift_showlabels : commutes (shift d) showlabels.
Proof.
  intro m. unfold showlabels.
  cbn [parameters shift retimed set_time_time set_default_timer set_last_time_microsec].
  destruct (Dict.get "showlabels" (parameters m)); reflexivity.
Qed.

Lemma shift_updateLabels : commutes (shift d) updateLabels.
Proof. pose proof shift_plugin_entry. unfold updateLabels. commutes_auto. Qed.

Lemma shift_waitEndofPause : commutes (shift d) waitEndofPause.
Proof. unfold waitEndofPause. commutes_auto. all: commutes_leaf. Qed.

Lemma shift_coerce (old : pyval) (value : string) : commutes (shift d) (coerce old value).
Proof. pose proof shift_showCriticalMessage. unfold coerce. commutes_auto. Qed.

Lemma shift_assign_at (command : list string) (value : string) (current : pyval) :
  commutes (shift d) (assign_at command value current).
Proof.
  pose proof shift_coerce. revert current.
  induction command as [|k rest IH]; intro current; cbn [assign_at].
  - commutes_auto.
  - destruct rest as [|k' rest']; commutes_auto.
Qed.

Lemma shift_store_parameters (task : string) (p : Dict.t pyval) :
  commutes (shift d) (store_parameters task p).
Proof. pose proof shift_update_plugin. unfold store_parameters. commutes_auto. Qed.

Lemma shift_setParameterVariable (task : string) (tc : taskclass_ref)
    (variable value : string) :
  commutes (shift d) (setParameterVariable task tc variable value).
Proof.
  pose proof shift_assign_at. pose proof shift_store_parameters.
  pose proof shift_plugin_entry. pose proof shift_update_plugin.
  unfold setParameterVariable. commutes_auto.
Qed.

Lemma shift_getPluginClass (task : string) : commutes (shift d) (getPluginClass task).
Proof. pose proof shift_plugin_entry. unfold getPluginClass. commutes_auto. Qed.

Lemma shift_window_call (task : string) (c : WindowCall) :
  commutes (shift d) (window_call task c).
Proof.
  destruct c; cbn [window_call];
    first [ apply shift_onPause | apply shift_onResume
          | apply shift_showCriticalMessage ].
Qed.

Lemma shift_call_hook (task : string) (tc : taskclass_ref) (functionname : string) :
  commutes (shift d) (call_hook task tc functionname).
Proof.
  pose proof shift_onEnd. pose proof shift_onPause. pose proof shift_onResume.
  pose proof shift_plugin_entry. pose proof shift_window_call.
  unfold call_hook. commutes_auto.
Qed.

Lemma shift_lifecycle_transition (task functionname : string) :
  commutes (shift d) (lifecycle_transition task functionname).
Proof.
  pose proof shift_plugin_entry. pose proof shift_update_plugin.
  unfold lifecycle_transition. commutes_auto.
Qed.

Lemma shift_execute_command (task : string) (tc : taskclass_ref)
    (command : list string) :
  commutes (shift d) (execute_command task tc command).
Proof.
  pose proof shift_lifecycle_transition. pose proof shift_call_hook.
  pose proof shift_waitEndofPause. pose proof shift_showlabels.
  pose proof shift_updateLabels. pose proof shift_setParameterVariable.
  unfold execute_command. commutes_auto.
Qed.

Lemma shift_executeScenario (time : string) : commutes (shift d) (executeScenario time).
Proof.
  pose proof shift_getPluginClass. pose proof shift_execute_command.
  unfold executeScenario. commutes_auto.
Qed.

Lemma shift_scenarioUpdateTime : commutes (shift d) scenarioUpdateTime.
Proof.
  pose proof shift_showCriticalMessage. pose proof shift_executeScenario.
  unfold scenarioUpdateTime. commutes_auto.
Qed.

Lemma shift_class_is_client (plugin : string) :
  commutes (shift d) (class_is_client plugin).
Proof. pose proof shift_plugin_entry. unfold class_is_client. commutes_auto. Qed.

Lemma shift_apply_sync (plugin_name : string) (p : PluginTask)
    (sync_data : option (Dict.t pyval)) (full_update complain : bool) :
  commutes (shift d) (apply_sync plugin_name p sync_data full_update complain).
Proof.
  pose proof shift_class_is_client. pose proof shift_showCriticalMessage.
  unfold apply_sync. commutes_auto.
Qed.

Lemma shift_update_plugin_time (plugin_name : string) (elapsed : Z)
    (sync_data : option (Dict.t pyval)) :
  commutes (shift d) (update_plugin_time plugin_name elapsed sync_data).
Proof.
  pose proof shift_plugin_entry. pose proof shift_update_plugin.
  pose proof shift_apply_sync. pose proof shift_showCriticalMessage.
  unfold update_plugin_time. commutes_auto.
Qed.

Lemma shift_log_message : commutes (shift d) log_message.
Proof. unfold log_message. commutes_auto. Qed.

Lemma shift_doNetworkCommunications (host : HostReplies) :
  commutes (shift d) (doNetworkCommunications host).
Proof.
  pose proof shift_plugin_entry. pose proof shift_class_is_client.
  pose proof shift_onEnd.
  unfold doNetworkCommunications. commutes_auto.
Qed.

Lemma shift_teardown_if_due : commutes (shift d) teardown_if_due.
Proof. pose proof shift_end_. unfold teardown_if_due. commutes_auto. Qed.

Lemma shift_advance_clock (host : HostReplies) (elapsed : Z) :
  commutes (shift d) (advance_clock host elapsed).
Proof. unfold advance_clock. commutes_auto. Qed.

Lemma shift_running_tick (host : HostReplies) (elapsed : Z)
    (sync_data : option (Dict.t pyval)) :
  commutes (shift d) (running_tick host elapsed sync_data).
Proof.
  pose proof shift_advance_clock. pose proof shift_update_plugin_time.
  pose proof shift_log_message. pose proof shift_scenarioUpdateTime.
  unfold running_tick. commutes_auto.
Qed.

(** The elapsed time that [scheduler] computes is the same, and so is
    everything it does with it. *)
Lemma shift_scheduler (host : HostReplies) : commutes (shift d) (scheduler host).
Proof.
  intro m. unfold scheduler.
  unfold bind at 1. cbn [gets]. unfold bind at 1. cbn [gets].
  unfold bind at 6. cbn [gets]. unfold bind at 6. cbn [gets].
  cbn [default_timer last_time_microsec shift retimed set_time_time
       set_default_timer set_last_time_microsec].
  replace (default_timer m - d - (last_time_microsec m - d))
    with (default_timer m - last_time_microsec m) by lia.
  destruct (default_timer m - last_time_microsec m <? MAIN_SCHEDULER_INTERVAL);
    [reflexivity|].
  unfold bind at 1. cbn [modify]. unfold bind at 5. cbn [modify].
  match goal with
  | |- ?rest _ = res_map _ (?rest' (set_last_time_microsec ?t m)) =>
      change (rest' (shift d (set_last_time_microsec t m))
              = res_map (shift d) (rest' (set_last_time_microsec t m)));
      assert (Hrest : commutes (shift d) rest')
  end.
  { pose proof shift_doNetworkCommunications. pose proof shift_teardown_if_due.
    pose proof shift_running_tick. commutes_auto. }
  apply Hrest.
Qed.

End Shifted.

(** *** Runs with and without the ticks of a pause *)

Lemma run_app (l1 l2 : list Step) (m : Main) :
  run (l1 ++ l2) m = (run l1 ;; run l2) m.
Proof.
  revert m. induction l1 as [|s l1 IH]; intro m; [reflexivity|].
  change (run ((s :: l1) ++ l2) m) with ((step s ;; run (l1 ++ l2)) m).
  change ((run (s :: l1) ;; run l2) m) with (((step s ;; run l1) ;; run l2) m).
  unfold bind in *. destruct (step s m); auto.
Qed.

Lemma observation_res_map {A} (a b c : Z -> Z) (r : Res A) :
  observation (res_map (retimed a b c) r) = observation r.
Proof. destruct r; reflexivity. Qed.

(** The ticks of a pause in a local session only read the clocks. *)
Lemma paused_ticks (during : list Step) (m : Main) :
  is_client m = false -> is_server m = false -> experiment_pause m = true ->
  forallb is_tick during = true ->
  exists a b l,
    run during m = Ok tt (retimed (fun _ => a) (fun _ => b) (fun _ => l) m).
Proof.
  revert m. induction during as [|s during IH]; intros m Hc Hs Hp Hticks.
  - exists (time_time m), (default_timer m), (last_time_microsec m).
    destruct m; reflexivity.
  - destruct s as [time_now timer_now host| | | | | | |]; try discriminate.
    cbn [forallb is_tick andb] in Hticks.
    change (run (Tick time_now timer_now host :: during) m)
      with ((scheduler host ;; run during)
              (set_default_timer timer_now (set_time_time time_now m))).
    unfold bind. rewrite idle_tick_local by (auto; left; exact Hp).
    match goal with |- context [if ?c then _ else _] => destruct c end.
    + destruct (IH (set_default_timer timer_now (set_time_time time_now m)))
        as (a & b & l & E); auto.
      rewrite E. exists a, b, l. reflexivity.
    + destruct (IH (set_last_time_microsec
                      (default_timer (set_default_timer timer_now
                                        (set_time_time time_now m)))
                      (set_default_timer timer_now (set_time_time time_now m))))
        as (a & b & l & E); auto.
      rewrite E. exists a, b, l. reflexivity.
Qed.

(** A step of a local session does the same when the last tick and the
    reading of the timer are both [d] earlier. *)
Lemma local_step_shifted (d : Z) (s : Step) (fa fb : Z -> Z) (m : Main) :
  local_step s = true ->
  exists fa' fb',
    step (timer_shift d s) (retimed fa fb (fun t => t - d) m)
    = res_map (retimed fa' fb' (fun t => t - d)) (step s m).
Proof.
  intro Hlocal.
  destruct s as [time_now timer_now host|hide_ui| | | | | |]; try discriminate.
  - exists (fun t => t), (fun t => t - d).
    change (scheduler host
              (shift d (set_default_timer timer_now (set_time_time time_now m)))
            = res_map (shift d)
                (scheduler host
                   (set_default_timer timer_now (set_time_time time_now m)))).
    apply shift_scheduler.
  - exists fa, fb. apply commutes_onPause.
  - exists fa, fb. apply commutes_onResume.
Qed.

Lemma local_run_shifted (d : Z) (steps : list Step) (fa fb : Z -> Z) (m : Main) :
  forallb local_step steps = true ->
  exists fa' fb',
    run (map (timer_shift d) steps) (retimed fa fb (fun t => t - d) m)
    = res_map (retimed fa' fb' (fun t => t - d)) (run steps m).
Proof.
  revert fa fb m. induction steps as [|s steps IH]; intros fa fb m Hlocal.
  - exists fa, fb. reflexivity.
  - cbn [forallb] in Hlocal. apply andb_prop in Hlocal. destruct Hlocal as [Hs Hrest].
    destruct (local_step_shifted d s fa fb m Hs) as (fa1 & fb1 & E).
    change (run (map (timer_shift d) (s :: steps)) (retimed fa fb (fun t => t - d) m))
      with ((step (timer_shift d s) ;; run (map (timer_shift d) steps))
              (retimed fa fb (fun t => t - d) m)).
    change (run (s :: steps) m) with ((step s ;; run steps) m).
    unfold bind. rewrite E.
    destruct (step s m) as [[] m1|m1|e m1|m1]; cbn [res_map].
    + apply IH, Hrest.
    + exists fa1, fb1. reflexivity.
    + exists fa1, fb1. reflexivity.
    + exists fa1, fb1. reflexivity.
Qed.

(** The state before the ticks of a pause is the state after them with the
    last tick earlier by the advance of the timer. *)
Lemma before_pause_ticks (a b l : Z) (m : Main) :
  m = retimed (fun _ => time_time m) (fun _ => default_timer m)
        (fun t => t - (l - last_time_microsec m))
        (retimed (fun _ => a) (fun _ => b) (fun _ => l) m).
Proof.
  destruct m. unfold retimed. cbn.
  match goal with
  | |- context [l - (l - ?x)] => replace (l - (l - x)) with x by lia
  end.
  reflexivity.
Qed.

Lemma observation_calls {A B} (r1 : Res A) (r2 : Res B) (task method : string) :
  observation r1 = observation r2 ->
  calls task method (state_of r1) = calls task method (state_of r2).
Proof.
  unfold observation, calls. intro H. injection H as _ _ _ Htrace _.
  now rewrite Htrace.
Qed.




(* ------------------------------------------------------------------ *)
(** ** Rejected lines (C10) *)

Lemma Py_int_isnumeric (s : string) :
  Py.isnumeric s = true -> Py.int s = Some (Py.digits_value 0 s).
Proof.
  destruct s as [|c r]; [discriminate|].
  destruct c as [[] [] [] [] [] [] [] []]; cbn; intro H;
    try discriminate; cbn in H; now rewrite ?H.
Qed.

Lemma ignores_dialogs_only_dialogs (m m' : Main) :
  ignores_dialogs m -> only_dialogs m m' -> ignores_dialogs m'.
Proof. intros H (shown & -> & _). exact H. Qed.

Lemma only_dialogs_refl (m : Main) : only_dialogs m m.
Proof. exists []. split; [now destruct m|reflexivity]. Qed.

Lemma only_dialogs_dialog (msg : CriticalMessage) (m m' : Main) :
  only_dialogs m m' ->
  only_dialogs m (set_trace (EvDialog msg :: trace m') m').
Proof.
  intros (shown & -> & Hd). exists (EvDialog msg :: shown).
  split; [reflexivity|]. cbn [forallb is_dialog andb]. exact Hd.
Qed.

Lemma testParameterVariable_keys_ignored (task : string) (adress : list string) :
  forall (current : pyval) (m : Main),
    ignores_dialogs m ->
    exists m', testParameterVariable_keys task current adress m
               = Ok (parameter_known current adress) m'
               /\ only_dialogs m m'.
Proof.
  induction adress as [|k rest IH]; intros current m Hop; cbn [testParameterVariable_keys parameter_known].
  - exists m. split; [reflexivity|apply only_dialogs_refl].
  - destruct current; try (unfold bind; rewrite showCriticalMessage_ignored by exact Hop;
      eexists; split; [reflexivity|apply only_dialogs_dialog, only_dialogs_refl]).
    destruct (Dict.get k d) as [v|].
    + apply IH, Hop.
    + unfold bind; rewrite showCriticalMessage_ignored by exact Hop.
      eexists; split; [reflexivity|apply only_dialogs_dialog, only_dialogs_refl].
Qed.

Lemma testParameterVariable_ignored (task : string) (tc : taskclass_ref)
    (adress : string) (m : Main) :
  ignores_dialogs m ->
  exists m', testParameterVariable task tc adress m
             = Ok (truthy (PDict (taskclass_parameters m tc))
                   && parameter_known (PDict (taskclass_parameters m tc))
                        (Py.split "-" adress)) m'
             /\ only_dialogs m m'.
Proof.
  intro Hop. unfold testParameterVariable. unfold bind at 1. cbn [gets].
  destruct (truthy (PDict (taskclass_parameters m tc))); cbn [negb andb].
  - apply testParameterVariable_keys_ignored, Hop.
  - exists m. split; [reflexivity|apply only_dialogs_refl].
Qed.

Lemma only_dialogs_trans (m m1 m2 : Main) :
  only_dialogs m m1 -> only_dialogs m1 m2 -> only_dialogs m m2.
Proof.
  intros (s1 & -> & H1) (s2 & -> & H2). exists (s2 ++ s1). split.
  - cbn [trace set_trace]. now rewrite app_assoc.
  - rewrite forallb_app, H1, H2. reflexivity.
Qed.

Lemma only_dialogs_taskclass (m m' : Main) (tc : taskclass_ref) :
  only_dialogs m m' ->
  (forall name, taskclass_hasattr m' tc name = taskclass_hasattr m tc name)
  /\ taskclass_parameters m' tc = taskclass_parameters m tc.
Proof. intros (shown & -> & _). split; reflexivity. Qed.

Lemma time_malformed_no_priority (time : string) :
  time_malformed time = true -> snd (time_and_priority time) = None.
Proof.
  unfold time_malformed, time_and_priority. cbv zeta.
  destruct (negb (String.length time =? 7)%nat); [|discriminate].
  cbn [andb].
  match goal with |- negb ?c = true -> _ => destruct c end;
    [discriminate|reflexivity].
Qed.

(** What [getCommand] does when the operator closes every message box
    without aborting. *)
Lemma getCommand_ignored (lineNumber : nat) (lineContent : string) (m : Main) :
  ignores_dialogs m ->
  exists m',
    only_dialogs m m'
    /\ getCommand lineNumber lineContent m
       = match rejection m lineContent with
         | Some _ => Ok None3 m'
         | None =>
             match snd (time_and_priority (line_time m lineContent)) with
             | Some p =>
                 Ok (Tuple4 (fst (time_and_priority (line_time m lineContent)))
                       (line_task m lineContent) (line_command m lineContent) p) m'
             | None => Raise (UnboundLocalError "priority") m'
             end
         end.
Proof.
  intro Hop.
  unfold getCommand, rejection. cbv zeta.
  destruct (negb ((1 <? List.length (Py.split ";" (Py.strip lineContent)))%nat
                  && (List.length (Py.split ";" (Py.strip lineContent)) <? 5)%nat)).
  { unfold bind. rewrite showCriticalMessage_ignored by exact Hop.
    eexists. split; [apply only_dialogs_dialog, only_dialogs_refl|reflexivity]. }
  unfold bind at 1. cbn [gets]. unfold bind at 1. cbn [gets].
  fold (line_fields m lineContent).
  change (nth 1 (line_fields m lineContent) EmptyString)
    with (line_task m lineContent).
  change (nth 0 (line_fields m lineContent) EmptyString)
    with (line_time m lineContent).
  change (if String.eqb (line_task m lineContent) "sysmon"
             && String.eqb (hd EmptyString (skipn 2 (line_fields m lineContent)))
                  "feedbackduration"
          then "feedbacks-positive-duration"%string
               :: tl (skipn 2 (line_fields m lineContent))
          else skipn 2 (line_fields m lineContent))
    with (line_command m lineContent).
  change (if String.eqb (line_task m lineContent) "__main__" then Some SelfClass
          else if Dict.mem (line_task m lineContent) (PLUGINS_TASK m)
               then Some (PluginClass (line_task m lineContent)) else None)
    with (line_taskclass m lineContent).
  generalize (line_command m lineContent) (line_task m lineContent)
    (line_time m lineContent).
  intros command task time.
  destruct (line_taskclass m lineContent) as [taskclass|].
  2: { unfold bind. rewrite showCriticalMessage_ignored by exact Hop.
       eexists. split; [apply only_dialogs_dialog, only_dialogs_refl|reflexivity]. }
  match goal with
  | |- exists m', _ /\ bind ?c _ m = _ =>
      assert (Htp : exists m1, only_dialogs m m1
                               /\ c m = Ok (time_and_priority time) m1)
  end.
  { unfold time_and_priority. cbv zeta.
    destruct (negb (String.length time =? 7)%nat).
    - match goal with |- context [if ?c then _ else _] => destruct c eqn:Hc end.
      + apply andb_prop in Hc. destruct Hc as [_ Hnum].
        rewrite (Py_int_isnumeric _ Hnum).
        exists m. split; [apply only_dialogs_refl|reflexivity].
      + unfold bind. rewrite showCriticalMessage_ignored by exact Hop.
        eexists. split; [apply only_dialogs_dialog, only_dialogs_refl|reflexivity].
    - exists m. split; [apply only_dialogs_refl|reflexivity]. }
  destruct Htp as (m1 & Hd1 & E1).
  unfold bind at 1. rewrite E1.
  generalize (time_and_priority time). intros [time' priority]. cbn [fst snd].
  pose proof (ignores_dialogs_only_dialogs m m1 Hop Hd1) as Hop1.
  destruct (only_dialogs_taskclass m m1 taskclass Hd1) as [Hattr Hpar].
  destruct (List.length command =? 1)%nat.
  - unfold bind at 1. cbn [gets]. rewrite Hattr.
    match goal with |- context [if ?c then _ else _] => destruct c end.
    + unfold bind. rewrite showCriticalMessage_ignored by exact Hop1.
      eexists. split; [apply only_dialogs_dialog, Hd1|reflexivity].
    + exists m1. split; [exact Hd1|]. now destruct priority.
  - unfold taskclass_has_parameters. cbn [negb].
    destruct (testParameterVariable_ignored task taskclass (hd EmptyString command)
                m1 Hop1) as (m2 & E2 & Hd2).
    unfold bind at 1. rewrite E2, Hpar.
    pose proof (only_dialogs_trans m m1 m2 Hd1 Hd2) as Hd.
    match goal with |- context [if negb ?c then _ else _] => destruct c end;
      cbn [negb].
    + exists m2. split; [exact Hd|]. now destruct priority.
    + unfold bind.
      rewrite showCriticalMessage_ignored
        by exact (ignores_dialogs_only_dialogs m m2 Hop Hd).
      eexists. split; [apply only_dialogs_dialog, Hd|reflexivity].
Qed.

Lemma loadScenario_lines_app (pre rest : list string) :
  forall (lineNumber : nat) (sc : Scenario) (m : Main),
    loadScenario_lines lineNumber (pre ++ rest) sc m
    = (sc' <- loadScenario_lines lineNumber pre sc ;;
       loadScenario_lines (lineNumber + List.length pre) rest sc')%py m.
Proof.
  induction pre as [|l pre IH]; intros lineNumber sc m.
  - cbn [app loadScenario_lines List.length]. rewrite Nat.add_0_r. reflexivity.
  - cbn [app loadScenario_lines List.length]. unfold bind at 1 2 3.
    destruct (loadScenario_line lineNumber l sc m) as [sc1 m1|m1|e m1|m1];
      try reflexivity.
    rewrite IH. rewrite Nat.add_succ_r. reflexivity.
Qed.

Lemma loadScenario_line_rejected (lineNumber : nat) (scenario_line : string)
    (sc : Scenario) (m m' : Main) :
  considered scenario_line = true ->
  getCommand lineNumber (Py.strip scenario_line) m = Ok None3 m' ->
  loadScenario_line lineNumber scenario_line sc m = Raise ValueError m'.
Proof.
  intros Hcons E. unfold loadScenario_line. cbv zeta.
  unfold considered in Hcons. rewrite Hcons.
  unfold bind at 1. rewrite E. reflexivity.
Qed.



(* ------------------------------------------------------------------ *)
(** ** The dispatcher and the time keys (C6) *)

(** *** A time key names one second *)

Lemma append_nil_r (s : string) : (s ++ EmptyString)%string = s.
Proof. induction s as [|c s IH]; cbn; [reflexivity|now rewrite IH]. Qed.

Lemma append_assoc (a b c : string) :
  ((a ++ b) ++ c)%string = (a ++ (b ++ c))%string.
Proof. induction a as [|x a IH]; cbn; [reflexivity|now rewrite IH]. Qed.

Lemma length_append (a b : string) :
  String.length (a ++ b) = (String.length a + String.length b)%nat.
Proof. induction a as [|x a IH]; cbn; [reflexivity|now rewrite IH]. Qed.

Lemma append_inj (a a' b b' : string) :
  String.length a = String.length a' ->
  (a ++ b)%string = (a' ++ b')%string -> a = a' /\ b = b'.
Proof.
  revert a'. induction a as [|x a IH]; intros [|x' a'] Hlen E;
    try discriminate.
  - split; [reflexivity|exact E].
  - cbn in Hlen, E. injection E as -> E. injection Hlen as Hlen.
    destruct (IH a' Hlen E) as [-> ->]. split; reflexivity.
Qed.

Lemma digits_value_append (a b : string) :
  forall x, Py.digits_value x (a ++ b) = Py.digits_value (Py.digits_value x a) b.
Proof. induction a as [|c a IH]; intro x; cbn; [reflexivity|apply IH]. Qed.

Lemma digit_char_value (d : Z) :
  0 <= d < 10 -> Z.of_nat (nat_of_ascii (Py.digit_char d)) - 48 = d.
Proof.
  intro Hd. unfold Py.digit_char. rewrite nat_ascii_embedding by lia. lia.
Qed.

Lemma nat_digits_value (fuel : nat) :
  forall (n : Z) (acc : string),
    0 <= n < Z.of_nat fuel ->
    exists d, Py.nat_digits fuel n acc = (d ++ acc)%string
              /\ forall x, Py.digits_value x d
                           = x * 10 ^ Z.of_nat (String.length d) + n.
Proof.
  induction fuel as [|fuel IH]; intros n acc Hn; [lia|].
  cbn [Py.nat_digits].
  pose proof (Z.div_mod n 10 ltac:(lia)) as Hdm.
  pose proof (Z.mod_pos_bound n 10 ltac:(lia)) as Hmod.
  destruct (n / 10 =? 0) eqn:Hq.
  - apply Z.eqb_eq in Hq.
    exists (String (Py.digit_char (n mod 10)) EmptyString). split; [reflexivity|].
    intro x. cbn [Py.digits_value String.length].
    rewrite digit_char_value by lia. change (10 ^ Z.of_nat 1) with 10. lia.
  - apply Z.eqb_neq in Hq.
    destruct (IH (n / 10) (String (Py.digit_char (n mod 10)) acc)) as (d & E & Hv).
    { split; [apply Z.div_pos; lia|]. apply Z.div_lt_upper_bound; lia. }
    exists (d ++ String (Py.digit_char (n mod 10)) EmptyString)%string. split.
    + rewrite E, append_assoc. reflexivity.
    + intro x. rewrite digits_value_append, Hv. cbn [Py.digits_value].
      rewrite digit_char_value by lia.
      rewrite length_append. cbn [String.length]. rewrite Nat.add_1_r.
      rewrite Nat2Z.inj_succ, Z.pow_succ_r by lia. lia.
Qed.

Lemma fmt_d_value (n : Z) : 0 <= n -> Py.digits_value 0 (Py.fmt_d n) = n.
Proof.
  intro Hn. unfold Py.fmt_d.
  destruct (n <? 0) eqn:Hneg; [apply Z.ltb_lt in Hneg; lia|].
  destruct (nat_digits_value (S (Z.to_nat n)) n EmptyString) as (d & E & Hv);
    [lia|].
  rewrite E, append_nil_r, Hv. lia.
Qed.

Lemma fmt_02d_value (n : Z) : 0 <= n -> Py.digits_value 0 (Py.fmt_02d n) = n.
Proof.
  intro Hn. unfold Py.fmt_02d. cbv zeta.
  destruct (String.length (Py.fmt_d n) <? 2)%nat; [|now apply fmt_d_value].
  cbn [Py.digits_value]. change (10 * 0 + (Z.of_nat (nat_of_ascii "0") - 48)) with 0.
  now apply fmt_d_value.
Qed.

Lemma fmt_02d_length (n : Z) : 0 <= n < 60 -> String.length (Py.fmt_02d n) = 2%nat.
Proof.
  intro Hn.
  assert (Hall : forallb (fun k => (String.length (Py.fmt_02d (Z.of_nat k)) =? 2)%nat)
                   (seq 0 60) = true) by (vm_compute; reflexivity).
  rewrite forallb_forall in Hall.
  specialize (Hall (Z.to_nat n)). rewrite Z2Nat.id in Hall by lia.
  apply Nat.eqb_eq, Hall, in_seq. lia.
Qed.

Lemma time_key_second (t1 t2 : Z) :
  t1 / 1000 = t2 / 1000 -> time_key t1 = time_key t2.
Proof. intro E. unfold time_key. now rewrite E. Qed.

Lemma time_key_inj (t1 t2 : Z) :
  0 <= t1 -> 0 <= t2 -> time_key t1 = time_key t2 -> t1 / 1000 = t2 / 1000.
Proof.
  intros H1 H2. unfold time_key. cbv zeta.
  assert (Hs1 : 0 <= t1 / 1000) by (apply Z.div_pos; lia).
  assert (Hs2 : 0 <= t2 / 1000) by (apply Z.div_pos; lia).
  generalize dependent (t1 / 1000). generalize dependent (t2 / 1000).
  clear t1 t2 H1 H2. intros b Hb a Ha E.
  pose proof (Z.mod_pos_bound a 60 ltac:(lia)) as Hsa.
  pose proof (Z.mod_pos_bound b 60 ltac:(lia)) as Hsb.
  pose proof (Z.mod_pos_bound (a / 60) 60 ltac:(lia)) as Hma.
  pose proof (Z.mod_pos_bound (b / 60) 60 ltac:(lia)) as Hmb.
  assert (Hha : 0 <= a / 60 / 60) by (apply Z.div_pos; [apply Z.div_pos|]; lia).
  assert (Hhb : 0 <= b / 60 / 60) by (apply Z.div_pos; [apply Z.div_pos|]; lia).
  pose proof (f_equal String.length E) as Hlen.
  rewrite !length_append in Hlen. cbn [String.length] in Hlen.
  rewrite !fmt_02d_length in Hlen by assumption.
  apply append_inj in E; [|lia]. destruct E as [Eh E].
  cbn [append] in E. injection E as E.
  apply append_inj in E; [|now rewrite !fmt_02d_length]. destruct E as [Em E].
  cbn [append] in E. injection E as Es.
  apply (f_equal (Py.digits_value 0)) in Eh, Em, Es.
  rewrite !fmt_d_value in Eh by assumption.
  rewrite !fmt_02d_value in Em, Es by lia.
  pose proof (Z.div_mod a 60 ltac:(lia)).
  pose proof (Z.div_mod b 60 ltac:(lia)).
  pose proof (Z.div_mod (a / 60) 60 ltac:(lia)).
  pose proof (Z.div_mod (b / 60) 60 ltac:(lia)).
  lia.
Qed.

(** *** What a step does to the clock and to the recorded key *)

Lemma clock_view_end_ : stable (same clock_view) end_.
Proof. stable_end_same. Qed.

Lemma clock_view_onEnd : stable (same clock_view) onEnd.
Proof. stable_end_same. Qed.

Lemma clock_view_frame : frame (same clock_view).
Proof.
  constructor; try (intros x m; reflexivity).
  - apply same_refl.
  - apply same_trans.
  - intros e He m. reflexivity.
  - apply clock_view_onEnd.
Qed.

Lemma clock_view_doNetworkCommunications (host : HostReplies) :
  stable (same clock_view) (doNetworkCommunications host).
Proof.
  stable_same. pose proof clock_view_onEnd.
  unfold doNetworkCommunications, plugin_hasattr. stable_auto.
  all: apply stable_class_is_client; apply clock_view_frame.
Qed.

Lemma clock_view_teardown_if_due : stable (same clock_view) teardown_if_due.
Proof.
  stable_same. pose proof clock_view_end_. unfold teardown_if_due. stable_auto.
Qed.

Lemma clock_view_updates (elapsed : Z) (sync_data : option (Dict.t pyval)) :
  stable (same clock_view)
    (plugins <- gets (fun m => Dict.keys (PLUGINS_TASK m)) ;;
     for_ plugins (fun plugin_name =>
       update_plugin_time plugin_name elapsed sync_data) ;;
     log_message)%py.
Proof.
  stable_same. pose proof clock_view_frame as HF. stable_auto.
  - now apply stable_update_plugin_time.
  - now apply stable_log_message.
Qed.

Lemma clock_view_other_steps (s : Step) :
  (forall time_now timer_now host, s <> Tick time_now timer_now host) ->
  stable (same clock_view) (step s).
Proof.
  intros Hs. stable_same. pose proof clock_view_frame as HF.
  pose proof clock_view_onEnd.
  destruct s; cbn [step];
    unfold ignore, remote_confirm_connected, remote_get_time.
  - exfalso. eapply Hs. reflexivity.
  - now apply stable_onPause.
  - now apply stable_onResume.
  - assumption.
  - stable_auto.
  - stable_auto.
  - stable_auto.
    apply stable_remote_get_sync_data; [exact HF | |]; intros x m; reflexivity.
  - apply stable_remote_pass_new_input; [exact HF|]. intros x m; reflexivity.
Qed.

Lemma option_str_eqb_false (s : string) (o : option string) :
  option_str_eqb s o = false -> Some s <> o.
Proof.
  intros H <-. cbn in H. now rewrite String.eqb_refl in H.
Qed.

Lemma option_str_eqb_true (s : string) (o : option string) :
  option_str_eqb s o = true -> o = Some s.
Proof.
  destruct o as [k|]; cbn; [|discriminate].
  intro H. apply String.eqb_eq in H. now subst.
Qed.

(** The gate of the dispatcher. *)
Lemma scenarioUpdateTime_gate (m : Main) :
  totalElapsedTime_ms m / 1000 / 60 / 60 <= 9 ->
  scenarioUpdateTime m
  = if option_str_eqb (time_key (totalElapsedTime_ms m)) (scenarioTimeStr m)
    then Ok tt m
    else executeScenario (time_key (totalElapsedTime_ms m))
           (set_scenarioTimeStr (Some (time_key (totalElapsedTime_ms m))) m).
Proof.
  intro Hh. unfold scenarioUpdateTime.
  unfold bind at 1. cbn [gets]. unfold bind at 1.
  assert ((9 <? totalElapsedTime_ms m / 1000 / 60 / 60) = false) as ->
    by (apply Z.ltb_ge; exact Hh).
  cbn [when ret]. unfold bind at 1. cbn [gets].
  destruct (option_str_eqb (time_key (totalElapsedTime_ms m)) (scenarioTimeStr m));
    reflexivity.
Qed.

(** [scenarioUpdateTime] keeps the clock, and either keeps the recorded
    key or records the key of the clock, which was not recorded. *)
Lemma scenarioUpdateTime_key (m : Main) :
  let m' := state_of (scenarioUpdateTime m) in
  totalElapsedTime_ms m' = totalElapsedTime_ms m
  /\ is_client m' = is_client m
  /\ (scenarioTimeStr m' = scenarioTimeStr m
      \/ (scenarioTimeStr m' = Some (time_key (totalElapsedTime_ms m))
          /\ scenarioTimeStr m' <> scenarioTimeStr m)).
Proof.
  cbv zeta. unfold scenarioUpdateTime.
  rewrite state_of_bind. cbn [gets]. rewrite state_of_bind.
  match goal with
  | |- context [when ?b ?c m] =>
      assert (Hw : stable (same clock_view) (when b c))
  end.
  { stable_same. pose proof clock_view_frame as HF. stable_auto.
    now apply stable_showCriticalMessage. }
  specialize (Hw m). unfold same, clock_view in Hw.
  match type of Hw with
  | context [when ?b ?c m] => destruct (when b c m) as [[] m1|m1|e m1|m1]
  end; cbn [state_of] in *; injection Hw as Ht Hk Hc _;
    try (rewrite Ht, Hk, Hc; auto).
  rewrite state_of_bind. cbn [gets].
  rewrite Hk.
  destruct (option_str_eqb (time_key (totalElapsedTime_ms m)) (scenarioTimeStr m))
    eqn:Hgate; cbn [negb when ret state_of].
  - rewrite Ht, Hk, Hc. auto.
  - rewrite state_of_bind. cbn [modify].
    pose proof (stable_executeScenario _ clock_view_frame
                  (time_key (totalElapsedTime_ms m))
                  (set_scenarioTimeStr (Some (time_key (totalElapsedTime_ms m))) m1))
      as Hx.
    unfold same, clock_view in Hx. injection Hx as Ht' Hk' Hc' _.
    cbn [totalElapsedTime_ms scenarioTimeStr is_client set_scenarioTimeStr] in *.
    rewrite Ht', Hk', Hc'. split; [exact Ht|]. split; [exact Hc|].
    right. split; [reflexivity|]. now apply option_str_eqb_false.
Qed.

Lemma clock_view_update_loop (plugins : list string) (elapsed : Z)
    (sync_data : option (Dict.t pyval)) :
  stable (same clock_view)
    (for_ plugins (fun plugin_name =>
       update_plugin_time plugin_name elapsed sync_data)).
Proof.
  stable_same. pose proof clock_view_frame as HF. stable_auto.
  now apply stable_update_plugin_time.
Qed.

Lemma clock_view_log_message : stable (same clock_view) log_message.
Proof. apply stable_log_message, clock_view_frame. Qed.

(** After the clock has advanced: the updates of the plugins, the log and
    the dispatcher. *)
Lemma after_clock_key (elapsed : Z) (sync_data : option (Dict.t pyval)) (m : Main) :
  let m' := state_of
              ((plugins <- gets (fun m => Dict.keys (PLUGINS_TASK m)) ;;
                for_ plugins (fun plugin_name =>
                  update_plugin_time plugin_name elapsed sync_data) ;;
                log_message ;;
                scenarioUpdateTime)%py m) in
  totalElapsedTime_ms m' = totalElapsedTime_ms m
  /\ is_client m' = is_client m
  /\ (scenarioTimeStr m' = scenarioTimeStr m
      \/ (scenarioTimeStr m' = Some (time_key (totalElapsedTime_ms m))
          /\ scenarioTimeStr m' <> scenarioTimeStr m)).
Proof.
  cbv zeta. rewrite state_of_bind. cbn [gets]. rewrite state_of_bind.
  pose proof (clock_view_update_loop (Dict.keys (PLUGINS_TASK m)) elapsed sync_data m)
    as H1.
  unfold same, clock_view in H1.
  destruct (for_ _ _ m) as [[] m1|m1|e m1|m1]; cbn [state_of] in *;
    injection H1 as Ht Hk Hc _; try (rewrite Ht, Hk, Hc; auto).
  rewrite state_of_bind.
  pose proof (clock_view_log_message m1) as H2. unfold same, clock_view in H2.
  destruct (log_message m1) as [[] m2|m2|e m2|m2]; cbn [state_of] in *;
    injection H2 as Ht2 Hk2 Hc2 _; try (rewrite Ht2, Hk2, Hc2, Ht, Hk, Hc; auto).
  pose proof (scenarioUpdateTime_key m2) as H3. cbv zeta in H3.
  rewrite Ht2, Hk2, Hc2, Ht, Hk, Hc in H3. exact H3.
Qed.

(** One tick: the role stays; either the clock and the recorded key stay,
    or the clock advances (to the reply of the Host on a Participant) and
    the recorded key stays or becomes the key of the clock, which was not
    recorded. *)
Lemma tick_clock_key (m : Main) (host : HostReplies) :
  let m' := state_of (scheduler host m) in
  is_client m' = is_client m
  /\ ((totalElapsedTime_ms m' = totalElapsedTime_ms m
       /\ scenarioTimeStr m' = scenarioTimeStr m)
      \/ ((if is_client m then totalElapsedTime_ms m' = reply_time host
           else totalElapsedTime_ms m < totalElapsedTime_ms m')
          /\ (scenarioTimeStr m' = scenarioTimeStr m
              \/ (scenarioTimeStr m' = Some (time_key (totalElapsedTime_ms m'))
                  /\ scenarioTimeStr m' <> scenarioTimeStr m)))).
Proof.
  cbv zeta. unfold scheduler.
  rewrite state_of_bind. cbn [gets]. rewrite state_of_bind. cbn [gets].
  destruct (default_timer m - last_time_microsec m <? MAIN_SCHEDULER_INTERVAL)
    eqn:Hel; [cbn [ret state_of]; auto|].
  apply Z.ltb_ge in Hel. unfold MAIN_SCHEDULER_INTERVAL in Hel.
  rewrite state_of_bind. cbn [modify].
  set (el := default_timer m - last_time_microsec m) in *.
  set (m1 := set_last_time_microsec (default_timer m) m).
  assert (Hv1 : clock_view m1 = clock_view m) by reflexivity.
  rewrite state_of_bind.
  pose proof (clock_view_doNetworkCommunications host m1) as Hnet.
  unfold same in Hnet. rewrite Hv1 in Hnet.
  destruct (doNetworkCommunications host m1) as [sync_data m2|m2|e m2|m2];
    cbn [state_of] in Hnet;
    try solve [unfold clock_view in Hnet; injection Hnet as Ht Hk Hc _; auto].
  rewrite state_of_bind.
  pose proof (clock_view_teardown_if_due m2) as Htd.
  unfold same in Htd. rewrite Hnet in Htd.
  destruct (teardown_if_due m2) as [[] m3|m3|e m3|m3];
    cbn [state_of] in Htd;
    try solve [unfold clock_view in Htd; injection Htd as Ht Hk Hc _; auto].
  rewrite state_of_bind. cbn [gets]. rewrite state_of_bind. cbn [gets].
  unfold clock_view in Htd. injection Htd as Ht Hk Hc _.
  destruct (experiment_pause m3 || negb (experiment_running m3));
    [cbn [ret state_of]; auto|].
  destruct (is_client m) eqn:Hclient.
  - set (m4 := set_time (reply_time host)
                 (set_trace (EvCallRemote "get_time" PNone :: trace m3) m3)).
    assert (E : state_of (running_tick host el sync_data m3)
                = state_of
                    ((plugins <- gets (fun m => Dict.keys (PLUGINS_TASK m)) ;;
                      for_ plugins (fun plugin_name =>
                        update_plugin_time plugin_name
                          (reply_time host - totalElapsedTime_ms m3) sync_data) ;;
                      log_message ;;
                      scenarioUpdateTime)%py m4)).
    { unfold running_tick. rewrite state_of_bind.
      unfold advance_clock. unfold bind at 1. cbn [gets]. rewrite Hc.
      cbn [negb]. unfold bind at 1. cbn [gets]. unfold bind at 1. cbn [emit modify].
      unfold bind at 1. cbn [modify]. unfold bind at 1. cbn [gets ret].
      reflexivity. }
    rewrite E.
    destruct (after_clock_key (reply_time host - totalElapsedTime_ms m3)
                sync_data m4) as (Ht' & Hc' & Hk').
    rewrite Ht', Hc'. subst m4.
    cbn [totalElapsedTime_ms is_client scenarioTimeStr set_time set_trace] in *.
    split; [exact Hc|]. right. split; [reflexivity|].
    rewrite <- Hk. exact Hk'.
  - set (m4 := set_time (totalElapsedTime_ms m3 + el) m3).
    assert (E : state_of (running_tick host el sync_data m3)
                = state_of
                    ((plugins <- gets (fun m => Dict.keys (PLUGINS_TASK m)) ;;
                      for_ plugins (fun plugin_name =>
                        update_plugin_time plugin_name el sync_data) ;;
                      log_message ;;
                      scenarioUpdateTime)%py m4)).
    { unfold running_tick. rewrite state_of_bind.
      unfold advance_clock. unfold bind at 1. cbn [gets]. rewrite Hc.
      cbn [negb]. unfold bind at 1. cbn [gets]. unfold bind at 1. cbn [modify ret].
      reflexivity. }
    rewrite E.
    destruct (after_clock_key el sync_data m4) as (Ht' & Hc' & Hk').
    rewrite Ht', Hc'. subst m4.
    cbn [totalElapsedTime_ms is_client scenarioTimeStr set_time] in *.
    split; [exact Hc|]. right. split; [lia|].
    rewrite <- Hk. exact Hk'.
Qed.

(** *** The keys of a run *)

Lemma dispatched_same (m m' : Main) :
  scenarioTimeStr m' = scenarioTimeStr m -> dispatched m m' = [].
Proof.
  intro E. unfold dispatched. rewrite E.
  destruct (scenarioTimeStr m) as [k|]; [|reflexivity].
  cbn. now rewrite String.eqb_refl.
Qed.

Lemma dispatched_new (m m' : Main) (k : string) :
  scenarioTimeStr m' = Some k -> scenarioTimeStr m' <> scenarioTimeStr m ->
  dispatched m m' = [k].
Proof.
  intros E Hne. unfold dispatched. rewrite E.
  destruct (option_str_eqb k (scenarioTimeStr m)) eqn:Hk; [|reflexivity].
  apply option_str_eqb_true in Hk. congruence.
Qed.

Lemma host_clock_advances_le (steps : list Step) :
  forall t t', t' <= t ->
    host_clock_advances t steps = true -> host_clock_advances t' steps = true.
Proof.
  induction steps as [|s steps IH]; intros t t' Hle H; [reflexivity|].
  destruct s; cbn [host_clock_advances] in *; try (eapply IH; eassumption).
  apply andb_prop in H. destruct H as [H1 H2]. apply Z.leb_le in H1.
  rewrite H2, andb_true_r. apply Z.leb_le. lia.
Qed.

(** Any step: the role stays, the clock does not run backwards, and the
    recorded key stays or becomes the key of the clock. *)
Lemma step_clock_key (s : Step) (steps : list Step) (m : Main) :
  (is_client m = true ->
   host_clock_advances (totalElapsedTime_ms m) (s :: steps) = true) ->
  let m' := state_of (step s m) in
  totalElapsedTime_ms m <= totalElapsedTime_ms m'
  /\ (is_client m' = true ->
      host_clock_advances (totalElapsedTime_ms m') steps = true)
  /\ (scenarioTimeStr m' = scenarioTimeStr m
      \/ (scenarioTimeStr m' = Some (time_key (totalElapsedTime_ms m'))
          /\ scenarioTimeStr m' <> scenarioTimeStr m)).
Proof.
  intros Hhost. cbv zeta.
  destruct s as [time_now timer_now host| | | | | | |].
  1: { change (step (Tick time_now timer_now host) m)
         with (scheduler host (set_default_timer timer_now (set_time_time time_now m))).
       pose proof (tick_clock_key
                     (set_default_timer timer_now (set_time_time time_now m)) host)
         as Htick.
       cbv zeta in Htick.
       cbn [is_client totalElapsedTime_ms scenarioTimeStr set_default_timer
            set_time_time] in Htick.
       destruct Htick as (Hc & [[Ht Hk]|[Ht Hk]]).
       - rewrite Ht, Hc. split; [lia|]. split; [|now left].
         intro Hcl. specialize (Hhost Hcl). cbn [host_clock_advances] in Hhost.
         apply andb_prop in Hhost. destruct Hhost as [H1 H2].
         apply Z.leb_le in H1. eapply host_clock_advances_le; eassumption.
       - rewrite Hc. destruct (is_client m) eqn:Hcl.
         + specialize (Hhost eq_refl). cbn [host_clock_advances] in Hhost.
           apply andb_prop in Hhost. destruct Hhost as [H1 H2].
           apply Z.leb_le in H1. rewrite Ht.
           split; [exact H1|]. split; [intros _; exact H2|].
           rewrite <- Ht. exact Hk.
         + split; [lia|]. split; [discriminate|exact Hk]. }
  all: match goal with
       | |- context [step ?s ?m0] =>
           pose proof (clock_view_other_steps s ltac:(discriminate) m0) as Hv
       end;
       unfold same, clock_view in Hv;
       pose proof (f_equal (fun v => fst (fst (fst v))) Hv) as Ht;
       pose proof (f_equal (fun v => snd (fst (fst v))) Hv) as Hk;
       pose proof (f_equal (fun v => snd (fst v)) Hv) as Hc;
       cbn [fst snd] in Ht, Hk, Hc; rewrite Ht, Hk, Hc; split; [lia|]; split; [|now left];
       intro Hcl; exact (Hhost Hcl).
Qed.

Lemma recorded_behind_step (m m' : Main) :
  recorded_behind m ->
  totalElapsedTime_ms m <= totalElapsedTime_ms m' ->
  (scenarioTimeStr m' = scenarioTimeStr m
   \/ (scenarioTimeStr m' = Some (time_key (totalElapsedTime_ms m'))
       /\ scenarioTimeStr m' <> scenarioTimeStr m)) ->
  recorded_behind m'.
Proof.
  intros [H0 Hrec] Hle Hk. split; [lia|]. intros k Ek.
  destruct Hk as [Hk|[Hk _]].
  - rewrite Hk in Ek. destruct (Hrec k Ek) as (t0 & Ht0 & ->).
    exists t0. split; [lia|reflexivity].
  - rewrite Hk in Ek. injection Ek as <-.
    exists (totalElapsedTime_ms m'). split; [lia|reflexivity].
Qed.

Lemma later_step (m m' : Main) (k : string) :
  recorded_behind m ->
  totalElapsedTime_ms m <= totalElapsedTime_ms m' ->
  (scenarioTimeStr m' = scenarioTimeStr m
   \/ (scenarioTimeStr m' = Some (time_key (totalElapsedTime_ms m'))
       /\ scenarioTimeStr m' <> scenarioTimeStr m)) ->
  later m' k -> later m k.
Proof.
  intros [H0 Hrec] Hle Hk (t & -> & Ht & Hlater).
  exists t. split; [reflexivity|]. split; [lia|].
  intros t0 Ht0 E0. destruct Hk as [Hk|[Hk _]].
  - apply Hlater; [lia|]. now rewrite Hk.
  - specialize (Hlater (totalElapsedTime_ms m') ltac:(lia) Hk).
    assert (t0 / 1000 <= totalElapsedTime_ms m' / 1000)
      by (apply Z.div_le_mono; lia).
    lia.
Qed.

Lemma later_new (m m' : Main) :
  recorded_behind m ->
  totalElapsedTime_ms m <= totalElapsedTime_ms m' ->
  scenarioTimeStr m' = Some (time_key (totalElapsedTime_ms m')) ->
  scenarioTimeStr m' <> scenarioTimeStr m ->
  later m (time_key (totalElapsedTime_ms m')).
Proof.
  intros [H0 Hrec] Hle Hk Hne.
  exists (totalElapsedTime_ms m'). split; [reflexivity|]. split; [exact Hle|].
  intros t0 Ht0 E0.
  assert (Hdiv : t0 / 1000 <= totalElapsedTime_ms m' / 1000)
    by (apply Z.div_le_mono; lia).
  destruct (Z.eq_dec (t0 / 1000) (totalElapsedTime_ms m' / 1000)) as [E|]; [|lia].
  exfalso. apply Hne. rewrite Hk, E0. f_equal. symmetry.
  now apply time_key_second.
Qed.

Lemma not_later_recorded (m : Main) :
  recorded_behind m ->
  scenarioTimeStr m = Some (time_key (totalElapsedTime_ms m)) ->
  ~ later m (time_key (totalElapsedTime_ms m)).
Proof.
  intros [H0 _] Hk (t & E & Ht & Hlater).
  specialize (Hlater (totalElapsedTime_ms m) ltac:(lia) Hk).
  apply time_key_inj in E; lia.
Qed.

(** The keys of a run are all different: each is the key of a later
    second than the ones before. *)
Lemma dispatches_later (steps : list Step) :
  forall m : Main,
    recorded_behind m ->
    (is_client m = true ->
     host_clock_advances (totalElapsedTime_ms m) steps = true) ->
    NoDup (dispatches steps m) /\ Forall (later m) (dispatches steps m).
Proof.
  induction steps as [|s steps IH]; intros m Hrec Hhost.
  - split; constructor.
  - cbn [dispatches].
    destruct (step_clock_key s steps m Hhost) as (Hle & Hhost' & Hk).
    pose proof (recorded_behind_step m _ Hrec Hle Hk) as Hrec'.
    assert (Hrest : NoDup (match step s m with
                           | Ok _ m' => dispatches steps m'
                           | _ => []
                           end)
                    /\ Forall (later (state_of (step s m)))
                         (match step s m with
                          | Ok _ m' => dispatches steps m'
                          | _ => []
                          end)).
    { destruct (step s m) as [[] m1|m1|e m1|m1]; cbn [state_of] in *;
        try (split; constructor).
      apply IH; assumption. }
    destruct Hrest as [Hnd Hall].
    assert (Hall' : Forall (later m)
                      (match step s m with
                       | Ok _ m' => dispatches steps m'
                       | _ => []
                       end)).
    { eapply Forall_impl; [|exact Hall]. intros k. now apply later_step. }
    destruct Hk as [Hsame|[Hnew Hne]].
    + rewrite (dispatched_same _ _ Hsame). cbn [app]. split; assumption.
    + rewrite (dispatched_new _ _ _ Hnew Hne). cbn [app]. split.
      * constructor; [|exact Hnd]. intro Hin.
        rewrite Forall_forall in Hall.
        exact (not_later_recorded _ Hrec' Hnew (Hall _ Hin)).
      * constructor; [|exact Hall']. now apply later_new.
Qed.

(** *** After the end *)

Lemma stays_ended_step (s : Step) : stable stays_ended (step s).
Proof.
  apply stable_step; try (intros x m H; exact H).
  - apply stays_ended_frame.
  - apply stays_ended_end_.
  - intros f a m H. exact H.
Qed.

Lemma onEnd_stops (m : Main) : experiment_running (state_of (onEnd m)) = false.
Proof.
  unfold onEnd. rewrite state_of_bind. cbn [modify].
  rewrite state_of_bind. cbn [gets is_server set_experiment_running].
  destruct (is_server m); cbn [negb].
  - reflexivity.
  - apply (stays_ended_end_ (set_experiment_running false m)).
    reflexivity.
Qed.

Lemma ended_step_key (s : Step) (m : Main) :
  experiment_running m = false ->
  scenarioTimeStr (state_of (step s m)) = scenarioTimeStr m.
Proof.
  intro Hended.
  destruct s as [time_now timer_now host| | | | | | |].
  1: { change (step (Tick time_now timer_now host) m)
         with (scheduler host (set_default_timer timer_now (set_time_time time_now m))).
       pose proof (idle_tick (set_default_timer timer_now (set_time_time time_now m))
                     host (or_intror Hended)) as Hv.
       unfold paused_view in Hv.
       exact (f_equal snd Hv). }
  all: match goal with
       | |- context [step ?s ?m0] =>
           pose proof (clock_view_other_steps s ltac:(discriminate) m0) as Hv
       end;
       unfold same, clock_view in Hv;
       exact (f_equal (fun v => snd (fst (fst v))) Hv).
Qed.

Lemma ended_no_dispatch (steps : list Step) :
  forall m : Main, experiment_running m = false -> dispatches steps m = [].
Proof.
  induction steps as [|s steps IH]; intros m Hended; [reflexivity|].
  cbn [dispatches].
  rewrite (dispatched_same _ _ (ended_step_key s m Hended)). cbn [app].
  pose proof (stays_ended_step s m Hended) as Hstay.
  destruct (step s m) as [[] m1|m1|e m1|m1]; try reflexivity.
  apply IH. exact Hstay.
Qed.




(* ------------------------------------------------------------------ *)
(** ** The end of a scenario (C8) *)

(** C8.  [validateScenario] looks at the first command of the task of
    the last instant, [lastcmd[0][0]], and not at the last one, nor at
    their number: a scenario whose [end] is followed, at the same
    instant, by another command of the main script compiles without a
    message, and so does one whose last line only assigns the text [end]
    to a parameter of the main script. *)
Theorem C8_command_after_end_compiles :
  loadScenario ["0:00:00;track;start"; "0:00:15;end"; "0:00:15;pause"]%string
    local_Main
  = Ok [("0:00:00", [("track", [(["start"], 0)])]);
        ("0:00:15", [("__main__", [(["end"], 0); (["pause"], 0)])])]%string
       (set_loadedTasks ["track"; "__main__"]%string local_Main)
  /\ loadScenario ["0:00:00;track;start"; "0:00:15;messagetolog;end"]%string
       local_Main
     = Ok [("0:00:00", [("track", [(["start"], 0)])]);
           ("0:00:15", [("__main__", [(["messagetolog"; "end"], 0)])])]%string
          (set_loadedTasks ["track"; "__main__"]%string local_Main).
Proof. split; vm_compute; reflexivity. Qed.

(** Scenarios that [validateScenario] does refuse: a task without
    [start], two tasks at the last instant, a last instant that begins
    with another command than [end], and no task but the main script. *)
Lemma loadScenario_exits_examples :
  ending (loadScenario ["0:00:00;track;hide"; "0:00:15;end"]%string local_Main)
  = Exited
  /\ ending (loadScenario ["0:00:00;track;start"; "0:00:15;track;stop";
                           "0:00:15;end"]%string local_Main) = Exited
  /\ ending (loadScenario ["0:00:00;track;start"; "0:00:15;pause";
                           "0:00:15;end"]%string local_Main) = Exited
  /\ ending (loadScenario ["0:00:15;end"]%string local_Main) = Exited.
Proof. repeat split; vm_compute; reflexivity. Qed.

(* ------------------------------------------------------------------ *)
(** ** The order of a dispatch (C1) *)

(** *** The loops of [executeScenario] *)

Lemma for_ext {A} (l : list A) (f g : A -> M unit) :
  (forall x m, f x m = g x m) -> forall m, for_ l f m = for_ l g m.
Proof.
  intro H. induction l as [|x l IH]; intro m; [reflexivity|].
  cbn [for_]. unfold bind. rewrite H. destruct (g x m); auto.
Qed.

Lemma for_map {A B} (h : A -> B) (l : list A) (body : B -> M unit) :
  forall m, for_ (map h l) body m = for_ l (fun x => body (h x)) m.
Proof.
  induction l as [|x l IH]; intro m; [reflexivity|].
  cbn [map for_]. unfold bind. destruct (body (h x) m); auto.
Qed.

Lemma for_filter {A} (keep : A -> bool) (l : list A) (body : A -> M unit) :
  forall m,
    for_ l (fun x => if negb (keep x) then ret tt else body x) m
    = for_ (filter keep l) body m.
Proof.
  induction l as [|x l IH]; intro m; [reflexivity|].
  cbn [filter for_]. destruct (keep x); cbn [negb].
  - cbn [for_]. unfold bind. destruct (body x m); auto.
  - unfold bind at 1. cbn [ret]. apply IH.
Qed.

(** [executeScenario] goes through the priorities, and for each through
    its tier. *)
Lemma executeScenario_tiers (time : string) (m : Main) :
  executeScenario time m
  = match Dict.get time (scenariocontents m) with
    | None => Ok tt m
    | Some at_time =>
        for_ (sort_desc (gather_priorities at_time))
             (fun p => run_tier (tier p at_time)) m
    end.
Proof.
  unfold executeScenario. unfold bind at 1. cbn [gets].
  destruct (Dict.get time (scenariocontents m)) as [at_time|]; [|reflexivity].
  cbv zeta. apply for_ext. intros p m1.
  unfold run_tier, tier. rewrite for_map. cbn [fst snd].
  apply for_ext. intros [task cmds] m2. cbn [fst snd].
  unfold bind at 1 2. destruct (getPluginClass task m2) as [tc m3| | |];
    try reflexivity.
  apply (for_filter (fun c : Command => snd c =? p)).
Qed.

(** *** The priorities of an instant *)

Lemma mem_Z_In (x : Z) (l : list Z) : mem_Z x l = true <-> In x l.
Proof.
  induction l as [|y l IH]; cbn [mem_Z In].
  - split; [discriminate|contradiction].
  - rewrite orb_true_iff, IH, Z.eqb_eq. intuition congruence.
Qed.

Lemma gather_commands (cmds : list Command) :
  forall priorities : list Z,
    let priorities' :=
      fold_left (fun priorities c =>
                   if negb (mem_Z (snd c) priorities)
                   then priorities ++ [snd c] else priorities)
                cmds priorities in
    (NoDup priorities -> NoDup priorities')
    /\ forall p, In p priorities'
                 <-> In p priorities \/ exists c, In c cmds /\ snd c = p.
Proof.
  induction cmds as [|c cmds IH]; intro priorities; cbn [fold_left].
  - split; [auto|]. intro p. split; [auto|]. intros [H|(c & [] & _)]. exact H.
  - destruct (IH (if negb (mem_Z (snd c) priorities)
                  then priorities ++ [snd c] else priorities)) as [Hnd Hin].
    cbv zeta in *. split.
    + intro H. apply Hnd.
      destruct (mem_Z (snd c) priorities) eqn:Hm; cbn [negb]; [exact H|].
      apply NoDup_app; [exact H|repeat constructor; intros []|].
      intros x Hx [<-|[]]. apply mem_Z_In in Hx. congruence.
    + intro p. rewrite Hin.
      destruct (mem_Z (snd c) priorities) eqn:Hm; cbn [negb].
      * apply mem_Z_In in Hm. split.
        -- intros [H|(c' & Hc' & E)]; [now left|]. right. exists c'. split; [now right|exact E].
        -- intros [H|(c' & [<-|Hc'] & E)]; [now left | left; now rewrite <- E |].
           right. now exists c'.
      * rewrite in_app_iff. cbn [In]. split.
        -- intros [[H|[E|[]]]|(c' & Hc' & E)]; [now left | | ].
           ++ right. exists c. split; [now left|exact E].
           ++ right. exists c'. split; [now right|exact E].
        -- intros [H|(c' & [<-|Hc'] & E)]; [left; now left | left; right; now left |].
           right. now exists c'.
Qed.

Lemma gather_tasks (at_time : Dict.t (list Command)) :
  forall priorities : list Z,
    let priorities' :=
      fold_left
        (fun priorities task_cmds =>
           fold_left (fun priorities c =>
                        if negb (mem_Z (snd c) priorities)
                        then priorities ++ [snd c] else priorities)
                     (snd task_cmds) priorities)
        at_time priorities in
    (NoDup priorities -> NoDup priorities')
    /\ forall p, In p priorities'
                 <-> In p priorities
                     \/ exists task cmds c,
                          In (task, cmds) at_time /\ In c cmds /\ snd c = p.
Proof.
  induction at_time as [|[task cmds] at_time IH]; intro priorities;
    cbn [fold_left snd].
  - split; [auto|]. intro p. split; [auto|].
    intros [H|(t & cs & c & [] & _)]. exact H.
  - destruct (gather_commands cmds priorities) as [Hnd1 Hin1]. cbv zeta in *.
    match goal with
    | |- context [fold_left _ at_time ?acc] =>
        destruct (IH acc) as [Hnd2 Hin2]
    end.
    split; [auto|]. intro p. rewrite Hin2, Hin1. split.
    + intros [[H|(c & Hc & E)]|(t & cs & c & Ht & Hc & E)].
      * now left.
      * right. exists task, cmds, c. repeat split; [now left|assumption..].
      * right. exists t, cs, c. repeat split; [now right|assumption..].
    + intros [H|(t & cs & c & [Ht|Ht] & Hc & E)].
      * left. now left.
      * injection Ht as <- <-. left. right. now exists c.
      * right. now exists t, cs, c.
Qed.

Lemma gather_priorities_NoDup (at_time : Dict.t (list Command)) :
  NoDup (gather_priorities at_time).
Proof. apply (gather_tasks at_time []). constructor. Qed.

Lemma gather_priorities_In (at_time : Dict.t (list Command)) (p : Z) :
  In p (gather_priorities at_time)
  <-> exists task cmds c, In (task, cmds) at_time /\ In c cmds /\ snd c = p.
Proof.
  unfold gather_priorities. rewrite (proj2 (gather_tasks at_time [])).
  cbn [In]. tauto.
Qed.

Lemma insert_desc_In (x y : Z) (l : list Z) :
  In y (insert_desc x l) <-> y = x \/ In y l.
Proof.
  induction l as [|z l IH]; cbn [insert_desc In]; [intuition|].
  destruct (z <? x); cbn [In]; [intuition|]. rewrite IH. intuition.
Qed.

Lemma insert_desc_sorted (x : Z) (l : list Z) :
  ~ In x l -> StronglySorted Z.gt l -> StronglySorted Z.gt (insert_desc x l).
Proof.
  intros Hx Hs. induction Hs as [|z l Hs IH Hz]; cbn [insert_desc].
  - repeat constructor.
  - destruct (z <? x) eqn:Hlt.
    + apply Z.ltb_lt in Hlt. constructor; [now constructor|].
      constructor; [lia|]. rewrite Forall_forall in *. intros y Hy.
      specialize (Hz y Hy). lia.
    + apply Z.ltb_ge in Hlt. constructor.
      * apply IH. intro H. apply Hx. now right.
      * rewrite Forall_forall in *. intros y Hy.
        apply insert_desc_In in Hy. destruct Hy as [->|Hy]; [|now apply Hz].
        assert (z <> x) by (intro E; apply Hx; now left). lia.
Qed.

Lemma sort_desc_In (l : list Z) (p : Z) : In p (sort_desc l) <-> In p l.
Proof.
  induction l as [|x l IH]; cbn [sort_desc fold_right In]; [tauto|].
  fold (sort_desc l). rewrite insert_desc_In, IH. intuition.
Qed.

Lemma sort_desc_sorted (l : list Z) :
  NoDup l -> StronglySorted Z.gt (sort_desc l).
Proof.
  induction 1 as [|x l Hx Hnd IH]; cbn [sort_desc fold_right]; [constructor|].
  fold (sort_desc l). apply insert_desc_sorted; [|exact IH].
  now rewrite sort_desc_In.
Qed.

(** *** The scenario that [loadScenario] builds *)

Lemma Dict_keys_set {V} (k : string) (v : V) (d : Dict.t V) :
  Dict.keys (Dict.set k v d)
  = if Py.mem k (Dict.keys d) then Dict.keys d else Dict.keys d ++ [k].
Proof.
  unfold Dict.keys. induction d as [|[k0 v0] d IH]; cbn; [reflexivity|].
  destruct (String.eqb k k0); cbn; [reflexivity|].
  rewrite IH. now destruct (Py.mem k (map fst d)).
Qed.

Lemma Dict_get_set {V} (k k' : string) (v : V) (d : Dict.t V) :
  Dict.get k' (Dict.set k v d)
  = if String.eqb k k' then Some v else Dict.get k' d.
Proof.
  induction d as [|[k0 v0] d IH]; cbn.
  - rewrite (String.eqb_sym k' k). now destruct (String.eqb k k').
  - destruct (String.eqb_spec k k0) as [->|Hk]; cbn.
    + rewrite (String.eqb_sym k' k0). now destruct (String.eqb k0 k').
    + destruct (String.eqb_spec k' k0) as [->|Hk'].
      * destruct (String.eqb_spec k k0); [contradiction|reflexivity].
      * exact IH.
Qed.

Lemma Dict_entries {A} (d : Dict.t (list A)) :
  NoDup (Dict.keys d) ->
  d = map (fun k => (k, or_empty (Dict.get k d))) (Dict.keys d).
Proof.
  unfold Dict.keys. induction d as [|[k v] d IH]; cbn [map fst]; intro Hnd;
    [reflexivity|].
  inversion Hnd as [|? ? Hk Hnd']; subst.
  cbn [Dict.get]. rewrite String.eqb_refl. cbn [or_empty]. f_equal.
  rewrite IH at 1 by exact Hnd'.
  apply map_ext_in. intros k' Hk'.
  destruct (String.eqb_spec k' k) as [->|_]; [contradiction|reflexivity].
Qed.

Lemma get_add_command (l : Line) (sc : Scenario) (time : string) :
  or_empty (Dict.get time (add_command l sc))
  = if String.eqb (l_time l) time
    then group [l] (or_empty (Dict.get time sc))
    else or_empty (Dict.get time sc).
Proof.
  unfold add_command. cbv zeta. rewrite Dict_get_set.
  destruct (String.eqb_spec (l_time l) time) as [->|_]; reflexivity.
Qed.

Lemma compile_at (lines : list Line) (time : string) :
  forall sc : Scenario,
    or_empty (Dict.get time (fold_left (fun sc l => add_command l sc) lines sc))
    = group (lines_at time lines) (or_empty (Dict.get time sc)).
Proof.
  induction lines as [|l lines IH]; intro sc; [reflexivity|].
  cbn [fold_left lines_at filter]. rewrite IH, get_add_command.
  fold (lines_at time lines).
  destruct (String.eqb (l_time l) time); reflexivity.
Qed.

Lemma group_keys (lines : list Line) :
  forall at_time : Dict.t (list Command),
    Dict.keys (group lines at_time)
    = fold_left (fun seen x => if Py.mem x seen then seen else seen ++ [x])
        (map l_task lines) (Dict.keys at_time).
Proof.
  induction lines as [|l lines IH]; intro at_time; [reflexivity|].
  cbn [group fold_left map]. fold (group lines). rewrite IH, Dict_keys_set.
  reflexivity.
Qed.

Lemma group_get (task : string) (lines : list Line) :
  forall at_time : Dict.t (list Command),
    or_empty (Dict.get task (group lines at_time))
    = or_empty (Dict.get task at_time) ++ commands_of task lines.
Proof.
  induction lines as [|l lines IH]; intro at_time.
  - cbn. now rewrite app_nil_r.
  - cbn [group fold_left]. fold (group lines). rewrite IH, Dict_get_set.
    unfold commands_of. cbn [filter].
    destruct (String.eqb_spec (l_task l) task) as [->|_]; cbn [or_empty map].
    + now rewrite <- app_assoc.
    + reflexivity.
Qed.

Lemma first_appearance_NoDup (l : list string) :
  forall seen : list string,
    NoDup seen ->
    NoDup (fold_left (fun seen x => if Py.mem x seen then seen else seen ++ [x])
             l seen).
Proof.
  induction l as [|x l IH]; intros seen Hnd; [exact Hnd|].
  cbn [fold_left]. apply IH.
  destruct (Py.mem x seen) eqn:Hm; [exact Hnd|].
  apply NoDup_app; [exact Hnd|repeat constructor; intros []|].
  intros y Hy [<-|[]]. apply Py_mem_In in Hy. congruence.
Qed.

(** The tier of priority [p] of an instant of a compiled scenario: the
    tasks in the order of their first appearance among the lines of the
    instant, each with its commands of priority [p] in the order of the
    file. *)
Lemma compile_tier (lines : list Line) (time : string) (p : Z) :
  tier p (or_empty (Dict.get time (compile lines)))
  = map (fun task =>
           (task, filter (fun c => snd c =? p)
                    (commands_of task (lines_at time lines))))
        (first_appearance (map l_task (lines_at time lines))).
Proof.
  unfold compile. rewrite compile_at. cbn [Dict.get or_empty].
  set (ls := lines_at time lines).
  assert (Hkeys : Dict.keys (group ls []) = first_appearance (map l_task ls))
    by apply group_keys.
  assert (Hnd : NoDup (Dict.keys (group ls []))).
  { rewrite Hkeys. apply first_appearance_NoDup. constructor. }
  unfold tier. rewrite (Dict_entries _ Hnd) at 1. rewrite map_map, Hkeys.
  apply map_ext. intro task. cbn [fst snd]. now rewrite group_get.
Qed.

(** [loadScenario] adds the line that [getCommand] accepts. *)
Lemma loadScenario_line_accepts (lineNumber : nat) (scenario_line : string)
    (sc : Scenario) (m m' : Main) (l : Line) :
  considered scenario_line = true ->
  getCommand lineNumber (Py.strip scenario_line) m
  = Ok (Tuple4 (l_time l) (l_task l) (l_command l) (l_priority l)) m' ->
  l_time l <> EmptyString -> l_task l <> EmptyString -> l_command l <> [] ->
  loadScenario_line lineNumber scenario_line sc m
  = Ok (add_command l sc)
       (if negb (Py.mem (l_task l) (loadedTasks m'))
        then set_loadedTasks (loadedTasks m' ++ [l_task l]) m' else m').
Proof.
  intros Hcons E Htime Htask Hcmd.
  unfold loadScenario_line. cbv zeta.
  unfold considered in Hcons. rewrite Hcons.
  unfold bind at 1. rewrite E. unfold bind at 1. cbn [unpack4 ret].
  unfold bind at 1. cbn [modify].
  assert (Ht : str_truthy (l_time l) = true).
  { unfold str_truthy. destruct (String.eqb_spec (l_time l) EmptyString);
      [contradiction|reflexivity]. }
  assert (Hk : str_truthy (l_task l) = true).
  { unfold str_truthy. destruct (String.eqb_spec (l_task l) EmptyString);
      [contradiction|reflexivity]. }
  assert (Hc : list_truthy (l_command l) = true)
    by (destruct (l_command l); [contradiction|reflexivity]).
  rewrite Ht, Hk, Hc. cbn [andb].
  match goal with |- _ ?m2 = _ => generalize m2 end. intro m2.
  unfold add_command. cbv zeta. unfold Dict.mem.
  destruct (Dict.get (l_time l) sc) as [at_time|] eqn:Eat; cbn [negb or_empty].
  - unfold bind at 2. unfold scenario_at at 1. rewrite Eat. cbn [ret].
    destruct (Dict.get (l_task l) at_time) as [cmds|] eqn:Etask;
      cbn [negb or_empty ret]; unfold bind at 1; cbn [ret].
    + unfold bind at 1. unfold scenario_at. rewrite Eat. cbn [ret].
      rewrite Etask. reflexivity.
    + unfold bind at 1. unfold scenario_at. rewrite Dict_get_set_same. cbn [ret].
      rewrite Dict_get_set_same. cbn [ret app]. now rewrite !Dict_set_set.
  - unfold bind at 2. unfold scenario_at at 1. rewrite Dict_get_set_same.
    cbn [ret Dict.get negb]. unfold bind at 1. cbn [ret].
    unfold bind at 1. unfold scenario_at. rewrite Dict_get_set_same. cbn [ret].
    rewrite Dict_get_set_same. cbn [ret app]. now rewrite !Dict_set_set.
Qed.

Lemma loadScenario_lines_accepted (lines : list string) :
  forall (lineNumber : nat) (m m' : Main) (ls : list Line) (sc : Scenario),
    accepted_lines lineNumber lines m = Some (ls, m') ->
    loadScenario_lines lineNumber lines sc m
    = Ok (fold_left (fun sc l => add_command l sc) ls sc) m'.
Proof.
  induction lines as [|raw lines IH]; intros lineNumber m m' ls sc H;
    cbn [accepted_lines loadScenario_lines] in *.
  - injection H as <- <-. reflexivity.
  - unfold bind at 1. destruct (considered raw) eqn:Hcons.
    + destruct (getCommand lineNumber (Py.strip raw) m)
        as [[|time task command priority] m1| | |] eqn:E; try discriminate.
      destruct (str_truthy time && str_truthy task && list_truthy command)
        eqn:Hne; [|discriminate].
      apply andb_prop in Hne. destruct Hne as [Hne Hc].
      apply andb_prop in Hne. destruct Hne as [Ht Hk].
      destruct (accepted_lines (S lineNumber) lines (register task m1))
        as [[ls1 m2]|] eqn:Erest; [|discriminate].
      injection H as <- <-.
      rewrite (loadScenario_line_accepts lineNumber raw sc m m1
                 (mkLine time task command priority) Hcons E).
      * cbn [fold_left]. apply IH. exact Erest.
      * cbn [l_time]. intros ->. discriminate Ht.
      * cbn [l_task]. intros ->. discriminate Hk.
      * cbn [l_command]. intros ->. discriminate Hc.
    + assert (E : loadScenario_line lineNumber raw sc m = Ok sc m).
      { unfold loadScenario_line. cbv zeta. unfold considered in Hcons.
        now rewrite Hcons. }
      rewrite E. apply IH. exact H.
Qed.

(** C1.  A dispatch goes through the priorities of the time key in
    strictly descending order; for each priority through the tasks of the
    time key, and for each task through its commands of that priority.
    In a compiled scenario the tasks of a time key stand in the order of
    their first appearance among the lines of that time key, and the
    commands of a task in the order of the file: within a tier the
    commands run task by task, in file order within each task. *)
Theorem C1_dispatch_order :
  (forall (time : string) (m : Main),
     executeScenario time m
     = match Dict.get time (scenariocontents m) with
       | None => Ok tt m
       | Some at_time =>
           for_ (sort_desc (gather_priorities at_time))
                (fun p => run_tier (tier p at_time)) m
       end)
  /\ (forall at_time : Dict.t (list Command),
        StronglySorted Z.gt (sort_desc (gather_priorities at_time))
        /\ forall p, In p (sort_desc (gather_priorities at_time))
                     <-> exists task cmds c,
                           In (task, cmds) at_time /\ In c cmds /\ snd c = p)
  /\ (forall (lines : list Line) (time : string) (p : Z),
        tier p (or_empty (Dict.get time (compile lines)))
        = map (fun task =>
                 (task, filter (fun c => snd c =? p)
                          (commands_of task (lines_at time lines))))
              (first_appearance (map l_task (lines_at time lines))))
  /\ (forall (scenario_lines : list string) (m m' : Main) (lines : list Line),
        accepted_lines 0 scenario_lines m = Some (lines, m') ->
        loadScenario_lines 0 scenario_lines [] m = Ok (compile lines) m').
Proof.
  split; [|split; [|split]].
  - exact executeScenario_tiers.
  - intro at_time. split.
    + apply sort_desc_sorted, gather_priorities_NoDup.
    + intro p. rewrite sort_desc_In. apply gather_priorities_In.
  - exact compile_tier.
  - intros scenario_lines m m' lines H.
    exact (loadScenario_lines_accepted scenario_lines 0 m m' lines [] H).
Qed.

Lemma C1_dispatch_order_witness :
  loadScenario_lines 0
    ["0:00:05;track;start"; "# a comment"; "0:00:05-2;sysmon;start";
     "0:00:05;track;hide"]%string [] local_Main
  = Ok (compile [mkLine "0:00:05" "track" ["start"] 0;
                 mkLine "0:00:05" "sysmon" ["start"] 2;
                 mkLine "0:00:05" "track" ["hide"] 0]%string)
       (set_loadedTasks ["track"; "sysmon"]%string local_Main).
Proof.
  apply (proj2 (proj2 (proj2 C1_dispatch_order))
           ["0:00:05;track;start"; "# a comment"; "0:00:05-2;sysmon;start";
            "0:00:05;track;hide"]%string local_Main).
  vm_compute. reflexivity.
Defined.

(** Three lines of one time key and one priority, the second of another
    task than the first and the third: the third is dispatched before
    the second. *)
Lemma C1_file_order_counterexample :
  ~ tier_in_file_order_as_specified interleaved "0:00:05"
  /\ dispatch_order (or_empty (Dict.get "0:00:05" (compile interleaved)))
     = [("track", (["start"], 0)); ("track", (["hide"], 0));
        ("sysmon", (["start"], 0))]%string
  /\ match loadScenario ["0:00:05;track;start"; "0:00:05;sysmon;start";
                         "0:00:05;track;hide"; "0:00:09;end"]%string local_Main
     with
     | Ok sc m =>
         session_log (state_of (executeScenario "0:00:05"
                                  (set_scenariocontents sc m)))
     | _ => []
     end
     = [["MAIN"; "STATE"; "TRACK"; "START"];
        ["MAIN"; "STATE"; "TRACK"; "HIDE"];
        ["MAIN"; "STATE"; "SYSMON"; "START"]]%string.
Proof.
  split; [|split].
  - vm_compute. discriminate.
  - vm_compute. reflexivity.
  - vm_compute. reflexivity.
Qed.

(* ================================================================== *)
(** * Further properties of the code *)
(* ================================================================== *)

(** ** Time keys, the clock and the fields a run leaves alone *)

(** Two values of the virtual clock (not negative) have the same time key
    exactly when they lie in the same second: the format
    ["%d:%02d:%02d"] of [scenarioUpdateTime] loses nothing of the second,
    also beyond 9:59:59. *)
Theorem time_key_same_second (t1 t2 : Z) :
  0 <= t1 -> 0 <= t2 ->
  (time_key t1 = time_key t2 <-> t1 / 1000 = t2 / 1000).
Proof.
  intros H1 H2. split.
  - now apply time_key_inj.
  - apply time_key_second.
Qed.

Lemma time_key_same_second_witness :
  time_key 61500 = time_key 61999 <-> 61500 / 1000 = 61999 / 1000.
Proof. apply (time_key_same_second 61500 61999); lia. Defined.

Lemma step_is_client (s : Step) (m : Main) :
  is_client (state_of (step s m)) = is_client m.
Proof.
  destruct s as [time_now timer_now host| | | | | | |].
  1: { change (step (Tick time_now timer_now host) m)
         with (scheduler host (set_default_timer timer_now (set_time_time time_now m))).
       exact (proj1 (tick_clock_key _ host)). }
  all: match goal with
       | |- context [step ?s ?m0] =>
           pose proof (clock_view_other_steps s ltac:(discriminate) m0) as Hv
       end;
       unfold same, clock_view in Hv;
       exact (f_equal (fun v => snd (fst v)) Hv).
Qed.

(** On a Host and in a local session the virtual clock never runs
    backwards, whatever the steps of the run and the readings of the
    timer. *)
Theorem clock_never_runs_backwards (steps : list Step) :
  forall m : Main,
    is_client m = false ->
    totalElapsedTime_ms m <= totalElapsedTime_ms (state_of (run steps m)).
Proof.
  induction steps as [|s steps IH]; intros m Hrole.
  - cbn. lia.
  - change (run (s :: steps) m) with ((step s ;; run steps)%py m).
    rewrite state_of_bind.
    destruct (step_clock_key s steps m) as (Hle & _ & _).
    { intro H. congruence. }
    pose proof (step_is_client s m) as Hc.
    destruct (step s m) as [[] m1|m1|e m1|m1]; cbn [state_of] in *;
      try exact Hle.
    specialize (IH m1 ltac:(congruence)). lia.
Qed.

Lemma clock_never_runs_backwards_witness :
  totalElapsedTime_ms short_Main
  <= totalElapsedTime_ms
       (state_of (run [Tick 500 500 h0; CallOnPause true; Tick 300 300 h0;
                       CallOnResume; Tick 1500 1500 h0] short_Main)).
Proof.
  apply (clock_never_runs_backwards
           [Tick 500 500 h0; CallOnPause true; Tick 300 300 h0;
            CallOnResume; Tick 1500 1500 h0] short_Main).
  reflexivity.
Defined.

Lemma static_view_end_ : stable (same static_view) end_.
Proof. stable_end_same. Qed.

Lemma static_view_onEnd : stable (same static_view) onEnd.
Proof. stable_end_same. Qed.

Lemma static_view_frame : frame (same static_view).
Proof.
  constructor; try (intros x m; reflexivity).
  - apply same_refl.
  - apply same_trans.
  - intros e He m. reflexivity.
  - apply static_view_onEnd.
Qed.

(** No step of a run (a tick with whatever it dispatches, a call of
    [onPause], [onResume] or [onEnd], a remote call of the Participant)
    changes the role of the session, the list of loaded tasks, the compiled
    scenario or the time-out of the connection. *)
Theorem run_keeps_static_fields (steps : list Step) (m : Main) :
  static_view (state_of (run steps m)) = static_view m.
Proof.
  apply (stable_run (same static_view)); try (intros x m0; reflexivity).
  - apply static_view_frame.
  - apply static_view_end_.
  - intros f a m0. reflexivity.
Qed.

(** ** Session control *)

Lemma pause_plugin_recorded (d : Dict.t PluginTask) :
  Forall (fun kv => String.eqb (fst kv) "__main__" = true
                    \/ taskPreviouslyPaused (snd kv) <> None)
         (map_entries pause_plugin d).
Proof.
  unfold map_entries. apply Forall_forall. intros [k q] Hin.
  apply in_map_iff in Hin. destruct Hin as ([k0 p0] & Heq & _).
  cbn in Heq. injection Heq as <- <-. cbn [fst snd].
  unfold pause_plugin.
  destruct (String.eqb k0 "__main__"); [now left|right].
  unfold pause_entry. destruct (taskPaused p0); cbn; discriminate.
Qed.

Lemma paused_pause_entry (p : PluginTask) : taskPaused (pause_entry p) = true.
Proof.
  unfold pause_entry. destruct (taskPaused p) eqn:E; cbn; rewrite ?E; reflexivity.
Qed.

(** A pause inside a pause loses the record of the first: the second
    [onPause] notes every plugin as paused before, so the [onResume] that
    follows lifts the pause of the session and resumes no plugin, calls no
    [onResume] hook and shows no widget. *)
Theorem nested_pause_resumes_nothing (hide_ui hide_ui' : bool) (m : Main) :
  NoDup (Dict.keys (PLUGINS_TASK m)) ->
  exists m3,
    (onPause hide_ui ;; onPause hide_ui' ;; onResume)%py m = Ok tt m3
    /\ experiment_pause m3 = false
    /\ forall k p,
         k <> "__main__"%string ->
         Dict.get k (PLUGINS_TASK m) = Some p ->
         plugin_paused k m3 = true
         /\ calls k "onResume" m3 = calls k "onResume" m
         /\ calls k "show" m3 = calls k "show" m.
Proof.
  intro Hnd.
  pose proof (onPause_run hide_ui m Hnd) as E1.
  set (m1 := set_trace
               (add_events (pause_events hide_ui) (PLUGINS_TASK m)
                  (EvTimers false
                   :: EvLog ["MAIN"; "STATE"; EmptyString; "PAUSE"]%string
                   :: trace m))
               (set_PLUGINS_TASK (map_entries pause_plugin (PLUGINS_TASK m))
                  (set_experiment_pause true m))) in *.
  assert (Hnd1 : NoDup (Dict.keys (PLUGINS_TASK m1)))
    by (change (PLUGINS_TASK m1) with (map_entries pause_plugin (PLUGINS_TASK m));
        now rewrite Dict_keys_map_entries).
  pose proof (onPause_run hide_ui' m1 Hnd1) as E2.
  set (m2 := set_trace
               (add_events (pause_events hide_ui') (PLUGINS_TASK m1)
                  (EvTimers false
                   :: EvLog ["MAIN"; "STATE"; EmptyString; "PAUSE"]%string
                   :: trace m1))
               (set_PLUGINS_TASK (map_entries pause_plugin (PLUGINS_TASK m1))
                  (set_experiment_pause true m1))) in *.
  assert (Hnd2 : NoDup (Dict.keys (PLUGINS_TASK m2)))
    by (change (PLUGINS_TASK m2) with (map_entries pause_plugin (PLUGINS_TASK m1));
        now rewrite Dict_keys_map_entries).
  pose proof (onResume_run m2 Hnd2 (pause_plugin_recorded (PLUGINS_TASK m1))) as E3.
  eexists. split.
  { unfold bind. rewrite E1, E2. exact E3. }
  split; [reflexivity|].
  intros k p Hne Hp.
  assert (Hk : String.eqb k "__main__" = false) by now apply String.eqb_neq.
  assert (H1 : Dict.get k (PLUGINS_TASK m1) = Some (pause_entry p)).
  { change (PLUGINS_TASK m1) with (map_entries pause_plugin (PLUGINS_TASK m)).
    rewrite Dict_get_map_entries, Hp. unfold pause_plugin. now rewrite Hk. }
  assert (H2 : Dict.get k (PLUGINS_TASK m2) = Some (pause_entry (pause_entry p))).
  { change (PLUGINS_TASK m2) with (map_entries pause_plugin (PLUGINS_TASK m1)).
    rewrite Dict_get_map_entries, H1. unfold pause_plugin. now rewrite Hk. }
  assert (Hres : resumed (pause_entry (pause_entry p)) = false).
  { rewrite resumed_pause_entry, paused_pause_entry. apply andb_false_r. }
  split; [|split].
  - unfold plugin_paused. cbn [PLUGINS_TASK set_trace set_PLUGINS_TASK].
    rewrite Dict_get_map_entries, H2. unfold resume_plugin, resume_entry.
    rewrite Hk, Hres. apply paused_pause_entry.
  - unfold calls. subst m2 m1.
    cbn [PLUGINS_TASK trace set_trace set_PLUGINS_TASK set_experiment_pause] in *.
    rewrite calls_add_events by (auto using resume_events_other).
    cbn [filter is_call].
    rewrite calls_add_events by (auto using pause_events_other).
    cbn [filter is_call]. cbn [trace set_trace].
    rewrite calls_add_events by (auto using pause_events_other).
    cbn [filter is_call].
    rewrite H2, H1, Hp. unfold resume_events. rewrite Hk, Hres.
    unfold pause_events. rewrite Hk.
    destruct (hide_ui' && ui_label (pause_entry p)),
      (negb (taskPaused (pause_entry p)) && plugin_hasattr (pause_entry p) "onPause"),
      (hide_ui && ui_label p), (negb (taskPaused p) && plugin_hasattr p "onPause");
      cbn; rewrite ?String.eqb_refl; cbn; lia.
  - unfold calls. subst m2 m1.
    cbn [PLUGINS_TASK trace set_trace set_PLUGINS_TASK set_experiment_pause] in *.
    rewrite calls_add_events by (auto using resume_events_other).
    cbn [filter is_call].
    rewrite calls_add_events by (auto using pause_events_other).
    cbn [filter is_call]. cbn [trace set_trace].
    rewrite calls_add_events by (auto using pause_events_other).
    cbn [filter is_call].
    rewrite H2, H1, Hp. unfold resume_events. rewrite Hk, Hres.
    unfold pause_events. rewrite Hk.
    destruct (hide_ui' && ui_label (pause_entry p)),
      (negb (taskPaused (pause_entry p)) && plugin_hasattr (pause_entry p) "onPause"),
      (hide_ui && ui_label p), (negb (taskPaused p) && plugin_hasattr p "onPause");
      cbn; rewrite ?String.eqb_refl; cbn; lia.
Qed.

Lemma nested_pause_resumes_nothing_witness :
  exists m3,
    (onPause true ;; onPause false ;; onResume)%py mid_session_Main = Ok tt m3
    /\ experiment_pause m3 = false
    /\ forall k p,
         k <> "__main__"%string ->
         Dict.get k (PLUGINS_TASK mid_session_Main) = Some p ->
         plugin_paused k m3 = true
         /\ calls k "onResume" m3 = calls k "onResume" mid_session_Main
         /\ calls k "show" m3 = calls k "show" mid_session_Main.
Proof.
  apply (nested_pause_resumes_nothing true false mid_session_Main).
  simpl. repeat constructor; simpl; intuition discriminate.
Defined.

Lemma map_entries_same {V} (d : Dict.t V) : map_entries (fun _ v => v) d = d.
Proof.
  unfold map_entries. induction d as [|[k v] d IH]; cbn; [reflexivity|].
  now rewrite IH.
Qed.

Lemma set_PLUGINS_TASK_same (m : Main) : set_PLUGINS_TASK (PLUGINS_TASK m) m = m.
Proof. now destruct m. Qed.

Lemma end_body_entry (k : string) (p : PluginTask) (m : Main) :
  Dict.get k (PLUGINS_TASK m) = Some p ->
  when (negb (String.eqb k "__main__"))
    (p <- plugin_entry k ;;
     when (plugin_hasattr p "onEnd") (emit (EvCall k "onEnd")))%py m
  = Ok tt (set_trace (end_events k p ++ trace m)
             (set_PLUGINS_TASK (Dict.set k p (PLUGINS_TASK m)) m)).
Proof.
  intro Hp. rewrite (Dict_set_same _ _ _ Hp), set_PLUGINS_TASK_same.
  unfold end_events.
  destruct (String.eqb k "__main__"); cbn [negb when andb ret app].
  - now destruct m.
  - unfold bind. rewrite (plugin_entry_Ok _ _ _ Hp).
    destruct (plugin_hasattr p "onEnd"); cbn [when ret emit modify app];
      [reflexivity|now destruct m].
Qed.

(** The loop of [end] over the plugins. *)
Lemma end_hooks_run (m : Main) :
  NoDup (Dict.keys (PLUGINS_TASK m)) ->
  for_ (Dict.keys (PLUGINS_TASK m))
    (fun plugin =>
       when (negb (String.eqb plugin "__main__"))
         (p <- plugin_entry plugin ;;
          when (plugin_hasattr p "onEnd") (emit (EvCall plugin "onEnd"))))%py m
  = Ok tt (set_trace (add_events end_events (PLUGINS_TASK m) (trace m)) m).
Proof.
  intro Hnd.
  match goal with
  | |- for_ _ ?b m = _ =>
      pose proof (for_plugins b (fun _ _ => True) (fun _ p => p) end_events
                    (fun k p m0 _ H => end_body_entry k p m0 H) m Hnd) as Hloop
  end.
  rewrite Hloop by (apply Forall_forall; auto).
  now rewrite map_entries_same, set_PLUGINS_TASK_same.
Qed.

(** [end] while the window is being closed: what it does, exactly. *)
Lemma end_closing_run (m : Main) :
  NoDup (Dict.keys (PLUGINS_TASK m)) ->
  end_closing m
  = (if is_server m
     then Ok tt
            (set_trace
               (EvReactorStop :: ended_trace (PLUGINS_TASK m) (trace m)) m)
     else Exit (set_trace (ended_trace (PLUGINS_TASK m) (trace m)) m)).
Proof.
  intro Hnd. unfold end_closing. unfold bind at 1. cbn [gets]. unfold bind at 1.
  rewrite end_hooks_run by exact Hnd.
  unfold bind at 1. cbn [emit modify]. unfold bind at 1. cbn [emit modify].
  unfold bind at 1. cbn [gets is_server set_trace].
  destruct (is_server m); reflexivity.
Qed.

Lemma onEnd_closing_run (m : Main) :
  NoDup (Dict.keys (PLUGINS_TASK m)) ->
  onEnd_closing m
  = (if is_server m
     then Ok tt (set_ended_time (time_time m) (set_experiment_running false m))
     else Exit
            (set_trace (ended_trace (PLUGINS_TASK m) (trace m))
               (set_experiment_running false m))).
Proof.
  intro Hnd. unfold onEnd_closing. unfold bind at 1. cbn [modify].
  unfold bind at 1. cbn [gets is_server set_experiment_running].
  destruct (is_server m) eqn:Hs; cbn [negb]; [reflexivity|].
  rewrite end_closing_run by exact Hnd.
  cbn [is_server set_experiment_running PLUGINS_TASK trace]. now rewrite Hs.
Qed.

(** [closeEvent]: what it does, exactly. *)
Lemma closeEvent_run (m : Main) :
  NoDup (Dict.keys (PLUGINS_TASK m)) ->
  closeEvent m
  = match Dict.get "allowaltf4" (parameters m) with
    | None => Raise (KeyError "allowaltf4") m
    | Some v =>
        if truthy v then
          if is_server m
          then Ok true
                 (set_ended_time (time_time m)
                    (set_experiment_running false
                       (set_trace (EvCall "__main__" "hide" :: trace m) m)))
          else Exit
                 (set_trace
                    (ended_trace (PLUGINS_TASK m)
                       (EvCall "__main__" "hide" :: trace m))
                    (set_experiment_running false m))
        else Ok false m
    end.
Proof.
  intro Hnd. unfold closeEvent. unfold bind at 1. unfold main_parameter.
  destruct (Dict.get "allowaltf4" (parameters m)) as [v|]; [|reflexivity].
  destruct (truthy v); [|reflexivity].
  unfold bind at 1. cbn [emit modify]. unfold bind at 1.
  rewrite onEnd_closing_run by exact Hnd. cbn [is_server set_trace].
  destruct (is_server m); [reflexivity|]. now destruct m.
Qed.

(** [self.close()]: what it does, exactly. *)
Lemma close_run (m : Main) :
  NoDup (Dict.keys (PLUGINS_TASK m)) ->
  close_ m
  = (if close_reenters m then
       if is_server m
       then Ok tt
              (set_ended_time (time_time m)
                 (set_experiment_running false
                    (set_trace (EvCall "__main__" "hide" :: EvClose :: trace m) m)))
       else Exit
              (set_trace
                 (ended_trace (PLUGINS_TASK m)
                    (EvCall "__main__" "hide" :: EvClose :: trace m))
                 (set_experiment_running false m))
     else Ok tt (set_trace (EvClose :: trace m) m)).
Proof.
  intro Hnd. unfold close_. unfold bind at 1. cbn [emit modify].
  unfold from_qt. rewrite closeEvent_run by exact Hnd.
  unfold close_reenters. cbn [parameters set_trace is_server PLUGINS_TASK
    time_time trace].
  destruct (Dict.get "allowaltf4" (parameters m)) as [v|]; [|reflexivity].
  destruct (truthy v); [|reflexivity].
  destruct (is_server m); [reflexivity|]. now destruct m.
Qed.

(** [end]: what it does, exactly. *)
Lemma end_run (m : Main) :
  NoDup (Dict.keys (PLUGINS_TASK m)) ->
  end_ m
  = (if close_reenters m then
       if is_server m
       then Ok tt
              (set_trace
                 (EvReactorStop :: EvCall "__main__" "hide"
                  :: ended_trace (PLUGINS_TASK m) (trace m))
                 (set_ended_time (time_time m)
                    (set_experiment_running false m)))
       else Exit
              (set_trace
                 (ended_trace (PLUGINS_TASK m)
                    (EvCall "__main__" "hide"
                     :: ended_trace (PLUGINS_TASK m) (trace m)))
                 (set_experiment_running false m))
     else
       if is_server m
       then Ok tt
              (set_trace
                 (EvReactorStop :: ended_trace (PLUGINS_TASK m) (trace m)) m)
       else Exit (set_trace (ended_trace (PLUGINS_TASK m) (trace m)) m)).
Proof.
  intro Hnd. unfold end_. unfold bind at 1. cbn [gets]. unfold bind at 1.
  rewrite end_hooks_run by exact Hnd.
  unfold bind at 1. cbn [emit modify]. unfold bind at 1.
  rewrite close_run by exact Hnd.
  unfold close_reenters. cbn [parameters set_trace is_server PLUGINS_TASK
    time_time trace].
  destruct (Dict.get "allowaltf4" (parameters m)) as [v|];
    [destruct (truthy v)|];
    destruct (is_server m) eqn:Hs; unfold bind; cbn [gets is_server set_trace
      set_ended_time set_experiment_running emit modify sys_exit];
    rewrite ?Hs; try reflexivity; now destruct m.
Qed.

(** [onEnd]: what it does, exactly. *)
Lemma onEnd_run (m : Main) :
  NoDup (Dict.keys (PLUGINS_TASK m)) ->
  onEnd m
  = (if is_server m
     then Ok tt (set_ended_time (time_time m) (set_experiment_running false m))
     else Exit (set_trace (exit_trace m) (set_experiment_running false m))).
Proof.
  intro Hnd. unfold onEnd. unfold bind at 1. cbn [modify].
  unfold bind at 1. cbn [gets is_server set_experiment_running].
  destruct (is_server m) eqn:Hs; cbn [negb]; [reflexivity|].
  rewrite end_run by exact Hnd.
  unfold exit_trace, close_reenters.
  cbn [is_server set_experiment_running PLUGINS_TASK trace parameters].
  rewrite Hs.
  destruct (Dict.get "allowaltf4" (parameters m)) as [v|];
    [destruct (truthy v)|]; now destruct m.
Qed.

Lemma end_events_other (k k' method : string) (p' : PluginTask) :
  k' <> k -> filter (is_call k method) (end_events k' p') = [].
Proof.
  intro Hne. unfold end_events.
  destruct (negb (String.eqb k' "__main__") && plugin_hasattr p' "onEnd");
    [|reflexivity].
  cbn [filter]. now rewrite (is_call_other_plugin k k' method "onEnd" Hne).
Qed.

Lemma end_events_stops (d : Dict.t PluginTask) (t : list Event) :
  List.length (filter is_stop (add_events end_events d t))
  = List.length (filter is_stop t).
Proof.
  revert t. induction d as [|[k p] d IH]; intro t; [reflexivity|].
  cbn [add_events fold_left fst snd].
  change (fold_left _ d ?x) with (add_events end_events d x).
  rewrite IH, filter_app, length_app. unfold end_events.
  now destruct (negb (String.eqb k "__main__") && plugin_hasattr p "onEnd").
Qed.

Lemma end_events_end_lines (d : Dict.t PluginTask) (t : list Event) :
  List.length (filter is_end_line (add_events end_events d t))
  = List.length (filter is_end_line t).
Proof.
  revert t. induction d as [|[k p] d IH]; intro t; [reflexivity|].
  cbn [add_events fold_left fst snd].
  change (fold_left _ d ?x) with (add_events end_events d x).
  rewrite IH, filter_app, length_app. unfold end_events.
  now destruct (negb (String.eqb k "__main__") && plugin_hasattr p "onEnd").
Qed.

Lemma end_events_calls (m : Main) (k : string) (p : PluginTask) (t : list Event) :
  NoDup (Dict.keys (PLUGINS_TASK m)) ->
  k <> "__main__"%string ->
  Dict.get k (PLUGINS_TASK m) = Some p ->
  List.length (filter (is_call k "onEnd")
                 (add_events end_events (PLUGINS_TASK m) t))
  = (List.length (filter (is_call k "onEnd") t)
     + (if plugin_hasattr p "onEnd" then 1 else 0))%nat.
Proof.
  intros Hnd Hne Hp.
  rewrite calls_add_events by (auto using end_events_other).
  rewrite Hp. unfold end_events.
  apply String.eqb_neq in Hne. rewrite Hne. cbn [negb andb].
  destruct (plugin_hasattr p "onEnd"); cbn [filter is_call];
    rewrite ?String.eqb_refl; reflexivity.
Qed.

(** [end] calls the [onEnd] hook of every registered plugin that defines
    one and of no other, writes the END line and closes the window.
    Closing the window runs [closeEvent], which ends the session again
    when [allowaltf4] is set: on a session that is not a Host this is a
    second pass of [end], so that each hook is called twice and the END
    line is written twice; on a Host, and when [allowaltf4] is not set,
    each hook is called once and the END line is written once.  In every
    case the plugin table is left as it is; a Host then stops the reactor
    once and returns, any other session leaves the process by
    [sys.exit()]. *)
Theorem end_calls_the_onEnd_hooks (m : Main) :
  NoDup (Dict.keys (PLUGINS_TASK m)) ->
  let passes := if negb (is_server m) && close_reenters m then 2%nat else 1%nat in
  exists m',
    end_ m = (if is_server m then Ok tt m' else Exit m')
    /\ PLUGINS_TASK m' = PLUGINS_TASK m
    /\ stops m' = (stops m + (if is_server m then 1 else 0))%nat
    /\ end_lines m' = (end_lines m + passes)%nat
    /\ forall k p,
         k <> "__main__"%string ->
         Dict.get k (PLUGINS_TASK m) = Some p ->
         calls k "onEnd" m'
         = (calls k "onEnd" m
            + (if plugin_hasattr p "onEnd" then passes else 0))%nat.
Proof.
  intros Hnd passes. subst passes. rewrite (end_run m Hnd).
  destruct (close_reenters m), (is_server m); cbn [negb andb];
    eexists; (split; [reflexivity|]); (split; [reflexivity|]);
    unfold stops, end_lines, calls, ended_trace, end_line;
    cbn [trace set_trace set_ended_time set_experiment_running
         filter is_stop is_end_line List.length];
    rewrite ?end_events_stops, ?end_events_end_lines;
    cbn [filter is_stop is_end_line List.length];
    rewrite ?end_events_stops, ?end_events_end_lines;
    (split; [lia|]); (split; [lia|]);
    intros k p Hne Hp;
    cbn [filter is_call]; change (String.eqb "hide" "onEnd") with false;
    rewrite ?andb_false_r;
    rewrite (end_events_calls m k p _ Hnd Hne Hp);
    cbn [filter is_call]; change (String.eqb "hide" "onEnd") with false;
    rewrite ?andb_false_r;
    rewrite ?(end_events_calls m k p _ Hnd Hne Hp);
    destruct (plugin_hasattr p "onEnd"); lia.
Qed.

Lemma end_calls_the_onEnd_hooks_witness :
  exists m',
    end_ mid_session_Main = Exit m'
    /\ PLUGINS_TASK m' = PLUGINS_TASK mid_session_Main
    /\ stops m' = stops mid_session_Main
    /\ end_lines m' = (end_lines mid_session_Main + 2)%nat.
Proof.
  destruct (end_calls_the_onEnd_hooks mid_session_Main) as (m' & Hrun & Hp & Hs & He & _).
  - simpl. repeat constructor; simpl; intuition discriminate.
  - exists m'. split; [exact Hrun|]. split; [exact Hp|].
    split; [rewrite Hs; apply Nat.add_0_r | exact He].
Defined.

(** When the operator answers a message box with Abort, the experiment is
    stopped and [showCriticalMessage] does not return to its caller: the
    process exits, on a Host too. *)
Theorem abort_exits (msg : CriticalMessage) (m : Main) :
  NoDup (Dict.keys (PLUGINS_TASK m)) ->
  operator m (EvDialog msg :: trace m) = true ->
  exists m',
    showCriticalMessage msg m = Exit m'
    /\ experiment_running m' = false.
Proof.
  intros Hnd Habort. unfold showCriticalMessage.
  unfold bind at 1. cbn [emit modify]. unfold bind at 1.
  cbn [gets operator trace set_trace]. rewrite Habort.
  unfold bind at 1. rewrite onEnd_run by exact Hnd.
  cbn [is_server set_trace].
  destruct (is_server m) eqn:Hs.
  - cbn [modify sys_exit]. eexists. split; reflexivity.
  - eexists. split; reflexivity.
Qed.

Lemma abort_exits_witness :
  exists m',
    showCriticalMessage MsgNoTaskStarted aborting_Main = Exit m'
    /\ experiment_running m' = false.
Proof.
  apply (abort_exits MsgNoTaskStarted aborting_Main).
  - simpl. repeat constructor; simpl; intuition discriminate.
  - reflexivity.
Defined.

(** ** The periodic updates of the plugins *)

(** The plugin loop of [scheduler], outside a Participant, for a
    registered plugin that defines [onUpdate]: the elapsed time is added
    to the accumulator of a plugin that is loaded, not paused and has an
    update interval, and of no other; when the accumulator reaches the
    interval, [onUpdate] is called once and the accumulator starts again
    from 0, whatever it had beyond the interval.  No other entry
    changes. *)
Theorem update_plugin_time_accounts (k : string) (p : PluginTask) (elapsed : Z)
    (sync_data : option (Dict.t pyval)) (m : Main) :
  is_client m = false ->
  Dict.get k (PLUGINS_TASK m) = Some p ->
  plugin_hasattr p "onUpdate" = true ->
  let loaded := Py.mem k (loadedTasks m) in
  exists m',
    update_plugin_time k elapsed sync_data m = Ok tt m'
    /\ Dict.get k (PLUGINS_TASK m')
       = Some (set_TIME_SINCE_UPDATE
                 (if update_due loaded elapsed p then 0
                  else if accounted loaded p then TIME_SINCE_UPDATE p + elapsed
                  else TIME_SINCE_UPDATE p) p)
    /\ (forall other, other <> k ->
          Dict.get other (PLUGINS_TASK m') = Dict.get other (PLUGINS_TASK m))
    /\ calls k "onUpdate" m'
       = (calls k "onUpdate" m
          + (if update_due loaded elapsed p then 1 else 0))%nat.
Proof.
  intros Hrole Hp Hattr loaded. subst loaded.
  assert (Hsame : Some (set_TIME_SINCE_UPDATE (TIME_SINCE_UPDATE p) p) = Some p)
    by now destruct p.
  unfold update_plugin_time, update_due, accounted.
  unfold bind at 1. cbn [gets].
  destruct (Py.mem k (loadedTasks m)); cbn [when andb].
  2: { exists m. rewrite Hsame. repeat split; auto; lia. }
  unfold bind at 1. rewrite (plugin_entry_Ok _ _ _ Hp).
  destruct (UPDATE_TIME p) as [update_time|] eqn:Hu.
  2: { rewrite !andb_false_r. cbn [andb]. exists m. rewrite Hsame.
       repeat split; auto; lia. }
  destruct (taskPaused p) eqn:Hpaused; cbn [negb when andb].
  { exists m. rewrite Hsame. repeat split; auto; lia. }
  unfold bind at 1. rewrite (update_plugin_Ok _ _ _ _ Hp).
  unfold bind at 1. unfold plugin_entry at 1.
  cbn [PLUGINS_TASK set_PLUGINS_TASK]. rewrite Dict_get_set_same.
  cbn [TIME_SINCE_UPDATE set_TIME_SINCE_UPDATE].
  assert (Hattr' : plugin_hasattr
                     (set_TIME_SINCE_UPDATE (TIME_SINCE_UPDATE p + elapsed) p)
                     "onUpdate" = true) by exact Hattr.
  assert (Hsync : forall q full complain m0,
             is_client m0 = false ->
             apply_sync k q sync_data full complain m0 = Ok tt m0).
  { intros q full complain m0 H0. unfold apply_sync. unfold bind. cbn [gets].
    now rewrite H0. }
  destruct (update_time <=? TIME_SINCE_UPDATE p + elapsed).
  - rewrite Hattr'. unfold bind at 1. unfold bind at 1. cbn [emit modify].
    rewrite Hsync by exact Hrole.
    erewrite update_plugin_Ok
      by (cbn [PLUGINS_TASK set_PLUGINS_TASK set_trace]; apply Dict_get_set_same).
    eexists. split; [reflexivity|].
    cbn [PLUGINS_TASK set_PLUGINS_TASK set_trace]. rewrite Dict_set_set.
    split; [apply Dict_get_set_same|]. split.
    + intros other Hne. now apply Dict_get_set_other.
    + unfold calls. cbn [trace set_trace set_PLUGINS_TASK filter is_call].
      rewrite !String.eqb_refl. cbn [andb List.length]. lia.
  - rewrite Hsync by exact Hrole.
    eexists. split; [reflexivity|].
    cbn [PLUGINS_TASK set_PLUGINS_TASK].
    split; [apply Dict_get_set_same|]. split.
    + intros other Hne. now apply Dict_get_set_other.
    + unfold calls. cbn [trace set_PLUGINS_TASK]. lia.
Qed.

Lemma update_plugin_time_accounts_witness :
  let loaded := Py.mem "track" (loadedTasks tracking_Main) in
  let p := set_TIME_SINCE_UPDATE 15
             (set_taskRunning true
                (set_taskVisible true (load_plugin track_class true))) in
  exists m',
    update_plugin_time "track" 8 None tracking_Main = Ok tt m'
    /\ Dict.get "track" (PLUGINS_TASK m')
       = Some (set_TIME_SINCE_UPDATE
                 (if update_due loaded 8 p then 0
                  else if accounted loaded p then TIME_SINCE_UPDATE p + 8
                  else TIME_SINCE_UPDATE p) p)
    /\ (forall other, other <> "track"%string ->
          Dict.get other (PLUGINS_TASK m')
          = Dict.get other (PLUGINS_TASK tracking_Main))
    /\ calls "track" "onUpdate" m'
       = (calls "track" "onUpdate" tracking_Main
          + (if update_due loaded 8 p then 1 else 0))%nat.
Proof.
  apply (update_plugin_time_accounts "track"
           (set_TIME_SINCE_UPDATE 15
              (set_taskRunning true
                 (set_taskVisible true (load_plugin track_class true))))
           8 None tracking_Main); reflexivity.
Defined.

(** ** The scenario compiler *)

Lemma testParameterVariable_keys_known (task : string) (adress : list string) :
  forall (current : pyval) (m : Main),
    parameter_known current adress = true ->
    testParameterVariable_keys task current adress m = Ok true m.
Proof.
  induction adress as [|k rest IH]; intros current m Hknown;
    cbn [testParameterVariable_keys parameter_known] in *; [reflexivity|].
  destruct current; try discriminate.
  destruct (Dict.get k d) as [v|]; [|discriminate]. now apply IH.
Qed.

(** A line that [getCommand] has no reason to reject, with a time field
    of the form [H:MM:SS] or [H:MM:SS-n], is returned as a 4-tuple: the
    time key without the suffix, the task ([__main__] where the line names
    none), the command (with the deprecated [feedbackduration] of [sysmon]
    renamed), and the priority [n], 0 without a suffix.  [getCommand]
    shows no message and changes nothing. *)
Theorem getCommand_accepted_line (lineNumber : nat) (lineContent : string)
    (m : Main) (p : Z) :
  rejection m lineContent = None ->
  snd (time_and_priority (line_time m lineContent)) = Some p ->
  getCommand lineNumber lineContent m
  = Ok (Tuple4 (fst (time_and_priority (line_time m lineContent)))
          (line_task m lineContent) (line_command m lineContent) p) m.
Proof.
  unfold getCommand, rejection. cbv zeta.
  destruct (negb ((1 <? List.length (Py.split ";" (Py.strip lineContent)))%nat
                  && (List.length (Py.split ";" (Py.strip lineContent)) <? 5)%nat));
    [discriminate|].
  unfold bind at 1. cbn [gets]. unfold bind at 1. cbn [gets].
  fold (line_fields m lineContent).
  change (nth 1 (line_fields m lineContent) EmptyString)
    with (line_task m lineContent).
  change (nth 0 (line_fields m lineContent) EmptyString)
    with (line_time m lineContent).
  change (if String.eqb (line_task m lineContent) "sysmon"
             && String.eqb (hd EmptyString (skipn 2 (line_fields m lineContent)))
                  "feedbackduration"
          then "feedbacks-positive-duration"%string
               :: tl (skipn 2 (line_fields m lineContent))
          else skipn 2 (line_fields m lineContent))
    with (line_command m lineContent).
  change (if String.eqb (line_task m lineContent) "__main__" then Some SelfClass
          else if Dict.mem (line_task m lineContent) (PLUGINS_TASK m)
               then Some (PluginClass (line_task m lineContent)) else None)
    with (line_taskclass m lineContent).
  generalize (line_command m lineContent) (line_task m lineContent)
    (line_time m lineContent).
  intros command task time.
  destruct (line_taskclass m lineContent) as [taskclass|]; [|discriminate].
  intros Hrej Hprio.
  match goal with
  | |- bind ?c _ m = _ =>
      assert (Htp : c m = Ok (time_and_priority time) m)
  end.
  { revert Hprio. unfold time_and_priority. cbv zeta.
    destruct (negb (String.length time =? 7)%nat); [|reflexivity].
    match goal with |- context [if ?c then _ else _] => destruct c eqn:Hc end;
      [|discriminate].
    apply andb_prop in Hc. destruct Hc as [_ Hnum].
    now rewrite (Py_int_isnumeric _ Hnum). }
  unfold bind at 1. rewrite Htp.
  destruct (time_and_priority time) as [time' priority]. cbn [fst snd] in *.
  subst priority.
  destruct (List.length command =? 1)%nat.
  - unfold bind at 1. cbn [gets].
    match type of Hrej with (if ?c then _ else _) = _ => destruct c end;
      [discriminate|reflexivity].
  - unfold taskclass_has_parameters. cbn [negb].
    match type of Hrej with (if ?c then _ else _) = _ => destruct c eqn:Hok end;
      [|discriminate].
    apply andb_prop in Hok. destruct Hok as [Htruthy Hknown].
    unfold bind at 1. unfold testParameterVariable. unfold bind at 1. cbn [gets].
    rewrite Htruthy. cbn [negb].
    rewrite (testParameterVariable_keys_known _ _ _ _ Hknown). reflexivity.
Qed.

Lemma getCommand_accepted_line_witness :
  getCommand 7 "0:01:30-2;sysmon;feedbackduration;900" local_Main
  = Ok (Tuple4
          (fst (time_and_priority
                  (line_time local_Main "0:01:30-2;sysmon;feedbackduration;900")))
          (line_task local_Main "0:01:30-2;sysmon;feedbackduration;900")
          (line_command local_Main "0:01:30-2;sysmon;feedbackduration;900") 2)
       local_Main.
Proof.
  apply (getCommand_accepted_line 7 "0:01:30-2;sysmon;feedbackduration;900"
           local_Main 2); vm_compute; reflexivity.
Defined.

Lemma warn_false_not_true (msg : CriticalMessage) (m m' : Main) :
  (showCriticalMessage msg ;; ret false)%py m <> Ok true m'.
Proof.
  unfold bind, ret. destruct (showCriticalMessage msg m) as [[] m1| | |];
    intro H; discriminate H.
Qed.

Lemma validate_tasks_true (sc : Scenario) (tasks : list string) :
  forall m m' : Main,
    validate_tasks tasks sc m = Ok true m' ->
    m' = m
    /\ forall task, In task tasks -> task <> "__main__"%string ->
         task_entries task sc <> []
         /\ Py.mem "start"
              (map (fun e => hd EmptyString (fst e)) (task_entries task sc))
            = true.
Proof.
  induction tasks as [|checktask tasks IH]; intros m m' H;
    cbn [validate_tasks] in H.
  - injection H as <-. split; [reflexivity|]. intros task [].
  - destruct (String.eqb_spec checktask "__main__") as [->|Hne].
    + destruct (IH m m' H) as [-> Hall]. split; [reflexivity|].
      intros task [<-|Hin] Hmain; [contradiction|now apply Hall].
    + destruct (List.length (task_entries checktask sc) =? 0)%nat eqn:Hlen.
      { exfalso. exact (warn_false_not_true _ _ _ H). }
      destruct (negb (Py.mem "start"
                        (map (fun e => hd EmptyString (fst e))
                             (task_entries checktask sc)))) eqn:Hstart.
      { exfalso. exact (warn_false_not_true _ _ _ H). }
      destruct (IH m m' H) as [-> Hall]. split; [reflexivity|].
      intros task [<-|Hin] Hmain; [|now apply Hall].
      split.
      * intro E. rewrite E in Hlen. discriminate.
      * now apply negb_false_iff in Hstart.
Qed.



Lemma static_view_testParameterVariable_keys (task : string) (adress : list string) :
  forall current, stable (same static_view)
                    (testParameterVariable_keys task current adress).
Proof.
  pose proof static_view_frame as HF.
  induction adress as [|k rest IH]; intro current;
    cbn [testParameterVariable_keys]; stable_same; stable_auto.
  all: first [now apply stable_showCriticalMessage | apply IH].
Qed.

Lemma static_view_getCommand (lineNumber : nat) (lineContent : string) :
  stable (same static_view) (getCommand lineNumber lineContent).
Proof.
  pose proof static_view_frame as HF.
  stable_same. unfold getCommand, testParameterVariable, return_tuple4.
  stable_auto.
  all: first [ now apply stable_showCriticalMessage
             | apply static_view_testParameterVariable_keys ].
Qed.

(** [loadScenario] registers the task of every line it compiles once, in
    the order of the first appearance of the tasks in the file. *)
Theorem loadScenario_registers_tasks (lines : list string) :
  forall (lineNumber : nat) (m m' : Main) (ls : list Line) (sc : Scenario),
    accepted_lines lineNumber lines m = Some (ls, m') ->
    loadScenario_lines lineNumber lines sc m
    = Ok (fold_left (fun sc l => add_command l sc) ls sc) m'
    /\ loadedTasks m'
       = fold_left (fun seen x => if Py.mem x seen then seen else seen ++ [x])
           (map l_task ls) (loadedTasks m).
Proof.
  intros lineNumber m m' ls sc H.
  split; [now apply loadScenario_lines_accepted|].
  clear sc. revert lineNumber m m' ls H.
  induction lines as [|raw lines IH]; intros lineNumber m m' ls H;
    cbn [accepted_lines] in H.
  - injection H as <- <-. reflexivity.
  - destruct (considered raw); [|now apply (IH _ _ _ _ H)].
    pose proof (static_view_getCommand lineNumber (Py.strip raw) m) as Hv.
    destruct (getCommand lineNumber (Py.strip raw) m)
      as [[|time task command priority] m1| | |]; try discriminate.
    destruct (str_truthy time && str_truthy task && list_truthy command);
      [|discriminate].
    destruct (accepted_lines (S lineNumber) lines (register task m1))
      as [[ls1 m2]|] eqn:Erest; [|discriminate].
    injection H as <- <-. cbn [map l_task fold_left].
    rewrite (IH _ _ _ _ Erest).
    unfold same, static_view in Hv. cbn [state_of] in Hv.
    pose proof (f_equal (fun v => snd (fst (fst v))) Hv) as Htasks.
    cbn [fst snd] in Htasks. f_equal.
    unfold register. rewrite Htasks.
    now destruct (Py.mem task (loadedTasks m)).
Qed.

Lemma loadScenario_registers_tasks_witness :
  loadScenario_lines 0
    ["0:00:00;track;start"; "0:00:05;sysmon;start"; "0:00:09;track;stop";
     "0:00:10;end"]%string [] local_Main
  = Ok (fold_left (fun sc l => add_command l sc)
          [mkLine "0:00:00" "track" ["start"] 0;
           mkLine "0:00:05" "sysmon" ["start"] 0;
           mkLine "0:00:09" "track" ["stop"] 0;
           mkLine "0:00:10" "__main__" ["end"] 0]%string [])
       (set_loadedTasks ["track"; "sysmon"; "__main__"]%string local_Main)
  /\ loadedTasks (set_loadedTasks ["track"; "sysmon"; "__main__"]%string local_Main)
     = fold_left (fun seen x => if Py.mem x seen then seen else seen ++ [x])
         (map l_task
            [mkLine "0:00:00" "track" ["start"] 0;
             mkLine "0:00:05" "sysmon" ["start"] 0;
             mkLine "0:00:09" "track" ["stop"] 0;
             mkLine "0:00:10" "__main__" ["end"] 0]%string)
         (loadedTasks local_Main).
Proof.
  apply (loadScenario_registers_tasks
           ["0:00:00;track;start"; "0:00:05;sysmon;start"; "0:00:09;track;stop";
            "0:00:10;end"]%string 0 local_Main).
  vm_compute. reflexivity.
Defined.


(** ** Parameter commands *)

(** An assignment by [setParameterVariable] that goes through finds a
    value at the address, converts the text to the type of that value and
    puts the result in its place: the new tree has the converted value at
    the address, and the address is still one that
    [testParameterVariable] accepts. *)
Theorem assign_then_lookup (command : list string) (value : string) :
  forall (current tree new : pyval) (m m' : Main),
    assign_at command value current m = Ok (tree, new) m' ->
    lookup_path tree command = Some new
    /\ parameter_known tree command = true
    /\ exists old,
         lookup_path current command = Some old
         /\ coerce old value m = Ok new m'.
Proof.
  induction command as [|k rest IH]; intros current tree new m m' H;
    [discriminate|].
  destruct rest as [|k' rest'].
  - cbn [assign_at] in H. destruct current; try discriminate.
    destruct (Dict.get k d) as [old|] eqn:Hold; [|discriminate].
    apply bind_Ok_inv in H. destruct H as (new' & m1 & Hco & H).
    injection H as <- <- <-.
    cbn [lookup_path parameter_known]. rewrite Dict_get_set_same, Hold.
    repeat split. now exists old.
  - change (assign_at (k :: k' :: rest') value current)
      with (match current with
            | PDict d =>
                match Dict.get k d with
                | Some sub =>
                    ('(sub', new) <- assign_at (k' :: rest') value sub ;;
                     ret (PDict (Dict.set k sub' d), new))%py
                | None => raise TypeError
                end
            | _ => raise (AttributeError "get")
            end) in H.
    destruct current; try discriminate.
    destruct (Dict.get k d) as [sub|] eqn:Hsub; [|discriminate].
    apply bind_Ok_inv in H. destruct H as ([sub' new'] & m1 & Hrec & H).
    injection H as <- <- <-.
    destruct (IH sub sub' new' m m1 Hrec) as (Hl & Hk & old & Hold & Hco).
    cbn [lookup_path parameter_known]. rewrite Dict_get_set_same, Hsub.
    cbn [lookup_path parameter_known] in Hl, Hk.
    repeat split; try assumption. now exists old.
Qed.

Lemma assign_then_lookup_witness :
  lookup_path
    (PDict [("feedbacks",
             PDict [("positive", PDict [("active", PBool false);
                                        ("trigger", PInt 0)])])]%string)
    ["feedbacks"; "positive"; "active"]%string
  = Some (PBool false)
  /\ parameter_known
       (PDict [("feedbacks",
                PDict [("positive", PDict [("active", PBool false);
                                           ("trigger", PInt 0)])])]%string)
       ["feedbacks"; "positive"; "active"]%string = true
  /\ exists old,
       lookup_path
         (PDict [("feedbacks",
                  PDict [("positive", PDict [("active", PBool true);
                                             ("trigger", PInt 0)])])]%string)
         ["feedbacks"; "positive"; "active"]%string = Some old
       /\ coerce old "False" local_Main = Ok (PBool false) local_Main.
Proof.
  apply (assign_then_lookup ["feedbacks"; "positive"; "active"]%string "False"
           (PDict [("feedbacks",
                    PDict [("positive", PDict [("active", PBool true);
                                               ("trigger", PInt 0)])])]%string)
           _ _ local_Main local_Main).
  vm_compute. reflexivity.
Defined.



(** ** The exchange between Host and Participant *)

Lemma collect_keys (l : list string) (body : string -> M (option pyval)) :
  forall (acc d : Dict.t pyval) (m m' : Main) (k : string),
    collect l body acc m = Ok d m' ->
    Dict.get k d <> None -> Dict.get k acc <> None \/ In k l.
Proof.
  induction l as [|x l IH]; intros acc d m m' k H Hk; cbn [collect] in H.
  - injection H as <- <-. now left.
  - apply bind_Ok_inv in H. destruct H as (o & m1 & _ & H).
    destruct (IH _ _ _ _ k H Hk) as [Hacc|Hin]; [|right; now right].
    destruct o as [v|]; [|now left].
    rewrite Dict_get_set in Hacc.
    destruct (String.eqb_spec x k) as [->|_]; [right; now left|now left].
Qed.

Lemma sync_view_collect (plugins : list string) (acc : Dict.t pyval) :
  stable (same sync_view)
    (collect plugins (fun plugin_name =>
       p <- plugin_entry plugin_name ;;
       if plugin_hasattr p "getSyncData" then
         server <- class_is_server plugin_name ;;
         if server then
           emit (EvCall plugin_name "getSyncData") ;;
           ret (Some (sync_payload (class p)))
         else ret None
       else ret None)%py acc).
Proof.
  stable_same. unfold class_is_server. stable_auto.
Qed.

(** As long as the experiment runs, an answer of the Host to
    [get_sync_data] carries no [terminate] (unless a plugin is registered
    under that very name) and does not count as the delivery of the end;
    and every answer records the time of the exchange as the last sign of
    life of the Participant. *)
Theorem sync_data_without_terminate (m m' : Main) (d : Dict.t pyval) :
  remote_get_sync_data m = Ok d m' ->
  last_client_sync m' = time_time m
  /\ (experiment_running m = true ->
      Dict.get "terminate" (PLUGINS_TASK m) = None ->
      Dict.get "terminate" d = None
      /\ termination_message_sent m' = termination_message_sent m).
Proof.
  intro H. unfold remote_get_sync_data in H.
  unfold bind at 1 in H. cbn [gets] in H.
  apply bind_Ok_inv in H. destruct H as (d1 & m1 & Hcollect & H).
  pose proof (sync_view_collect (Dict.keys (PLUGINS_TASK m)) [] m) as Hv.
  rewrite Hcollect in Hv. unfold same, sync_view in Hv. cbn [state_of] in Hv.
  injection Hv as Hrun Hsent Htime.
  unfold bind at 1 in H. cbn [gets] in H. rewrite Hrun in H.
  destruct (experiment_running m) eqn:Hrunning; cbn [negb] in H.
  - unfold bind in H. cbn [ret modify] in H. injection H as <- <-.
    cbn [last_client_sync set_last_client_sync termination_message_sent].
    split; [exact Htime|]. intros _ Hnone. split; [|exact Hsent].
    destruct (Dict.get "terminate" d1) eqn:Hd; [|reflexivity].
    exfalso.
    destruct (collect_keys _ _ _ _ _ _ "terminate" Hcollect) as [Hacc|Hin].
    + rewrite Hd. discriminate.
    + now apply Hacc.
    + apply Dict_In_keys_get in Hin. destruct Hin as (q & Hq). congruence.
  - unfold bind in H. cbn [ret modify] in H. injection H as <- <-.
    cbn [last_client_sync set_last_client_sync time_time
         set_termination_message_sent].
    split; [exact Htime|]. intro Hfalse. discriminate.
Qed.

Lemma sync_data_without_terminate_witness :
  last_client_sync
    (set_last_client_sync 1200
       (set_trace [EvCall "genericscales" "getSyncData";
                     EvCall "track" "getSyncData"] running_host)) = time_time running_host
  /\ (experiment_running running_host = true ->
      Dict.get "terminate" (PLUGINS_TASK running_host) = None ->
      Dict.get "terminate" [("track", PObj "track state");
                            ("genericscales", PObj "scales state")]%string = None
      /\ termination_message_sent
           (set_last_client_sync 1200
              (set_trace [EvCall "genericscales" "getSyncData";
                     EvCall "track" "getSyncData"] running_host))
         = termination_message_sent running_host).
Proof.
  apply (sync_data_without_terminate running_host).
  vm_compute. reflexivity.
Defined.

(** ** The Participant and the end of the session *)

Lemma not_returned_bind {A B} (c : M A) (k : A -> M B) (m : Main) :
  (forall a m1, c m = Ok a m1 -> ending (k a m1) <> Returned) ->
  ending ((x <- c ;; k x) m) <> Returned.
Proof.
  intro H. unfold bind. destruct (c m) as [a m1|m1|e m1|m1] eqn:E; cbn;
    try discriminate.
  now apply H.
Qed.

Lemma stable_Ok {A} (R : Main -> Main -> Prop) (c : M A) (m m1 : Main) (a : A) :
  stable R c -> c m = Ok a m1 -> R m m1.
Proof. intros Hs E. specialize (Hs m). now rewrite E in Hs. Qed.

Lemma role_of_clock_view (m m1 : Main) :
  same clock_view m m1 -> is_client m1 = is_client m /\ is_server m1 = is_server m.
Proof.
  unfold same, clock_view. intro H. split.
  - exact (f_equal (fun v => snd (fst v)) H).
  - exact (f_equal snd H).
Qed.

Lemma end_does_not_return (m : Main) :
  is_server m = false -> ending (end_ m) <> Returned.
Proof.
  intro Hs. unfold end_.
  apply not_returned_bind. intros plugins m1 H1.
  injection H1 as _ <-.
  apply not_returned_bind. intros [] m2 H2.
  assert (Hr : same clock_view m m2).
  { refine (stable_Ok _ _ _ _ _ _ H2). stable_same.
    unfold plugin_hasattr. stable_auto. }
  apply role_of_clock_view in Hr. destruct Hr as [_ Hs2].
  apply not_returned_bind. intros [] m3 H3.
  unfold emit, modify in H3. injection H3 as <-.
  apply not_returned_bind. intros [] m4 H4.
  assert (Hr4 : same clock_view
                  (set_trace (EvLog ["MAIN"; "STATE"; EmptyString; "END"]%string
                              :: trace m2) m2) m4).
  { refine (stable_Ok _ _ _ _ _ _ H4). stable_end_same. }
  apply role_of_clock_view in Hr4. destruct Hr4 as [_ Hs4].
  cbn [is_server set_trace] in Hs4.
  unfold bind, gets. rewrite Hs4, Hs2, Hs. cbn. discriminate.
Qed.

Lemma onEnd_does_not_return (m : Main) :
  is_server m = false -> ending (onEnd m) <> Returned.
Proof.
  intro Hs. unfold onEnd.
  apply not_returned_bind. intros [] m1 H1. injection H1 as <-.
  apply not_returned_bind. intros server m2 H2. injection H2 as <- <-.
  cbn [is_server set_experiment_running]. rewrite Hs. cbn [negb].
  apply end_does_not_return. cbn [is_server set_experiment_running]. exact Hs.
Qed.

Lemma terminate_does_not_return (host : HostReplies) (m : Main) :
  is_client m = true -> is_server m = false ->
  Dict.mem "terminate" (reply_sync_data host) = true ->
  ending (doNetworkCommunications host m) <> Returned.
Proof.
  intros Hc Hs Hterm. unfold doNetworkCommunications.
  apply not_returned_bind. intros client m1 H1. injection H1 as <- <-.
  rewrite Hc.
  apply not_returned_bind. intros [] m1 H1.
  assert (Hr : same clock_view m m1).
  { refine (stable_Ok _ _ _ _ _ _ H1). stable_same.
    unfold plugin_hasattr. stable_auto.
    all: apply stable_class_is_client; apply clock_view_frame. }
  apply role_of_clock_view in Hr. destruct Hr as [_ Hs1].
  apply not_returned_bind. intros sync_data m2 H2.
  unfold bind, emit, modify, ret in H2. injection H2 as <- <-.
  apply not_returned_bind. intros [] m3 H3.
  exfalso. revert H3. rewrite Hterm. cbn [when]. intro H3.
  refine (onEnd_does_not_return _ _ _).
  2: { rewrite H3. reflexivity. }
  cbn [is_server set_trace]. congruence.
Qed.

(** A Participant does not come back from the exchange in which the Host
    announces the end: [doNetworkCommunications] calls [onEnd], which on
    a Participant runs [end] and leaves the process; a tick that is due
    therefore updates no plugin and dispatches nothing after it. *)
Theorem participant_ends_on_terminate (host : HostReplies) (m : Main) :
  is_client m = true -> is_server m = false ->
  Dict.mem "terminate" (reply_sync_data host) = true ->
  ending (doNetworkCommunications host m) <> Returned
  /\ (MAIN_SCHEDULER_INTERVAL <= default_timer m - last_time_microsec m ->
      ending (scheduler host m) <> Returned
      /\ totalElapsedTime_ms (state_of (scheduler host m)) = totalElapsedTime_ms m
      /\ scenarioTimeStr (state_of (scheduler host m)) = scenarioTimeStr m).
Proof.
  intros Hc Hs Hterm. split; [now apply terminate_does_not_return|].
  intro Hdue.
  assert (Hnet : forall m0, is_client m0 = true -> is_server m0 = false ->
            ending (doNetworkCommunications host m0) <> Returned)
    by (intros; now apply terminate_does_not_return).
  enough (H : forall r, r = scheduler host m ->
            ending r <> Returned
            /\ totalElapsedTime_ms (state_of r) = totalElapsedTime_ms m
            /\ scenarioTimeStr (state_of r) = scenarioTimeStr m)
    by (apply H; reflexivity).
  intros r Hr. unfold scheduler in Hr.
  unfold bind at 1 in Hr. cbn [gets] in Hr. unfold bind at 1 in Hr.
  cbn [gets] in Hr.
  assert (Hd : (default_timer m - last_time_microsec m <? MAIN_SCHEDULER_INTERVAL)
          = false) by now apply Z.ltb_ge.
  rewrite Hd in Hr.
  unfold bind at 1 in Hr. cbn [modify] in Hr. unfold bind at 1 in Hr.
  match type of Hr with
  | context [doNetworkCommunications host ?m1] =>
      pose proof (Hnet m1 Hc Hs) as Hn;
      pose proof (clock_view_doNetworkCommunications host m1) as Hv;
      destruct (doNetworkCommunications host m1) as [sd m2|m2|e m2|m2]
  end; try (exfalso; now apply Hn).
  all: subst r; unfold same, clock_view in Hv; cbn [state_of] in *.
  all: pose proof (f_equal (fun v => fst (fst (fst v))) Hv) as Ht;
       pose proof (f_equal (fun v => snd (fst (fst v))) Hv) as Hk;
       cbn in Ht, Hk.
  all: repeat split; try (cbn; discriminate); assumption.
Qed.

Lemma participant_ends_on_terminate_witness :
  ending (doNetworkCommunications terminating_host due_participant) <> Returned
  /\ ending (scheduler terminating_host due_participant) <> Returned
  /\ totalElapsedTime_ms (state_of (scheduler terminating_host due_participant))
     = totalElapsedTime_ms due_participant
  /\ scenarioTimeStr (state_of (scheduler terminating_host due_participant))
     = scenarioTimeStr due_participant.
Proof.
  destruct (participant_ends_on_terminate terminating_host due_participant)
    as [Hnet Htick]; try reflexivity.
  split; [exact Hnet|]. apply Htick. vm_compute. discriminate.
Defined.

(** ** The error counter of the Host *)

Lemma counter_bounded_frame : frame counter_bounded.
Proof.
  assert (Hrefl : forall m, counter_bounded m m) by (intros m H; exact H).
  assert (Htrans : forall a b c, counter_bounded a b -> counter_bounded b c ->
                                 counter_bounded a c)
    by (unfold counter_bounded; auto).
  constructor; try assumption; try (intros x m H; exact H).
  - intros e _ m H. exact H.
  - apply stable_onEnd; try assumption.
    all: unfold ignores, counter_bounded; intros; assumption.
Qed.

Lemma counter_bounded_count (msg : CriticalMessage) :
  stable counter_bounded
    (counter <- gets error_counter ;;
     if 10 <? counter then showCriticalMessage msg
     else modify (fun m => set_error_counter (error_counter m + 1) m)).
Proof.
  intro m. unfold bind at 1. cbn [gets].
  destruct (Z.ltb_spec 10 (error_counter m)) as [Hgt|Hle].
  - apply stable_showCriticalMessage. apply counter_bounded_frame.
  - unfold modify, counter_bounded. cbn. lia.
Qed.

Lemma counter_bounded_reset (counter_before : Z) :
  stable counter_bounded
    (counter <- gets error_counter ;;
     when (counter_before =? counter) (modify (set_error_counter 0))).
Proof.
  intro m. unfold bind, gets, when, modify, ret, counter_bounded.
  destruct (counter_before =? error_counter m); cbn; lia.
Qed.

Lemma counter_bounded_remote_pass_new_input (new_input : Dict.t pyval) :
  stable counter_bounded (remote_pass_new_input new_input).
Proof.
  pose proof counter_bounded_frame as HF. frame_open HF.
  unfold remote_pass_new_input. apply stable_bind; [assumption| |intro counter_before].
  { now apply stable_gets. }
  apply stable_bind; [assumption| |intros _; apply counter_bounded_reset].
  apply stable_for_; try assumption. intros [plugin_name input_data].
  cbv beta zeta. cbn [fst snd].
  apply stable_bind; [assumption|now apply stable_gets|intro plugins].
  destruct (Dict.get plugin_name plugins) as [p|];
    [|now apply stable_showCriticalMessage].
  destruct (plugin_hasattr p "applyNewInputs");
    [|now apply stable_showCriticalMessage].
  apply stable_bind; [assumption|now apply stable_class_is_server|intros [|]].
  - apply stable_emit. apply (frame_emit _ HF). reflexivity.
  - apply counter_bounded_count.
Qed.

Lemma counter_bounded_step (s : Step) : stable counter_bounded (step s).
Proof.
  pose proof counter_bounded_frame as HF.
  assert (Hi : forall X (setter : X -> Main -> Main),
            (forall x m, error_counter (setter x m) = error_counter m) ->
            ignores counter_bounded setter).
  { intros X setter Hs x m. unfold counter_bounded. now rewrite Hs. }
  frame_open HF.
  assert (Hend : stable counter_bounded end_).
  { apply stable_end_; try assumption; try (apply Hi; reflexivity).
    intros e _ m0 Hb. exact Hb. }
  assert (Hremote : forall f a, quiet counter_bounded (EvCallRemote f a))
    by (intros f a m0 Hb; exact Hb).
  destruct s as [time_now timer_now host| | | | | | |new_input]; cbn [step];
    unfold ignore, remote_confirm_connected, remote_get_time.
  8: apply counter_bounded_remote_pass_new_input.
  all: stable_auto.
  all: try (apply Hi; reflexivity).
  all: first [ apply stable_scheduler; try assumption; apply Hi; reflexivity
             | now apply stable_onPause
             | now apply stable_onResume
             | apply stable_remote_get_sync_data; try assumption;
               apply Hi; reflexivity
             | idtac ].
Qed.

(** The error counter of the Host stays between 0 and 11 over every run:
    [remote_pass_new_input] adds to it only while it is at most 10, and
    nothing else writes it but the reset to 0. *)
Theorem error_counter_bounded (steps : list Step) (m : Main) :
  0 <= error_counter m <= 11 ->
  0 <= error_counter (state_of (run steps m)) <= 11.
Proof.
  revert m. unfold run.
  apply (stable_for_ counter_bounded).
  - apply (frame_refl _ counter_bounded_frame).
  - apply (frame_trans _ counter_bounded_frame).
  - apply counter_bounded_step.
Qed.

Lemma error_counter_bounded_witness :
  0 <= error_counter
         (state_of (run [RpcPassNewInput [("sysmon", PObj "keys")]%string;
                         Tick 100 100 h0]
                        (set_error_counter 10 host_Main))) <= 11.
Proof.
  apply (error_counter_bounded
           [RpcPassNewInput [("sysmon", PObj "keys")]%string; Tick 100 100 h0]
           (set_error_counter 10 host_Main)).
  cbn. lia.
Defined.

(** ** Remote calls *)

Lemma keeps_to_itself_refl (m : Main) : keeps_to_itself m m.
Proof. intro H. now split. Qed.

Lemma keeps_to_itself_trans (a b c : Main) :
  keeps_to_itself a b -> keeps_to_itself b c -> keeps_to_itself a c.
Proof.
  intros Hab Hbc Ha. destruct (Hab Ha) as [Hb Eb].
  destruct (Hbc Hb) as [Hc Ec]. split; congruence.
Qed.

Lemma keeps_to_itself_quiet (e : Event) :
  is_remote_call e = false -> quiet keeps_to_itself e.
Proof.
  intros He m Hc. split; [exact Hc|].
  unfold remote_calls. cbn [trace set_trace filter]. now rewrite He.
Qed.

Lemma keeps_to_itself_ignores {X} (setter : X -> Main -> Main) :
  (forall x m, is_client (setter x m) = is_client m) ->
  (forall x m, trace (setter x m) = trace m) ->
  ignores keeps_to_itself setter.
Proof.
  intros Hc Ht x m H. unfold remote_calls. rewrite Hc, Ht. now split.
Qed.

Lemma keeps_to_itself_end_ : stable keeps_to_itself end_.
Proof.
  apply stable_end_.
  - apply keeps_to_itself_refl.
  - apply keeps_to_itself_trans.
  - intros e He. apply keeps_to_itself_quiet. now destruct e.
  - intros m Hc. now split.
  - now apply keeps_to_itself_ignores.
Qed.

Lemma keeps_to_itself_onEnd : stable keeps_to_itself onEnd.
Proof.
  apply stable_onEnd.
  - apply keeps_to_itself_refl.
  - apply keeps_to_itself_trans.
  - intros e He. apply keeps_to_itself_quiet. now destruct e.
  - intros m Hc. now split.
  - now apply keeps_to_itself_ignores.
Qed.

Lemma keeps_to_itself_frame : frame keeps_to_itself.
Proof.
  constructor.
  - apply keeps_to_itself_refl.
  - apply keeps_to_itself_trans.
  - intros e He. apply keeps_to_itself_quiet. now destruct e.
  - apply keeps_to_itself_onEnd.
  - now apply keeps_to_itself_ignores.
  - now apply keeps_to_itself_ignores.
  - now apply keeps_to_itself_ignores.
  - now apply keeps_to_itself_ignores.
Qed.

Lemma keeps_to_itself_doNetworkCommunications (host : HostReplies) :
  stable keeps_to_itself (doNetworkCommunications host).
Proof.
  intros m Hc.
  assert (E : doNetworkCommunications host m = Ok None m).
  { unfold doNetworkCommunications. unfold bind at 1. cbn [gets]. rewrite Hc.
    reflexivity. }
  rewrite E. now split.
Qed.

Lemma keeps_to_itself_advance_clock (host : HostReplies) (elapsed : Z) :
  stable keeps_to_itself (advance_clock host elapsed).
Proof.
  intros m Hc.
  assert (E : advance_clock host elapsed m
              = Ok elapsed (set_time (totalElapsedTime_ms m + elapsed) m)).
  { unfold advance_clock. unfold bind at 1. cbn [gets]. rewrite Hc.
    reflexivity. }
  rewrite E. now split.
Qed.

Lemma keeps_to_itself_scheduler (host : HostReplies) :
  stable keeps_to_itself (scheduler host).
Proof.
  pose proof keeps_to_itself_frame as HF. frame_open HF.
  pose proof keeps_to_itself_end_.
  unfold scheduler, running_tick. stable_auto.
  all: first [ apply keeps_to_itself_doNetworkCommunications
             | apply keeps_to_itself_advance_clock
             | now apply stable_teardown_if_due
             | now apply stable_update_plugin_time
             | now apply stable_log_message
             | apply stable_scenarioUpdateTime;
               [assumption | now apply keeps_to_itself_ignores] ].
Qed.

Lemma keeps_to_itself_step (s : Step) : stable keeps_to_itself (step s).
Proof.
  pose proof keeps_to_itself_frame as HF. frame_open HF.
  destruct s; cbn [step];
    unfold ignore, remote_confirm_connected, remote_get_time; stable_auto.
  all: try (now apply keeps_to_itself_ignores).
  all: first [ apply keeps_to_itself_scheduler
             | now apply stable_onPause
             | now apply stable_onResume
             | apply stable_remote_get_sync_data; try assumption;
               now apply keeps_to_itself_ignores
             | apply stable_remote_pass_new_input; try assumption;
               now apply keeps_to_itself_ignores ].
Qed.

(** A session that is not a Participant (a Host or a local session) calls
    no remote method of a Host, whatever the run: [pass_new_input],
    [get_sync_data] and [get_time] are called by Participants only. *)
Theorem only_participants_call_the_host (steps : list Step) (m : Main) :
  is_client m = false ->
  is_client (state_of (run steps m)) = false
  /\ forall f a, In (EvCallRemote f a) (trace (state_of (run steps m))) ->
                 In (EvCallRemote f a) (trace m).
Proof.
  intro Hc.
  assert (Hrun : keeps_to_itself m (state_of (run steps m))).
  { revert m Hc. intros m _. revert m. unfold run.
    apply (stable_for_ keeps_to_itself).
    - apply keeps_to_itself_refl.
    - apply keeps_to_itself_trans.
    - apply keeps_to_itself_step. }
  destruct (Hrun Hc) as [Hc' Hcalls]. split; [exact Hc'|].
  intros f a Hin.
  assert (Hf : In (EvCallRemote f a) (remote_calls (state_of (run steps m)))).
  { apply filter_In. now split. }
  rewrite Hcalls in Hf. apply filter_In in Hf. tauto.
Qed.

Lemma only_participants_call_the_host_witness :
  is_client (state_of (run [Tick 500 500 h0; RpcGetSyncData 600;
                            Tick 1500 1500 h0] host_Main)) = false
  /\ forall f a,
       In (EvCallRemote f a)
          (trace (state_of (run [Tick 500 500 h0; RpcGetSyncData 600;
                                 Tick 1500 1500 h0] host_Main))) ->
       In (EvCallRemote f a) (trace host_Main).
Proof.
  apply (only_participants_call_the_host
           [Tick 500 500 h0; RpcGetSyncData 600; Tick 1500 1500 h0] host_Main).
  reflexivity.
Defined.

(** ** Keys and the close button *)

Lemma Dict_In_get {V} (k : string) (v : V) (d : Dict.t V) :
  NoDup (Dict.keys d) -> In (k, v) d -> Dict.get k d = Some v.
Proof.
  unfold Dict.keys. induction d as [|[k0 v0] d IH]; cbn [map fst In Dict.get];
    intros Hnd Hin; [contradiction|].
  inversion Hnd as [|? ? Hk Hnd']; subst.
  destruct Hin as [E|Hin].
  - injection E as -> ->. now rewrite String.eqb_refl.
  - destruct (String.eqb_spec k k0) as [->|Hne]; [|now apply IH].
    exfalso. apply Hk. change k0 with (fst (k0, v)). now apply in_map.
Qed.

Lemma key_body_entry (k : string) (p : PluginTask) (m : Main) :
  (key_receiver p = true ->
   k <> "__main__"%string /\ plugin_hasattr p "keyEvent" = true) ->
  Dict.get k (PLUGINS_TASK m) = Some p ->
  (p <- plugin_entry k ;;
   when (RECEIVE_KEY p && negb (taskPaused p) && taskRunning p) (keyEvent k))%py m
  = Ok tt (set_trace (key_events k p ++ trace m)
             (set_PLUGINS_TASK (Dict.set k p (PLUGINS_TASK m)) m)).
Proof.
  intros Hflags Hp. rewrite (Dict_set_same _ _ _ Hp), set_PLUGINS_TASK_same.
  unfold bind at 1. rewrite (plugin_entry_Ok _ _ _ Hp).
  unfold key_events. fold (key_receiver p).
  destruct (key_receiver p); cbn [when ret app]; [|now destruct m].
  destruct (Hflags eq_refl) as [Hne Hattr].
  unfold keyEvent, getPluginClass. apply String.eqb_neq in Hne. rewrite Hne.
  unfold bind at 1. unfold bind at 1. rewrite (plugin_entry_Ok _ _ _ Hp).
  cbn [ret]. unfold bind at 1. rewrite (plugin_entry_Ok _ _ _ Hp), Hattr.
  reflexivity.
Qed.

Lemma key_events_other (k k' method : string) (p' : PluginTask) :
  k' <> k -> filter (is_call k method) (key_events k' p') = [].
Proof.
  intro Hne. unfold key_events. destruct (key_receiver p'); [|reflexivity].
  cbn [filter]. now rewrite (is_call_other_plugin k k' method "keyEvent" Hne).
Qed.

(** [eventFilter] on the release of a key other than ESC, exactly. *)
Lemma key_release_run (key : Z) (m : Main) :
  key <> Key_Escape ->
  NoDup (Dict.keys (PLUGINS_TASK m)) ->
  flags_as_loaded m ->
  eventFilter (KeyRelease key) m
  = Ok Consumed
      (set_trace
         (add_events key_events (PLUGINS_TASK m)
            (EvLog ["MAIN"; "INPUT"; "KEY_RELEASE"; Py.fmt_d key]%string :: trace m))
         m).
Proof.
  intros Hkey Hnd Hflags. unfold eventFilter.
  unfold bind at 1. cbn [ret].
  apply Z.eqb_neq in Hkey. rewrite Hkey.
  unfold bind at 1. cbn [emit modify]. unfold bind at 1. cbn [gets].
  cbn [PLUGINS_TASK set_trace]. unfold bind at 1.
  match goal with
  | |- context [for_ _ ?b ?m0] =>
      pose proof (for_plugins b
                    (fun k p => key_receiver p = true ->
                       k <> "__main__"%string /\ plugin_hasattr p "keyEvent" = true)
                    (fun _ p => p) key_events
                    (fun k p m1 HP H => key_body_entry k p m1 HP H) m0) as Hloop
  end.
  cbn [PLUGINS_TASK set_trace trace] in Hloop.
  rewrite Hloop; [| exact Hnd |].
  - rewrite map_entries_same. cbn [ret]. f_equal. now destruct m.
  - apply Forall_forall. intros [k p] Hin. cbn [fst snd]. intro Hrec.
    assert (Hp : Dict.get k (PLUGINS_TASK m) = Some p).
    { now apply Dict_In_get. }
    apply (Hflags k p Hp).
    unfold key_receiver in Hrec.
    destruct (RECEIVE_KEY p); [reflexivity|discriminate].
Qed.

(** A key released, other than ESC, is handed to the [keyEvent] method of
    exactly the plugins that receive keys, run and are not paused, once
    each; [eventFilter] logs the release, returns [True] and leaves the
    plugin table and the session as they are. *)
Theorem key_release_reaches_receivers (key : Z) (m : Main) :
  key <> Key_Escape ->
  NoDup (Dict.keys (PLUGINS_TASK m)) ->
  flags_as_loaded m ->
  exists m',
    eventFilter (KeyRelease key) m = Ok Consumed m'
    /\ PLUGINS_TASK m' = PLUGINS_TASK m
    /\ experiment_running m' = experiment_running m
    /\ forall k p,
         Dict.get k (PLUGINS_TASK m) = Some p ->
         calls k "keyEvent" m'
         = (calls k "keyEvent" m
            + (if RECEIVE_KEY p && negb (taskPaused p) && taskRunning p
               then 1 else 0))%nat.
Proof.
  intros Hkey Hnd Hflags. rewrite (key_release_run key m Hkey Hnd Hflags).
  eexists. split; [reflexivity|]. split; [reflexivity|]. split; [reflexivity|].
  intros k p Hp. unfold calls. cbn [trace set_trace].
  rewrite calls_add_events by (auto using key_events_other).
  rewrite Hp. cbn [filter is_call]. unfold key_events. fold (key_receiver p).
  destruct (key_receiver p); cbn [filter is_call];
    rewrite ?String.eqb_refl; reflexivity.
Qed.

Lemma key_release_reaches_receivers_witness :
  exists m',
    eventFilter (KeyRelease 112) monitoring_Main = Ok Consumed m'
    /\ PLUGINS_TASK m' = PLUGINS_TASK monitoring_Main
    /\ experiment_running m' = experiment_running monitoring_Main
    /\ forall k p,
         Dict.get k (PLUGINS_TASK monitoring_Main) = Some p ->
         calls k "keyEvent" m'
         = (calls k "keyEvent" monitoring_Main
            + (if RECEIVE_KEY p && negb (taskPaused p) && taskRunning p
               then 1 else 0))%nat.
Proof.
  apply (key_release_reaches_receivers 112 monitoring_Main).
  - discriminate.
  - repeat constructor; cbn; intuition discriminate.
  - intros k p. cbn [PLUGINS_TASK monitoring_Main set_PLUGINS_TASK Dict.get].
    repeat match goal with
           | |- context [String.eqb k ?s] =>
               destruct (String.eqb_spec k s) as [->|?]
           end;
      intro Hp; try discriminate; injection Hp as <-;
      (split; [intro H; split; [discriminate|]|intro H]);
      first [reflexivity | discriminate H].
Defined.

Lemma pause_keeps_key_calls (hide_ui : bool) (k : string)
    (d : Dict.t PluginTask) (t : list Event) :
  filter (is_call k "keyEvent") (add_events (pause_events hide_ui) d t)
  = filter (is_call k "keyEvent") t.
Proof.
  revert t. induction d as [|[k0 p0] d IH]; intro t; [reflexivity|].
  cbn [add_events fold_left fst snd].
  change (fold_left _ d ?x) with (add_events (pause_events hide_ui) d x).
  rewrite IH, filter_app.
  assert (E : filter (is_call k "keyEvent") (pause_events hide_ui k0 p0) = []).
  { unfold pause_events. destruct (String.eqb k0 "__main__"); [reflexivity|].
    destruct (hide_ui && ui_label p0),
             (negb (taskPaused p0) && plugin_hasattr p0 "onPause");
      cbn [app filter is_call];
      destruct (String.eqb k0 k); reflexivity. }
  now rewrite E.
Qed.

Lemma key_receiver_paused (k : string) (p : PluginTask) :
  (RECEIVE_KEY p = true -> k <> "__main__"%string) ->
  key_receiver (pause_plugin k p) = false.
Proof.
  intro Hmain. unfold key_receiver, pause_plugin.
  destruct (String.eqb_spec k "__main__") as [->|Hne].
  - destruct (RECEIVE_KEY p); [now exfalso; apply Hmain|reflexivity].
  - rewrite paused_pause_entry. cbn [negb]. now rewrite andb_false_r.
Qed.

(** While the session is paused no key reaches a plugin: after [onPause]
    every plugin is marked paused, so that [eventFilter] logs the release
    of a key and calls no [keyEvent]. *)
Theorem paused_session_swallows_keys (hide_ui : bool) (key : Z) (m : Main) :
  key <> Key_Escape ->
  NoDup (Dict.keys (PLUGINS_TASK m)) ->
  flags_as_loaded m ->
  exists m',
    (onPause hide_ui ;; eventFilter (KeyRelease key)) m = Ok Consumed m'
    /\ experiment_pause m' = true
    /\ forall k, calls k "keyEvent" m' = calls k "keyEvent" m.
Proof.
  intros Hkey Hnd Hflags.
  unfold bind at 1. rewrite (onPause_run hide_ui m Hnd).
  match goal with
  | |- context [eventFilter _ ?m1] => remember m1 as m_p eqn:Em
  end.
  assert (Hnd1 : NoDup (Dict.keys (PLUGINS_TASK m_p))).
  { rewrite Em. cbn [PLUGINS_TASK set_trace set_PLUGINS_TASK].
    now rewrite Dict_keys_map_entries. }
  assert (Hget : forall k q, Dict.get k (PLUGINS_TASK m_p) = Some q ->
            exists p, Dict.get k (PLUGINS_TASK m) = Some p /\ q = pause_plugin k p).
  { intros k q. rewrite Em. cbn [PLUGINS_TASK set_trace set_PLUGINS_TASK].
    rewrite Dict_get_map_entries.
    destruct (Dict.get k (PLUGINS_TASK m)) as [p|]; [|discriminate].
    intro E. injection E as <-. now exists p. }
  assert (Hflags1 : flags_as_loaded m_p).
  { intros k q Hq. destruct (Hget k q Hq) as (p & Hp & ->).
    destruct (Hflags k p Hp) as [Hrec Hlog].
    unfold pause_plugin, pause_entry.
    destruct (String.eqb k "__main__"), (taskPaused p); split; assumption. }
  exists (set_trace
            (add_events key_events (PLUGINS_TASK m_p)
               (EvLog ["MAIN"; "INPUT"; "KEY_RELEASE"; Py.fmt_d key]%string
                :: trace m_p)) m_p).
  split; [exact (key_release_run key m_p Hkey Hnd1 Hflags1)|]. split.
  { rewrite Em. reflexivity. }
  intro k.
  assert (Hbefore : calls k "keyEvent" m_p = calls k "keyEvent" m).
  { rewrite Em. unfold calls. cbn [trace set_trace set_PLUGINS_TASK].
    rewrite pause_keeps_key_calls. reflexivity. }
  rewrite <- Hbefore. unfold calls. cbn [trace set_trace].
  rewrite calls_add_events by (auto using key_events_other).
  cbn [filter is_call].
  destruct (Dict.get k (PLUGINS_TASK m_p)) as [q|] eqn:Hq; [|lia].
  destruct (Hget k q Hq) as (p & Hp & ->).
  unfold key_events. rewrite key_receiver_paused; [cbn; lia|].
  intro Hr. apply (proj1 (Hflags k p Hp)). exact Hr.
Qed.

Lemma paused_session_swallows_keys_witness :
  exists m',
    (onPause true ;; eventFilter (KeyRelease 112)) monitoring_Main = Ok Consumed m'
    /\ experiment_pause m' = true
    /\ forall k, calls k "keyEvent" m' = calls k "keyEvent" monitoring_Main.
Proof.
  apply (paused_session_swallows_keys true 112 monitoring_Main).
  - discriminate.
  - repeat constructor; cbn; intuition discriminate.
  - intros k p. cbn [PLUGINS_TASK monitoring_Main set_PLUGINS_TASK Dict.get].
    repeat match goal with
           | |- context [String.eqb k ?s] =>
               destruct (String.eqb_spec k s) as [->|?]
           end;
      intro Hp; try discriminate; injection Hp as <-;
      (split; [intro H; split; [discriminate|]|intro H]);
      first [reflexivity | discriminate H].
Defined.

Lemma end_keeps_key_calls (k : string) (d : Dict.t PluginTask) (t : list Event) :
  filter (is_call k "keyEvent") (add_events end_events d t)
  = filter (is_call k "keyEvent") t.
Proof.
  revert t. induction d as [|[k0 p0] d IH]; intro t; [reflexivity|].
  cbn [add_events fold_left fst snd].
  change (fold_left _ d ?x) with (add_events end_events d x).
  rewrite IH, filter_app.
  assert (E : filter (is_call k "keyEvent") (end_events k0 p0) = []).
  { unfold end_events.
    destruct (negb (String.eqb k0 "__main__") && plugin_hasattr p0 "onEnd");
      cbn [filter is_call]; destruct (String.eqb k0 k); reflexivity. }
  now rewrite E.
Qed.

Lemma exit_trace_keeps_key_calls (k : string) (m : Main) :
  filter (is_call k "keyEvent") (exit_trace m)
  = filter (is_call k "keyEvent") (trace m).
Proof.
  unfold exit_trace, ended_trace, end_line.
  destruct (close_reenters m); cbn [filter is_call];
    rewrite ?end_keeps_key_calls; cbn [filter is_call];
    change (String.eqb "hide" "keyEvent") with false; rewrite ?andb_false_r;
    rewrite ?end_keeps_key_calls; reflexivity.
Qed.

(** The ESC key is never handed to a plugin.  Its release is logged and
    [eventFilter] returns [True]; when [allowescape] is set it ends the
    session first, which on a session that is not a Host leaves the
    process; when it is not set nothing else happens. *)
Theorem escape_ends_or_is_ignored (m : Main) (v : pyval) :
  NoDup (Dict.keys (PLUGINS_TASK m)) ->
  Dict.get "allowescape" (parameters m) = Some v ->
  exists m',
    eventFilter (KeyRelease Key_Escape) m
    = (if truthy v && negb (is_server m) then Exit m' else Ok Consumed m')
    /\ (forall k, calls k "keyEvent" m' = calls k "keyEvent" m)
    /\ experiment_running m' = (if truthy v then false else experiment_running m)
    /\ (truthy v = false ->
        m' = set_trace (EvLog ["MAIN"; "INPUT"; "KEY_RELEASE"; "ESC"]%string
                          :: trace m) m)
    /\ (truthy v = true -> is_server m = true ->
        ended_time m' = time_time m /\ stops m' = stops m).
Proof.
  intros Hnd Hv.
  assert (Hrun : forall r, r = eventFilter (KeyRelease Key_Escape) m ->
            r = (x <- (when (truthy v) onEnd) ;; ret Consumed)%py
                  (set_trace (EvLog ["MAIN"; "INPUT"; "KEY_RELEASE"; "ESC"]%string
                              :: trace m) m)).
  { intros r ->. unfold eventFilter. unfold bind at 1. cbn [ret].
    cbn [Z.eqb Key_Escape Pos.eqb]. unfold bind at 1. cbn [emit modify].
    unfold bind at 1. unfold main_parameter. cbn [parameters set_trace].
    rewrite Hv. reflexivity. }
  rewrite (Hrun _ eq_refl). clear Hrun.
  unfold bind. destruct (truthy v); cbn [when ret andb].
  - rewrite onEnd_run by exact Hnd. cbn [is_server set_trace].
    destruct (is_server m); cbn [negb]; eexists; (split; [reflexivity|]);
      (split; [|split; [reflexivity|split; [discriminate|]]]).
    + intro k. reflexivity.
    + intros _ _. split; reflexivity.
    + intro k. unfold calls. cbn [trace set_trace set_experiment_running].
      rewrite exit_trace_keeps_key_calls. reflexivity.
    + intros _ Hs. discriminate Hs.
  - eexists. split; [reflexivity|].
    split; [reflexivity|]. split; [reflexivity|]. split; [reflexivity|].
    discriminate.
Qed.

Lemma escape_ends_or_is_ignored_witness :
  exists m',
    eventFilter (KeyRelease Key_Escape) monitoring_Main
    = (if truthy (PBool true) && negb (is_server monitoring_Main)
       then Exit m' else Ok Consumed m')
    /\ (forall k, calls k "keyEvent" m' = calls k "keyEvent" monitoring_Main)
    /\ experiment_running m'
       = (if truthy (PBool true) then false else experiment_running monitoring_Main)
    /\ (truthy (PBool true) = false ->
        m' = set_trace (EvLog ["MAIN"; "INPUT"; "KEY_RELEASE"; "ESC"]%string
                          :: trace monitoring_Main) monitoring_Main)
    /\ (truthy (PBool true) = true -> is_server monitoring_Main = true ->
        ended_time m' = time_time monitoring_Main
        /\ stops m' = stops monitoring_Main).
Proof.
  apply (escape_ends_or_is_ignored monitoring_Main (PBool true)).
  - repeat constructor; cbn; intuition discriminate.
  - reflexivity.
Defined.

(** The close button (or ALT-F4) does nothing while [allowaltf4] is not
    set: the event is ignored and the state is untouched.  When it is set
    the window is hidden and the session ended; a Host then accepts the
    event and keeps its reactor running until the scheduler tears the
    session down, any other session leaves the process before it accepts
    the event. *)
Theorem close_button (m : Main) (v : pyval) :
  NoDup (Dict.keys (PLUGINS_TASK m)) ->
  Dict.get "allowaltf4" (parameters m) = Some v ->
  exists m',
    closeEvent m
    = (if truthy v then (if is_server m then Ok true m' else Exit m')
       else Ok false m')
    /\ (truthy v = false -> m' = m)
    /\ (truthy v = true ->
        experiment_running m' = false
        /\ calls "__main__" "hide" m' = S (calls "__main__" "hide" m)
        /\ (is_server m = true ->
            ended_time m' = time_time m /\ stops m' = stops m)).
Proof.
  intros Hnd Hv. rewrite closeEvent_run by exact Hnd.
  rewrite Hv. destruct (truthy v); [|exists m; repeat split; discriminate].
  destruct (is_server m); eexists; (split; [reflexivity|]);
    (split; [discriminate|]); intros _; repeat split; try discriminate.
  unfold calls, ended_trace, end_line.
  cbn [trace set_trace set_experiment_running PLUGINS_TASK filter is_call].
  assert (E : forall d t,
            List.length (filter (is_call "__main__" "hide") (add_events end_events d t))
            = List.length (filter (is_call "__main__" "hide") t)).
  { induction d as [|[k0 p0] d IH]; intro t; [reflexivity|].
    cbn [add_events fold_left fst snd].
    change (fold_left _ d ?x) with (add_events end_events d x).
    rewrite IH, filter_app, length_app. unfold end_events.
    destruct (String.eqb_spec k0 "__main__") as [->|Hne]; cbn [negb andb];
      [reflexivity|].
    destruct (plugin_hasattr p0 "onEnd"); cbn [filter is_call];
      [|reflexivity].
    apply String.eqb_neq in Hne. rewrite Hne. reflexivity. }
  rewrite E. reflexivity.
Qed.

Lemma close_button_witness :
  exists m',
    closeEvent host_Main
    = (if truthy (PBool true)
       then (if is_server host_Main then Ok true m' else Exit m')
       else Ok false m')
    /\ (truthy (PBool true) = false -> m' = host_Main)
    /\ (truthy (PBool true) = true ->
        experiment_running m' = false
        /\ calls "__main__" "hide" m' = S (calls "__main__" "hide" host_Main)
        /\ (is_server host_Main = true ->
            ended_time m' = time_time host_Main /\ stops m' = stops host_Main)).
Proof.
  apply (close_button host_Main (PBool true)).
  - repeat constructor; cbn; intuition discriminate.
  - reflexivity.
Defined.

(** ** The log relay *)

Lemma log_body_entry (k : string) (p : PluginTask) (m : Main) :
  (NEED_LOG p = true -> plugin_hasattr p "onLog" = true) ->
  Dict.get k (PLUGINS_TASK m) = Some p ->
  (loaded <- gets loadedTasks ;;
   when (Py.mem k loaded)
     (p <- plugin_entry k ;;
      when (NEED_LOG p)
        (if plugin_hasattr p "onLog" then emit (EvCall k "onLog")
         else raise (AttributeError "onLog"))))%py m
  = Ok tt (set_trace (log_events (loadedTasks m) k p ++ trace m)
             (set_PLUGINS_TASK (Dict.set k p (PLUGINS_TASK m)) m)).
Proof.
  intros Hflag Hp. rewrite (Dict_set_same _ _ _ Hp), set_PLUGINS_TASK_same.
  unfold bind at 1. cbn [gets]. unfold log_events.
  destruct (Py.mem k (loadedTasks m)); cbn [when ret andb app];
    [|now destruct m].
  unfold bind at 1. rewrite (plugin_entry_Ok _ _ _ Hp).
  destruct (NEED_LOG p); cbn [when ret app]; [|now destruct m].
  now rewrite (Hflag eq_refl).
Qed.

Lemma log_events_other (loaded : list string) (k k' method : string)
    (p' : PluginTask) :
  k' <> k -> filter (is_call k method) (log_events loaded k' p') = [].
Proof.
  intro Hne. unfold log_events.
  destruct (Py.mem k' loaded && NEED_LOG p'); [|reflexivity].
  cbn [filter]. now rewrite (is_call_other_plugin k k' method "onLog" Hne).
Qed.

(** A log line is relayed to the [onLog] method of exactly the plugins
    that are loaded by the scenario and need the log, once each;
    [sendLogToPlugins] changes nothing else. *)
Theorem log_line_reaches_loaded_listeners (stringLine : string) (m : Main) :
  NoDup (Dict.keys (PLUGINS_TASK m)) ->
  flags_as_loaded m ->
  exists m',
    sendLogToPlugins stringLine m = Ok tt m'
    /\ m' = set_trace (trace m') m
    /\ forall k p,
         Dict.get k (PLUGINS_TASK m) = Some p ->
         calls k "onLog" m'
         = (calls k "onLog" m
            + (if Py.mem k (loadedTasks m) && NEED_LOG p then 1 else 0))%nat.
Proof.
  intros Hnd Hflags. unfold sendLogToPlugins.
  unfold bind at 1. cbn [gets].
  assert (Hloop : forall done todo m0,
            PLUGINS_TASK m0 = done ++ todo ->
            NoDup (Dict.keys (done ++ todo)) ->
            Forall (fun kv => NEED_LOG (snd kv) = true ->
                              plugin_hasattr (snd kv) "onLog" = true) todo ->
            for_ (Dict.keys todo)
              (fun plugin_name =>
                 loaded <- gets loadedTasks ;;
                 when (Py.mem plugin_name loaded)
                   (p <- plugin_entry plugin_name ;;
                    when (NEED_LOG p)
                      (if plugin_hasattr p "onLog"
                       then emit (EvCall plugin_name "onLog")
                       else raise (AttributeError "onLog"))))%py m0
            = Ok tt (set_trace
                       (add_events (log_events (loadedTasks m0)) todo (trace m0)) m0)).
  { intros done todo. revert done.
    induction todo as [|[k p] todo IH]; intros done m0 Hm Hnd0 HP.
    - cbn. unfold ret. f_equal. now destruct m0.
    - assert (Hk : ~ In k (Dict.keys done)).
      { unfold Dict.keys in *. rewrite map_app in Hnd0. simpl in Hnd0.
        apply NoDup_remove_2 in Hnd0. rewrite in_app_iff in Hnd0. tauto. }
      assert (Hget : Dict.get k (PLUGINS_TASK m0) = Some p).
      { rewrite Hm, Dict_get_app_notin by exact Hk. simpl.
        now rewrite String.eqb_refl. }
      inversion HP as [|? ? HPk HPrest]; subst.
      cbn [Dict.keys map fst for_]. unfold bind at 1.
      rewrite (log_body_entry k p m0 HPk Hget).
      rewrite (Dict_set_same _ _ _ Hget), set_PLUGINS_TASK_same.
      fold (Dict.keys todo).
      rewrite (IH (done ++ [(k, p)])).
      + reflexivity.
      + cbn [PLUGINS_TASK set_trace]. rewrite Hm, <- app_assoc. reflexivity.
      + rewrite <- app_assoc. exact Hnd0.
      + exact HPrest. }
  rewrite (Hloop [] (PLUGINS_TASK m) m eq_refl Hnd).
  2: { apply Forall_forall. intros [k p] Hin. cbn [snd].
       apply (Hflags k p). now apply Dict_In_get. }
  eexists. split; [reflexivity|]. split; [reflexivity|].
  intros k p Hp. unfold calls. cbn [trace set_trace].
  rewrite calls_add_events by (auto using log_events_other).
  rewrite Hp. unfold log_events.
  destruct (Py.mem k (loadedTasks m) && NEED_LOG p); cbn [filter is_call];
    rewrite ?String.eqb_refl; reflexivity.
Qed.

Lemma log_line_reaches_loaded_listeners_witness :
  exists m',
    sendLogToPlugins "MAIN;STATE;TRACK;START" recording_Main = Ok tt m'
    /\ m' = set_trace (trace m') recording_Main
    /\ forall k p,
         Dict.get k (PLUGINS_TASK recording_Main) = Some p ->
         calls k "onLog" m'
         = (calls k "onLog" recording_Main
            + (if Py.mem k (loadedTasks recording_Main) && NEED_LOG p
               then 1 else 0))%nat.
Proof.
  apply (log_line_reaches_loaded_listeners "MAIN;STATE;TRACK;START" recording_Main).
  - repeat constructor; cbn; intuition discriminate.
  - intros k p. cbn [PLUGINS_TASK recording_Main set_PLUGINS_TASK Dict.get].
    repeat match goal with
           | |- context [String.eqb k ?s] =>
               destruct (String.eqb_spec k s) as [->|?]
           end;
      intro Hp; try discriminate; injection Hp as <-;
      (split; [intro H; split; [discriminate|]|intro H]);
      first [reflexivity | discriminate H].
Defined.

(** ** The configuration file *)

Lemma split_no_equals (s : string) :
  no_equals s = true -> Py.split "=" s = [s].
Proof.
  induction s as [|c r IH]; cbn [no_equals Py.split]; [reflexivity|].
  intro H. apply andb_true_iff in H. destruct H as [Hc Hr].
  apply negb_true_iff in Hc. rewrite Hc, (IH Hr). reflexivity.
Qed.

Lemma split_key_value (key value : string) :
  no_equals key = true -> no_equals value = true ->
  Py.split "=" (key ++ "=" ++ value) = [key; value].
Proof.
  intros Hk Hv. induction key as [|c r IH].
  - cbn. now rewrite (split_no_equals value Hv).
  - cbn [no_equals] in Hk. apply andb_true_iff in Hk. destruct Hk as [Hc Hr].
    apply negb_true_iff in Hc.
    change ((String c r ++ "=" ++ value)%string)
      with (String c (r ++ "=" ++ value)%string).
    cbn [Py.split]. rewrite Hc, (IH Hr). reflexivity.
Qed.

Lemma config_line_other (key line : string) (CONFIG : Dict.t string) :
  sets_key key line = false ->
  Dict.get key (config_line CONFIG line) = Dict.get key CONFIG.
Proof.
  unfold sets_key, config_line.
  destruct (Py.split "=" line) as [|k [|v [|x rest]]]; try reflexivity.
  intro Hk. apply Dict_get_set_other. intros ->.
  now rewrite String.eqb_refl in Hk.
Qed.

Lemma config_lines_other (key : string) (lines : list string) :
  forall CONFIG,
    forallb (fun line => negb (sets_key key line)) lines = true ->
    Dict.get key (fold_left config_line lines CONFIG) = Dict.get key CONFIG.
Proof.
  induction lines as [|line rest IH]; intros CONFIG H; [reflexivity|].
  cbn [forallb] in H. apply andb_true_iff in H. destruct H as [Hl Hr].
  apply negb_true_iff in Hl. cbn [fold_left].
  rewrite (IH _ Hr). now apply config_line_other.
Qed.

(** A line [key=value] of [config.txt] is what [getConfigValue] returns
    for [key], whatever the default, when no later line sets the key: the
    last setting wins, and the value is the rest of the line as it stands
    (with the line end, if the line has one). *)
Theorem config_last_setting_wins (before after : list string)
    (key value defaultvalue : string) (CONFIG : Dict.t string) :
  no_equals key = true -> no_equals value = true ->
  forallb (fun line => negb (sets_key key line)) after = true ->
  getConfigValue
    (fst (loadConfig (Some (before ++ [(key ++ "=" ++ value)%string] ++ after)) CONFIG))
    key defaultvalue
  = value.
Proof.
  intros Hk Hv Hafter. unfold getConfigValue, loadConfig. cbn [fst].
  rewrite !fold_left_app. rewrite (config_lines_other key after _ Hafter).
  cbn [fold_left]. unfold config_line at 1.
  rewrite (split_key_value key value Hk Hv).
  now rewrite Dict_get_set_same.
Qed.

Lemma config_last_setting_wins_witness :
  getConfigValue
    (fst (loadConfig
            (Some (config_head ++ [("language" ++ "=" ++ ("fr" ++ LF))%string]
                   ++ config_tail))
            []))
    "language" "en"
  = ("fr" ++ LF)%string.
Proof.
  apply (config_last_setting_wins config_head config_tail
           "language" ("fr" ++ LF)%string "en" []);
    reflexivity.
Defined.

(** A key that no line of the file sets keeps the value it had in
    [CONFIG], and [getConfigValue] gives the default when it had none;
    the same holds when [config.txt] does not exist.  Lines without
    exactly one [=] set nothing. *)
Theorem config_unset_key_gives_default (file : option (list string))
    (key defaultvalue : string) (CONFIG : Dict.t string) :
  match file with
  | Some lines => forallb (fun line => negb (sets_key key line)) lines = true
  | None => True
  end ->
  getConfigValue (fst (loadConfig file CONFIG)) key defaultvalue
  = getConfigValue CONFIG key defaultvalue
  /\ (Dict.get key CONFIG = None ->
      getConfigValue (fst (loadConfig file CONFIG)) key defaultvalue = defaultvalue).
Proof.
  intro H.
  assert (E : Dict.get key (fst (loadConfig file CONFIG)) = Dict.get key CONFIG).
  { unfold loadConfig. cbn [fst]. destruct file as [lines|]; [|reflexivity].
    now apply config_lines_other. }
  unfold getConfigValue. rewrite E. split; [reflexivity|].
  now intros ->.
Qed.

Lemma config_unset_key_gives_default_witness :
  getConfigValue
    (fst (loadConfig (Some ["language=de=ch"; "screen=0"; "language"]%string) []))
    "language" "en"
  = getConfigValue [] "language" "en"
  /\ (Dict.get "language" ([] : Dict.t string) = None ->
      getConfigValue
        (fst (loadConfig (Some ["language=de=ch"; "screen=0"; "language"]%string) []))
        "language" "en"
      = "en"%string).
Proof.
  apply (config_unset_key_gives_default
           (Some ["language=de=ch"; "screen=0"; "language"]%string)
           "language" "en" []).
  reflexivity.
Defined.

(** ** The Host without its Participant *)

Lemma end_on_host (m : Main) :
  NoDup (Dict.keys (PLUGINS_TASK m)) ->
  is_server m = true ->
  exists m',
    end_ m = Ok tt m'
    /\ is_server m' = true
    /\ stops m' = S (stops m).
Proof.
  intros Hnd Hs. rewrite end_run by exact Hnd. rewrite Hs.
  destruct (close_reenters m); eexists; (split; [reflexivity|]);
    (split; [exact Hs|]);
    unfold stops, ended_trace, end_line;
    cbn [trace set_trace set_ended_time set_experiment_running
         filter is_stop List.length];
    now rewrite end_events_stops.
Qed.

Lemma teardown_run (m : Main) :
  NoDup (Dict.keys (PLUGINS_TASK m)) ->
  teardown_due m = true ->
  exists m',
    teardown_if_due m = Ok tt m'
    /\ is_server m' = true
    /\ stops m' = S (stops m).
Proof.
  intros Hnd Hdue.
  assert (Hs : is_server m = true).
  { unfold teardown_due in Hdue. now destruct (is_server m). }
  unfold teardown_if_due. unfold bind at 1. cbn [gets]. rewrite Hdue.
  cbn [when]. unfold bind at 1. cbn [gets]. unfold bind at 1.
  destruct (connection_timeout m <? time_time m - last_client_sync m);
    cbn [when emit modify ret].
  all: match goal with
       | |- exists m', end_ ?m0 = _ /\ _ =>
           destruct (end_on_host m0 Hnd Hs) as (m' & Hrun & Hs' & Hst)
       end.
  all: exists m'; split; [exact Hrun|]; split; [exact Hs'|].
  all: rewrite Hst; reflexivity.
Qed.

(** A tick of the Host that is due and finds the termination condition
    true stops the reactor, once: so a Host whose Participant has been
    silent for longer than [connection_timeout] ends at its next tick,
    also while its experiment is still running. *)
Theorem due_host_tick_stops_reactor (m : Main) (time_now timer_now : Z)
    (host : HostReplies) :
  is_server m = true -> is_client m = false ->
  NoDup (Dict.keys (PLUGINS_TASK m)) ->
  MAIN_SCHEDULER_INTERVAL <= timer_now - last_time_microsec m ->
  teardown_due (set_time_time time_now m) = true ->
  stops (state_of (step (Tick time_now timer_now host) m)) = S (stops m).
Proof.
  intros Hserver Hclient Hnd Htick Hdue.
  cbn [step]. unfold bind at 1. cbn [modify]. unfold bind at 1. cbn [modify].
  unfold scheduler. unfold bind at 1. cbn [gets]. unfold bind at 1. cbn [gets].
  cbn [default_timer set_default_timer last_time_microsec set_time_time].
  apply Z.ltb_ge in Htick. rewrite Htick.
  unfold bind at 1. cbn [modify]. unfold bind at 1.
  unfold doNetworkCommunications. unfold bind at 1. cbn [gets].
  cbn [is_client set_last_time_microsec set_default_timer set_time_time].
  rewrite Hclient. cbn [when]. unfold bind at 1. cbn [ret]. unfold bind at 1.
  cbn [ret]. unfold bind at 1. cbn [ret]. unfold bind at 1. cbn [ret].
  unfold bind at 1.
  match goal with
  | |- context [teardown_if_due ?m0] =>
      destruct (teardown_run m0) as (m_t & Hrun & Hs_t & Hstops_t);
        [exact Hnd | exact Hdue | rewrite Hrun]
  end.
  cbv beta iota. unfold gets at 1. cbv beta iota.
  match goal with
  | |- stops (state_of (?c ?m0)) = _ =>
      assert (Hst : stable host_goes_on c)
  end.
  { pose proof host_goes_on_frame as HF. frame_open HF. stable_auto.
    apply stable_running_tick; [exact HF| | |].
    - intros x m0 Hx. split; [exact Hx | reflexivity].
    - intros x m0 Hx. split; [exact Hx | reflexivity].
    - intros f0 a0 m0 Hx. split; [exact Hx | reflexivity]. }
  destruct (Hst m_t Hs_t) as [_ Hs]. rewrite Hs, Hstops_t.
  unfold stops. reflexivity.
Qed.

Lemma due_host_tick_stops_reactor_witness :
  stops (state_of (step (Tick 9000 40 h0) host_Main)) = S (stops host_Main).
Proof.
  apply (due_host_tick_stops_reactor host_Main 9000 40 h0); try reflexivity.
  - repeat constructor; cbn; intuition discriminate.
  - cbn. unfold MAIN_SCHEDULER_INTERVAL. lia.
Defined.

(** ** Scenario commands on the window itself *)

Lemma set_allowaltf4_false (value : string) (b : bool) (m : Main) :
  Dict.get "allowaltf4" (parameters m) = Some (PBool b) ->
  Py.lower value = "false"%string ->
  setParameterVariable "__main__" SelfClass "allowaltf4" value m
  = Ok tt (set_parameters (Dict.set "allowaltf4" (PBool false) (parameters m)) m).
Proof.
  intros Hold Hval.
  assert (Htruthy : truthy (PDict (parameters m)) = true).
  { cbn [truthy]. destruct (parameters m); [discriminate|reflexivity]. }
  unfold setParameterVariable. unfold bind at 1.
  cbn [gets taskclass_parameters]. rewrite Htruthy. cbn [negb].
  change (Py.split "-" "allowaltf4") with ["allowaltf4"%string].
  cbn [assign_at]. rewrite Hold. cbn [coerce]. rewrite Hval.
  change (String.eqb "false" "true") with false. cbv iota.
  change (String.eqb "false" "false") with true. cbv iota.
  reflexivity.
Qed.

Lemma set_allowescape_false (value : string) (b : bool) (m : Main) :
  Dict.get "allowescape" (parameters m) = Some (PBool b) ->
  Py.lower value = "false"%string ->
  setParameterVariable "__main__" SelfClass "allowescape" value m
  = Ok tt (set_parameters (Dict.set "allowescape" (PBool false) (parameters m)) m).
Proof.
  intros Hold Hval.
  assert (Htruthy : truthy (PDict (parameters m)) = true).
  { cbn [truthy]. destruct (parameters m); [discriminate|reflexivity]. }
  unfold setParameterVariable. unfold bind at 1.
  cbn [gets taskclass_parameters]. rewrite Htruthy. cbn [negb].
  change (Py.split "-" "allowescape") with ["allowescape"%string].
  cbn [assign_at]. rewrite Hold. cbn [coerce]. rewrite Hval.
  change (String.eqb "false" "true") with false. cbv iota.
  change (String.eqb "false" "false") with true. cbv iota.
  reflexivity.
Qed.

(** A scenario can lock the window: once the command [allowaltf4;false]
    on [__main__] has run, the close button is ignored, and once
    [allowescape;false] has run, the ESC key is only logged; in both
    cases the session goes on. *)
Theorem scenario_locks_the_window (value : string) (b1 b2 : bool) (m : Main) :
  Dict.get "allowaltf4" (parameters m) = Some (PBool b1) ->
  Dict.get "allowescape" (parameters m) = Some (PBool b2) ->
  Py.lower value = "false"%string ->
  (setParameterVariable "__main__" SelfClass "allowaltf4" value ;; closeEvent) m
  = Ok false (set_parameters (Dict.set "allowaltf4" (PBool false) (parameters m)) m)
  /\ (setParameterVariable "__main__" SelfClass "allowescape" value ;;
      eventFilter (KeyRelease Key_Escape)) m
     = Ok Consumed
         (set_trace (EvLog ["MAIN"; "INPUT"; "KEY_RELEASE"; "ESC"]%string :: trace m)
            (set_parameters (Dict.set "allowescape" (PBool false) (parameters m)) m)).
Proof.
  intros Hclose Hesc Hval. split.
  - unfold bind at 1. rewrite (set_allowaltf4_false value b1 m Hclose Hval).
    unfold closeEvent, bind, main_parameter. cbn [parameters set_parameters].
    rewrite Dict_get_set_same. reflexivity.
  - unfold bind at 1. rewrite (set_allowescape_false value b2 m Hesc Hval).
    unfold eventFilter. unfold bind at 1. cbn [ret].
    cbn [Z.eqb Key_Escape Pos.eqb]. unfold bind at 1. cbn [emit modify].
    unfold bind at 1. unfold main_parameter.
    cbn [parameters set_parameters set_trace].
    rewrite Dict_get_set_same. reflexivity.
Qed.

Lemma scenario_locks_the_window_witness :
  (setParameterVariable "__main__" SelfClass "allowaltf4" "False" ;; closeEvent)
    local_Main
  = Ok false
      (set_parameters (Dict.set "allowaltf4" (PBool false) (parameters local_Main))
         local_Main)
  /\ (setParameterVariable "__main__" SelfClass "allowescape" "False" ;;
      eventFilter (KeyRelease Key_Escape)) local_Main
     = Ok Consumed
         (set_trace (EvLog ["MAIN"; "INPUT"; "KEY_RELEASE"; "ESC"]%string
                     :: trace local_Main)
            (set_parameters
               (Dict.set "allowescape" (PBool false) (parameters local_Main))
               local_Main)).
Proof.
  apply (scenario_locks_the_window "False" true true local_Main); reflexivity.
Defined.

(** ** Labels *)

Lemma label_follows_body (k plugin_name : string) (m : Main) :
  label_follows k [plugin_name] m
    (state_of
       (when (negb (String.eqb plugin_name "__main__"))
          (p <- plugin_entry plugin_name ;;
           when (ui_label p)
             (if negb (taskVisible p) then emit (EvLabel plugin_name false)
              else
                match Dict.get "title" (task_parameters (class p)) with
                | Some (PStr title) =>
                    emit (EvSetTitle plugin_name (Py.upper title)) ;;
                    emit (EvLabel plugin_name true)
                | Some _ => raise (AttributeError "upper")
                | None => raise (KeyError "title")
                end))%py m)).
Proof.
  assert (Hsame : label_follows k [plugin_name] m m)
    by (split; [reflexivity|intros shown H; now left]).
  destruct (String.eqb_spec plugin_name "__main__") as [->|Hmain];
    cbn [negb when ret state_of]; [exact Hsame|].
  unfold plugin_entry, bind.
  destruct (Dict.get plugin_name (PLUGINS_TASK m)) as [p|] eqn:Hp;
    [|exact Hsame].
  destruct (ui_label p) eqn:Hlabel; cbn [when ret state_of]; [|exact Hsame].
  assert (Hnew : forall shown t,
            taskVisible p = shown ->
            (forall e, In e t -> e = EvLabel plugin_name shown
                                 \/ (forall b, e <> EvLabel k b)) ->
            label_follows k [plugin_name] m (set_trace (t ++ trace m) m)).
  { intros shown t Hvis Ht. split; [reflexivity|].
    intros b Hin. cbn [trace set_trace] in Hin. apply in_app_iff in Hin.
    destruct Hin as [Hin|Hin]; [|now left].
    destruct (Ht _ Hin) as [E|E]; [|now elim (E b)].
    injection E as <- <-. right. split; [now left|]. split; [exact Hmain|].
    exists p. auto. }
  destruct (taskVisible p) eqn:Hvis; cbn [negb].
  - destruct (Dict.get "title" (task_parameters (class p))) as [[| | | |title| |]|];
      cbn [raise state_of]; try exact Hsame.
    cbn [emit modify state_of trace set_trace].
    apply (Hnew true [EvLabel plugin_name true;
                      EvSetTitle plugin_name (Py.upper title)] eq_refl).
    intros e [<-|[<-|[]]]; [now left|right; discriminate].
  - cbn [emit modify state_of].
    apply (Hnew false [EvLabel plugin_name false] eq_refl).
    intros e [<-|[]]. now left.
Qed.

Lemma label_follows_loop (k : string) (body : string -> M unit) :
  (forall x m, label_follows k [x] m (state_of (body x m))) ->
  forall tasks m, label_follows k tasks m (state_of (for_ tasks body m)).
Proof.
  intros Hbody. induction tasks as [|x rest IH]; intro m.
  - split; [reflexivity|]. intros shown H. now left.
  - cbn [for_]. rewrite state_of_bind.
    pose proof (Hbody x m) as [Hp1 H1].
    destruct (body x m) as [[] m1|m1|e m1|m1]; cbn [state_of] in *.
    2-4: split; [exact Hp1|]; intros shown Hin;
         destruct (H1 shown Hin) as [H|(Hk & Hne & Hex)]; [now left|right];
         (split; [destruct Hk as [->|[]]; now left|]); now split.
    destruct (IH m1) as [Hp2 H2]. split; [congruence|].
    intros shown Hin. destruct (H2 shown Hin) as [H|(Hk & Hne & Hex)].
    + destruct (H1 shown H) as [H'|(Hk & Hne & Hex)]; [now left|right].
      split; [destruct Hk as [->|[]]; now left|]. now split.
    + right. split; [now right|]. split; [exact Hne|]. now rewrite <- Hp1.
Qed.

(** [updateLabels] shows the label of a plugin only if the plugin is
    loaded, has a label and is visible, and hides it only if the plugin is
    loaded, has a label and is not visible; it never touches the plugin
    table. *)
Theorem labels_follow_visibility (k : string) (shown : bool) (m : Main) :
  In (EvLabel k shown) (trace (state_of (updateLabels m))) ->
  ~ In (EvLabel k shown) (trace m) ->
  In k (loadedTasks m) /\ k <> "__main__"%string
  /\ exists p, Dict.get k (PLUGINS_TASK m) = Some p
               /\ ui_label p = true /\ taskVisible p = shown.
Proof.
  intros Hin Hnew. unfold updateLabels in Hin.
  rewrite state_of_bind in Hin. cbn [gets] in Hin.
  match type of Hin with
  | context [for_ _ ?b m] =>
      pose proof (label_follows_loop k b
                    (fun x m0 => label_follows_body k x m0)
                    (loadedTasks m) m) as [_ H]
  end.
  destruct (H shown Hin) as [Hold|Hk]; [contradiction|exact Hk].
Qed.

Lemma labels_follow_visibility_witness :
  In "sysmon"%string (loadedTasks monitoring_Main)
  /\ "sysmon"%string <> "__main__"%string
  /\ exists p, Dict.get "sysmon" (PLUGINS_TASK monitoring_Main) = Some p
               /\ ui_label p = true /\ taskVisible p = true.
Proof.
  apply (labels_follow_visibility "sysmon" true monitoring_Main).
  - vm_compute. tauto.
  - vm_compute. tauto.
Defined.
